(** * go-micro: the order-creation workflow and its error taxonomy

    A shallow embedding of the packages [pkg/errors], [internal/users/domain],
    [internal/orders/domain], [internal/orders/application] and of the
    collaborators the order use case talks to, followed by the properties of
    the workflow.

    Conventions of the embedding:
    - Go's [uint] is [N]; the values of the program lie below [2^64], and
      no arithmetic on identifiers happens in the code modelled here apart
      from the test double's [nextID++], which wraps.
    - Go's [string] is [String.string] (a sequence of bytes); [len] is
      [String.length].
    - Go's [float64] is an IEEE-754 value of [SpecFloat.spec_float];
      [<=] and [>] are [SFleb] and [SFltb], so NaN compares false.
    - a Go [error] interface value is [option error]: [None] is [nil].
    - a pointer to a struct that the callee fills in is modelled by
      returning the updated struct. *)

From Stdlib Require Import NArith ZArith String Ascii List Bool Lia.
From Stdlib Require Import DecimalString DecimalPos DecimalN SpecFloat.
From stdpp Require Import base option gmap strings.

Set Warnings "-register-all".
Local Open Scope string_scope.

Definition uint := N.
Definition float64 := spec_float.

(** ** google.golang.org/grpc/codes *)
Module codes.

Inductive Code :=
| OK | Canceled | Unknown | InvalidArgument | DeadlineExceeded | NotFound
| AlreadyExists | PermissionDenied | ResourceExhausted | FailedPrecondition
| Aborted | OutOfRange | Unimplemented | Internal | Unavailable | DataLoss
| Unauthenticated.

(** [Code.String]. *)
Definition String (c : Code) : string :=
  match c with
  | OK => "OK" | Canceled => "Canceled" | Unknown => "Unknown"
  | InvalidArgument => "InvalidArgument"
  | DeadlineExceeded => "DeadlineExceeded" | NotFound => "NotFound"
  | AlreadyExists => "AlreadyExists"
  | PermissionDenied => "PermissionDenied"
  | ResourceExhausted => "ResourceExhausted"
  | FailedPrecondition => "FailedPrecondition" | Aborted => "Aborted"
  | OutOfRange => "OutOfRange" | Unimplemented => "Unimplemented"
  | Internal => "Internal" | Unavailable => "Unavailable"
  | DataLoss => "DataLoss" | Unauthenticated => "Unauthenticated"
  end.

End codes.

(** ** package errors (pkg/errors) *)
Module errors.

Definition CodeValidation := "VALIDATION_ERROR".
Definition CodeNotFound := "NOT_FOUND".
Definition CodeConflict := "CONFLICT".
Definition CodeInternal := "INTERNAL_ERROR".
Definition CodeUnauthorized := "UNAUTHORIZED".
Definition CodeForbidden := "FORBIDDEN".

(** The values that reach [Details interface{}] in this repository: a
    string, an unsigned integer, or a [map[string]interface{}]. *)
Inductive any :=
| AnyString (s : string)
| AnyUint (n : uint)
| AnyMap (m : gmap string any).

(** The struct [AppError]; its [Err] field holds a Go [error], whose type
    is defined next, hence the parameter. *)
Record AppErrorOf (E : Type) := mkAppError {
  Code : string;
  Message : string;
  Details : option any;
  Err : option E
}.
Arguments mkAppError {E}.
Arguments Code {E}.
Arguments Message {E}.
Arguments Details {E}.
Arguments Err {E}.

(** Go's [error] values.  [AppErr] is a [*AppError]; the other
    constructors are the foreign errors the code meets: a gRPC status error
    ([status.Error]), an error that wraps another one ([fmt.Errorf] with
    [%w]; [text] is what its [Error()] prints), and an error with no
    structure at all ([errors.New], [gorm.ErrRecordNotFound], ...). *)
Inductive error :=
| AppErr (e : AppErrorOf error)
| StatusErr (c : codes.Code) (msg : string)
| WrapErr (text : string) (inner : error)
| OpaqueErr (text : string).

Abbreviation AppError := (AppErrorOf error).

(** [errors.As(err, &appErr)] of the standard library, for a target of type
    [*AppError]: the first [*AppError] on the [Unwrap] chain.  An
    [*AppError] is found before its own [Unwrap] is followed; a status
    error and an opaque error have no [Unwrap]. *)
Fixpoint As (err : error) : option AppError :=
  match err with
  | AppErr e => Some e
  | WrapErr _ inner => As inner
  | StatusErr _ _ | OpaqueErr _ => None
  end.

(** The same for a [nil]-able interface value. *)
Definition As' (err : option error) : option AppError :=
  match err with
  | Some e => As e
  | None => None
  end.

(** [AppError.Error] and the [Error] methods of the foreign errors. *)
Fixpoint Error (err : error) : string :=
  match err with
  | AppErr e =>
      match Err e with
      | Some cause => Code e ++ ": " ++ Message e ++ ": " ++ Error cause
      | None => Code e ++ ": " ++ Message e
      end
  | StatusErr c msg => "rpc error: code = " ++ codes.String c ++ " desc = " ++ msg
  | WrapErr text _ => text
  | OpaqueErr text => text
  end.

(** [AppError.Unwrap]. *)
Definition Unwrap (e : AppError) : option error := Err e.

(** [HTTPStatus]: the [net/http] constants are written as numbers. *)
Definition HTTPStatus (err : option error) : Z :=
  match As' err with
  | None => 500
  | Some appErr =>
      if String.eqb (Code appErr) CodeValidation then 400
      else if String.eqb (Code appErr) CodeNotFound then 404
      else if String.eqb (Code appErr) CodeConflict then 409
      else if String.eqb (Code appErr) CodeUnauthorized then 401
      else if String.eqb (Code appErr) CodeForbidden then 403
      else 500
  end%Z.

(** [status.Error(c, msg)]: [nil] for [codes.OK]. *)
Definition status_Error (c : codes.Code) (msg : string) : option error :=
  match c with
  | codes.OK => None
  | _ => Some (StatusErr c msg)
  end.

(** [GRPCStatus]. *)
Definition GRPCStatus (err : option error) : option error :=
  match As' err with
  | None => status_Error codes.Internal "internal error"
  | Some appErr =>
      let code :=
        if String.eqb (Code appErr) CodeValidation then codes.InvalidArgument
        else if String.eqb (Code appErr) CodeNotFound then codes.NotFound
        else if String.eqb (Code appErr) CodeConflict then codes.AlreadyExists
        else if String.eqb (Code appErr) CodeUnauthorized then codes.Unauthenticated
        else if String.eqb (Code appErr) CodeForbidden then codes.PermissionDenied
        else codes.Internal in
      status_Error code (Message appErr)
  end.

(** The first gRPC status on the [Unwrap] chain, following an
    [*AppError]'s cause as [errors.As] does. *)
Fixpoint wrapped_status (err : error) : option codes.Code :=
  match err with
  | StatusErr c _ => Some c
  | WrapErr _ inner => wrapped_status inner
  | AppErr e =>
      match Err e with
      | Some cause => wrapped_status cause
      | None => None
      end
  | OpaqueErr _ => None
  end.

(** [status.FromError] of grpc-go: the status (code and message) and the
    [ok] flag.  A status error gives its own status; an error that wraps
    one gives the wrapped code with the outer error's text; anything else
    is [codes.Unknown] with [ok = false]; [nil] is [codes.OK]. *)
Definition status_FromError (err : option error) : (codes.Code * string) * bool :=
  match err with
  | None => ((codes.OK, ""), true)
  | Some (StatusErr c msg) => ((c, msg), true)
  | Some e =>
      match wrapped_status e with
      | Some c => ((c, Error e), true)
      | None => ((codes.Unknown, Error e), false)
      end
  end.

(** Constructor functions. *)
Definition NewValidation (message : string) (details : option any) : AppError :=
  {| Code := CodeValidation; Message := message; Details := details; Err := None |}.

(** The order in which [fmt] prints the entries of a map with string keys
    ([internal/fmtsort]): by key, compared byte by byte. *)
Fixpoint insert_key (kv : string * string) (l : list (string * string))
  : list (string * string) :=
  match l with
  | [] => [kv]
  | kv' :: l' =>
      if String.leb (fst kv) (fst kv') then kv :: l
      else kv' :: insert_key kv l'
  end.

Definition fmtsort_Sort (l : list (string * string)) : list (string * string) :=
  foldr insert_key [] l.

(** The entries as [fmt] writes them: [key:value], one space between two. *)
Fixpoint print_entries (l : list (string * string)) : string :=
  match l with
  | [] => ""
  | [(k, v)] => k ++ ":" ++ v
  | (k, v) :: l' => k ++ ":" ++ v ++ " " ++ print_entries l'
  end.

(** [fmt.Sprintf("%v", id)] for the identifiers passed to [NewNotFound]:
    a string prints as itself, an unsigned integer in decimal, a map as
    [map[k1:v1 k2:v2]] with its keys in order. *)
Fixpoint Sprint_v (id : any) : string :=
  match id with
  | AnyString s => s
  | AnyUint n => NilEmpty.string_of_uint (N.to_uint n)
  | AnyMap m =>
      "map[" ++ print_entries (fmtsort_Sort (map_to_list (Sprint_v <$> m))) ++ "]"
  end.

Definition NewNotFound (resource : string) (id : any) : AppError :=
  {| Code := CodeNotFound;
     Message := resource ++ " with id '" ++ Sprint_v id ++ "' not found";
     Details := None; Err := None |}.

Definition NewConflict (message : string) : AppError :=
  {| Code := CodeConflict; Message := message; Details := None; Err := None |}.

Definition NewInternal (message : string) (err : option error) : AppError :=
  {| Code := CodeInternal; Message := message; Details := None; Err := err |}.

Definition NewUnauthorized (message : string) : AppError :=
  {| Code := CodeUnauthorized; Message := message; Details := None; Err := None |}.

(** [FromGRPCStatus]. *)
Definition FromGRPCStatus (err : option error) : AppError :=
  let '(st, ok) := status_FromError err in
  if negb ok then NewInternal "unknown error" err
  else
    let code :=
      match fst st with
      | codes.InvalidArgument => CodeValidation
      | codes.NotFound => CodeNotFound
      | codes.AlreadyExists => CodeConflict
      | codes.Unauthenticated => CodeUnauthorized
      | codes.PermissionDenied => CodeForbidden
      | _ => CodeInternal
      end in
    {| Code := code; Message := snd st; Details := None; Err := err |}.

(** [Is]: whether the error is an application error of the given code. *)
Definition Is (err : option error) (code : string) : bool :=
  match As' err with
  | Some appErr => String.eqb (Code appErr) code
  | None => false
  end.

(** [Wrap]: re-contextualises an error. *)
Definition Wrap (err : option error) (message : string) : AppError :=
  match As' err with
  | Some appErr =>
      {| Code := Code appErr;
         Message := message ++ ": " ++ Message appErr;
         Details := Details appErr;
         Err := err |}
  | None => NewInternal message err
  end.

End errors.

(** ** package regexp (standard library), as far as [EmailRegex] needs it *)
Module regexp.

(** Regular expressions over bytes.  A character class is its membership
    test. *)
Inductive Regexp :=
| NoMatch
| EmptyMatch
| CharClass (cls : ascii -> bool)
| Concat (r1 r2 : Regexp)
| Alternate (r1 r2 : Regexp)
| Star (r : Regexp).

(** [r+] and [r{2,}]. *)
Definition Plus (r : Regexp) : Regexp := Concat r (Star r).
Definition Repeat2 (r : Regexp) : Regexp := Concat r (Concat r (Star r)).

(** Whether the expression matches the empty string. *)
Fixpoint nullable (r : Regexp) : bool :=
  match r with
  | NoMatch => false
  | EmptyMatch => true
  | CharClass _ => false
  | Concat r1 r2 => nullable r1 && nullable r2
  | Alternate r1 r2 => nullable r1 || nullable r2
  | Star _ => true
  end.

(** The expression left to match once the byte [c] has been read. *)
Fixpoint deriv (c : ascii) (r : Regexp) : Regexp :=
  match r with
  | NoMatch => NoMatch
  | EmptyMatch => NoMatch
  | CharClass cls => if cls c then EmptyMatch else NoMatch
  | Concat r1 r2 =>
      if nullable r1
      then Alternate (Concat (deriv c r1) r2) (deriv c r2)
      else Concat (deriv c r1) r2
  | Alternate r1 r2 => Alternate (deriv c r1) (deriv c r2)
  | Star r1 => Concat (deriv c r1) (Star r1)
  end.

(** [MatchString] for a pattern anchored by [^] and [$] on both sides (no
    flags): the whole text has to match. *)
Fixpoint MatchString (r : Regexp) (s : string) : bool :=
  match s with
  | EmptyString => nullable r
  | String c s' => MatchString (deriv c r) s'
  end.

(** The language of an expression, as a relation. *)
Inductive Matches : Regexp -> string -> Prop :=
| MEmpty : Matches EmptyMatch ""
| MClass cls c : cls c = true -> Matches (CharClass cls) (String c "")
| MConcat r1 r2 s1 s2 :
    Matches r1 s1 -> Matches r2 s2 -> Matches (Concat r1 r2) (s1 ++ s2)
| MAltL r1 r2 s : Matches r1 s -> Matches (Alternate r1 r2) s
| MAltR r1 r2 s : Matches r2 s -> Matches (Alternate r1 r2) s
| MStar0 r : Matches (Star r) ""
| MStarS r s1 s2 :
    Matches r s1 -> Matches (Star r) s2 -> Matches (Star r) (s1 ++ s2).

(** Every byte of the string is in the class. *)
Fixpoint all_in (cls : ascii -> bool) (s : string) : bool :=
  match s with
  | EmptyString => true
  | String c s' => cls c && all_in cls s'
  end.

(** Whether the byte occurs in the string. *)
Fixpoint contains (c : ascii) (s : string) : bool :=
  match s with
  | EmptyString => false
  | String c' s' => Ascii.eqb c' c || contains c s'
  end.

End regexp.

(** [time.Time], as an instant on some clock. *)
Definition Time := Z.

(** ** package domain (internal/users/domain) *)
Module users_domain.
Import errors regexp.

Record User := mkUser {
  ID : uint;
  Name : string;
  Email : string;
  CreatedAt : Time;
  UpdatedAt : Time
}.

Definition ErrNameRequired := NewValidation "name is required" None.
Definition ErrNameLength :=
  NewValidation "name must be between 2 and 100 characters" None.
Definition ErrEmailRequired := NewValidation "email is required" None.
Definition ErrEmailInvalid := NewValidation "email format is invalid" None.
Definition ErrEmailExists := NewConflict "email already exists".
Definition ErrUserNotFound := NewNotFound "user" (AnyString "unknown").

Definition NewUserNotFound (id : uint) : option error :=
  Some (AppErr (NewNotFound "user" (AnyUint id))).

Definition in_range (lo hi : string) (c : ascii) : bool :=
  let n := N_of_ascii c in
  match lo, hi with
  | String l _, String h _ => (N_of_ascii l <=? n)%N && (n <=? N_of_ascii h)%N
  | _, _ => false
  end.

Definition is_letter (c : ascii) : bool := in_range "a" "z" c || in_range "A" "Z" c.
Definition is_digit (c : ascii) : bool := in_range "0" "9" c.

(** [[a-zA-Z0-9._%+-]] *)
Definition local_class (c : ascii) : bool :=
  is_letter c || is_digit c || contains c "._%+-".

(** [[a-zA-Z0-9.-]] *)
Definition domain_class (c : ascii) : bool :=
  is_letter c || is_digit c || contains c ".-".

Definition literal (ch : string) (c : ascii) : bool :=
  match ch with
  | String x _ => Ascii.eqb c x
  | EmptyString => false
  end.

(** [regexp.MustCompile(`^[a-zA-Z0-9._%+-]+@[a-zA-Z0-9.-]+\.[a-zA-Z]{2,}$`)] *)
Definition EmailRegex : Regexp :=
  Concat (Plus (CharClass local_class))
    (Concat (CharClass (literal "@"))
       (Concat (Plus (CharClass domain_class))
          (Concat (CharClass (literal "."))
             (Repeat2 (CharClass is_letter))))).

(** [User.Validate]. *)
Definition Validate (u : User) : option error :=
  if String.eqb (Name u) "" then Some (AppErr ErrNameRequired)
  else if (String.length (Name u) <? 2)%nat || (100 <? String.length (Name u))%nat
  then Some (AppErr ErrNameLength)
  else if String.eqb (Email u) "" then Some (AppErr ErrEmailRequired)
  else if negb (MatchString EmailRegex (Email u)) then Some (AppErr ErrEmailInvalid)
  else None.

End users_domain.

(** ** package domain (internal/orders/domain) *)
Module orders_domain.
Import errors.

Inductive OrderStatus :=
| OrderStatusPending
| OrderStatusConfirmed
| OrderStatusCancelled.

(** The string behind each status constant. *)
Definition OrderStatus_string (s : OrderStatus) : string :=
  match s with
  | OrderStatusPending => "pending"
  | OrderStatusConfirmed => "confirmed"
  | OrderStatusCancelled => "cancelled"
  end.

Record Order := mkOrder {
  ID : uint;
  UserID : uint;
  Total : float64;
  Status : OrderStatus;
  CreatedAt : Time;
  UpdatedAt : Time
}.

Definition ErrUserIDRequired := NewValidation "user_id is required" None.
Definition ErrInvalidTotal := NewValidation "total must be greater than 0" None.
Definition ErrTotalTooHigh := NewValidation "total cannot exceed 1,000,000" None.
Definition ErrOrderNotFound := NewNotFound "order" (AnyString "unknown").
Definition ErrUserNotFound := NewNotFound "user" (AnyString "unknown").

Definition NewOrderNotFound (id : uint) : option error :=
  Some (AppErr (NewNotFound "order" (AnyUint id))).

Definition NewUserNotFoundError (userID : uint) : option error :=
  Some (AppErr (NewValidation "user not found"
                  (Some (AnyMap {[ "user_id" := AnyUint userID ]})))).

(** The constants [0] and [1000000] converted to [float64]
    (1000000 = 8589934592000000 * 2^-33). *)
Definition f64_0 : float64 := S754_zero false.
Definition f64_1000000 : float64 := S754_finite false 8589934592000000 (-33).

(** [Order.Validate]. *)
Definition Validate (o : Order) : option error :=
  if (UserID o =? 0)%N then Some (AppErr ErrUserIDRequired)
  else if SFleb (Total o) f64_0 then Some (AppErr ErrInvalidTotal)
  else if SFltb f64_1000000 (Total o) then Some (AppErr ErrTotalTooHigh)
  else None.

(** [NewOrder]; the two readings of [time.Now()] are parameters.  The
    identifier is the zero value until the store assigns one.  The result
    [(nil, err)] is [inl err] and [(order, nil)] is [inr order]. *)
Definition NewOrder (userID : uint) (total : float64) (now1 now2 : Time)
  : error + Order :=
  let order :=
    {| ID := 0%N; UserID := userID; Total := total;
       Status := OrderStatusPending; CreatedAt := now1; UpdatedAt := now2 |} in
  match Validate order with
  | Some err => inl err
  | None => inr order
  end.

(** Assignments to the fields [Status] and [UpdatedAt] of an order. *)
Definition set_Status (st : OrderStatus) (o : Order) : Order :=
  {| ID := ID o; UserID := UserID o; Total := Total o; Status := st;
     CreatedAt := CreatedAt o; UpdatedAt := UpdatedAt o |}.

Definition set_UpdatedAt (t : Time) (o : Order) : Order :=
  {| ID := ID o; UserID := UserID o; Total := Total o; Status := Status o;
     CreatedAt := CreatedAt o; UpdatedAt := t |}.

(** [Order.Confirm] and [Order.Cancel]; [now] is the reading of
    [time.Now()]. *)
Definition Confirm (o : Order) (now : Time) : Order :=
  set_UpdatedAt now (set_Status OrderStatusConfirmed o).

Definition Cancel (o : Order) (now : Time) : Order :=
  set_UpdatedAt now (set_Status OrderStatusCancelled o).

End orders_domain.

(** ** package ports (internal/orders/ports) and the calls that leave the
    use case *)
Module ports.
Import errors.

Record UserInfo := mkUserInfo {
  ID : uint;
  Name : string;
  Email : string
}.

(** A non-nil interface value: a reference to the object behind it. *)
Definition handle := N.

(** The calls the use case makes on its collaborators, on the clock and on
    the logger, each with the receiver it is made on. *)
Inductive Call :=
| UserClient_GetUser (c : handle) (userID : uint)
| OrderRepository_Create (r : handle) (order : orders_domain.Order)
| OrderRepository_GetByID (r : handle) (id : uint)
| EventPublisher_PublishOrderCreated (p : handle) (order : orders_domain.Order)
| Time_Now
| Log_Error (msg : string) (err : error) (order_id : uint)
| Log_Info (msg : string) (order_id user_id : uint) (total : float64).

(** What each call hands back.  [Create] fills in the order it is given,
    so it returns the order as it is after the call. *)
Definition Resp (c : Call) : Type :=
  match c with
  | UserClient_GetUser _ _ => (option UserInfo * option error)%type
  | OrderRepository_Create _ _ => (orders_domain.Order * option error)%type
  | OrderRepository_GetByID _ _ => (option orders_domain.Order * option error)%type
  | EventPublisher_PublishOrderCreated _ _ => option error
  | Time_Now => Time
  | Log_Error _ _ _ => unit
  | Log_Info _ _ _ _ => unit
  end.

(** A computation that returns an [A] after a finite number of calls. *)
Inductive Prog (A : Type) : Type :=
| Ret (a : A)
| Do (c : Call) (k : Resp c -> Prog A).
Arguments Ret {A}.
Arguments Do {A}.

(** The collaborators behind the handles, acting on a world [W]. *)
Record Env (W : Type) := mkEnv {
  env_GetUser : handle -> uint -> W -> (option UserInfo * option error) * W;
  env_Create : handle -> orders_domain.Order -> W ->
               (orders_domain.Order * option error) * W;
  env_GetByID : handle -> uint -> W ->
                (option orders_domain.Order * option error) * W;
  env_PublishOrderCreated : handle -> orders_domain.Order -> W ->
                            option error * W;
  env_Now : W -> Time * W
}.
Arguments env_GetUser {W}.
Arguments env_Create {W}.
Arguments env_GetByID {W}.
Arguments env_PublishOrderCreated {W}.
Arguments env_Now {W}.

(** One call, answered by the environment.  Log lines change nothing. *)
Definition answer {W} (env : Env W) (c : Call) : W -> Resp c * W :=
  match c as c0 return W -> Resp c0 * W with
  | UserClient_GetUser h userID => env_GetUser env h userID
  | OrderRepository_Create h order => env_Create env h order
  | OrderRepository_GetByID h id => env_GetByID env h id
  | EventPublisher_PublishOrderCreated h order => env_PublishOrderCreated env h order
  | Time_Now => env_Now env
  | Log_Error _ _ _ => fun w => (tt, w)
  | Log_Info _ _ _ _ => fun w => (tt, w)
  end.

(** Running a computation: its result, the world it leaves, and the calls
    it made, in order. *)
Fixpoint run {W A} (env : Env W) (p : Prog A) (w : W) : A * W * list Call :=
  match p with
  | Ret a => (a, w, [])
  | Do c k =>
      let '(x, w1) := answer env c w in
      let '(a, w2, calls) := run env (k x) w1 in
      (a, w2, c :: calls)
  end.

Definition is_GetUser (c : Call) : bool :=
  match c with UserClient_GetUser _ _ => true | _ => false end.
Definition is_Create (c : Call) : bool :=
  match c with OrderRepository_Create _ _ => true | _ => false end.
Definition is_Publish (c : Call) : bool :=
  match c with EventPublisher_PublishOrderCreated _ _ => true | _ => false end.
Definition is_Now (c : Call) : bool :=
  match c with Time_Now => true | _ => false end.

End ports.

Notation "'let*' x ':=' c 'in' k" := (ports.Do c (fun x => k))
  (at level 10, x strict pattern, c at level 100, k at level 200, only parsing).

(** ** package application (internal/orders/application) *)
Module application.
Import errors ports orders_domain.

Record OrderUseCase := mkOrderUseCase {
  repo : handle;
  publisher : option handle;
  userClient : option handle
}.

Definition NewOrderUseCase (repo : handle) (publisher userClient : option handle)
  : OrderUseCase :=
  {| repo := repo; publisher := publisher; userClient := userClient |}.

Record CreateOrderInput := mkCreateOrderInput {
  in_UserID : uint;
  in_Total : float64
}.

Record CreateOrderOutput := mkCreateOrderOutput { out_Order : Order }.

(** The part of [CreateOrder] after the user check: construction with
    validation, persistence, event, log line. *)
Definition CreateOrder_local (uc : OrderUseCase) (input : CreateOrderInput)
  : Prog (option CreateOrderOutput * option error) :=
  let* now1 := Time_Now in
  let* now2 := Time_Now in
  match NewOrder (in_UserID input) (in_Total input) now1 now2 with
  | inl err => Ret (None, Some err)
  | inr order =>
      let* (order, err) := OrderRepository_Create (repo uc) order in
      match err with
      | Some err => Ret (None, Some (AppErr (NewInternal "failed to create order" (Some err))))
      | None =>
          let done :=
            let* _ := Log_Info "order created" (ID order) (UserID order) (Total order) in
            Ret (Some {| out_Order := order |}, None) in
          match publisher uc with
          | Some p =>
              let* err := EventPublisher_PublishOrderCreated p order in
              match err with
              | Some err =>
                  let* _ := Log_Error "failed to publish order created event" err (ID order) in
                  done
              | None => done
              end
          | None => done
          end
      end
  end.

(** [OrderUseCase.CreateOrder]. *)
Definition CreateOrder (uc : OrderUseCase) (input : CreateOrderInput)
  : Prog (option CreateOrderOutput * option error) :=
  match userClient uc with
  | Some c =>
      let* (_, err) := UserClient_GetUser c (in_UserID input) in
      match err with
      | Some e =>
          if Is err CodeNotFound
          then Ret (None, NewUserNotFoundError (in_UserID input))
          else Ret (None, Some (AppErr (Wrap err "failed to validate user")))
      | None => CreateOrder_local uc input
      end
  | None => CreateOrder_local uc input
  end.

Record GetOrderInput := mkGetOrderInput { in_ID : uint }.
Record GetOrderOutput := mkGetOrderOutput { got_Order : Order }.

(** [OrderUseCase.GetOrder].  A repository that returns neither an order
    nor an error leaves a nil pointer in the output; the output is then
    absent here. *)
Definition GetOrder (uc : OrderUseCase) (input : GetOrderInput)
  : Prog (option GetOrderOutput * option error) :=
  let* (order, err) := OrderRepository_GetByID (repo uc) (in_ID input) in
  match err with
  | Some e => Ret (None, Some e)
  | None => Ret (option_map mkGetOrderOutput order, None)
  end.

End application.

(** ** The adapters of the orders service (internal/orders/adapters) and the
    client interceptor (pkg/grpc) *)
Module adapters.
Import errors ports orders_domain.

(** What [UnaryClientInterceptor] does to the error of the invoker: a
    failure is converted by [FromGRPCStatus]. *)
Definition UnaryClientInterceptor (err : option error) : option error :=
  match err with
  | Some _ => Some (AppErr (FromGRPCStatus err))
  | None => None
  end.

(** [GRPCUserClient.GetUser]: [remote] is the users service behind the
    connection, answering with a [UserResponse] (its fields are those of
    [UserInfo]) or with a transport error; the connection carries the
    client interceptor. *)
Definition GRPCUserClient_GetUser {W}
    (remote : uint -> W -> (option UserInfo * option error) * W)
    (userID : uint) (w : W) : (option UserInfo * option error) * W :=
  let '((resp, err), w1) := remote userID w in
  match UnaryClientInterceptor err with
  | Some err => ((None, Some err), w1)
  | None =>
      ((Some match resp with
             | Some r => mkUserInfo (ports.ID r) (Name r) (Email r)
             | None => mkUserInfo 0%N "" ""
             end, None), w1)
  end.

(** [OrderModel] has the fields of [Order]; [toDomain] copies them. *)
Definition OrderModel := Order.
Definition toDomain (model : OrderModel) : Order :=
  {| orders_domain.ID := orders_domain.ID model; UserID := UserID model;
     Total := Total model; Status := Status model;
     CreatedAt := CreatedAt model; UpdatedAt := UpdatedAt model |}.

(** The [orders] table behind [gorm.DB], and a technical failure of the
    connection when there is one. *)
Record DB := mkDB {
  orders_table : gmap uint OrderModel;
  db_fault : option error
}.

Definition ErrRecordNotFound : error := OpaqueErr "record not found".

(** [db.First(&model, id)]: the row and [result.Error]. *)
Definition gorm_First (id : uint) (db : DB) : option OrderModel * option error :=
  match db_fault db with
  | Some e => (None, Some e)
  | None =>
      match orders_table db !! id with
      | Some model => (Some model, None)
      | None => (None, Some ErrRecordNotFound)
      end
  end.

(** [errors.Is(err, gorm.ErrRecordNotFound)] of the standard library: the
    sentinel is somewhere on the [Unwrap] chain. *)
Fixpoint is_ErrRecordNotFound (err : error) : bool :=
  match err with
  | OpaqueErr text => String.eqb text "record not found"
  | WrapErr _ inner => is_ErrRecordNotFound inner
  | AppErr e =>
      match Err e with
      | Some cause => is_ErrRecordNotFound cause
      | None => false
      end
  | StatusErr _ _ => false
  end.

(** [PostgresOrderRepository.GetByID]. *)
Definition PostgresOrderRepository_GetByID (id : uint) (db : DB)
  : (option Order * option error) * DB :=
  match gorm_First id db with
  | (_, Some e) =>
      if is_ErrRecordNotFound e then ((None, NewOrderNotFound id), db)
      else ((None, Some (AppErr (NewInternal "failed to get order" (Some e)))), db)
  | (Some model, None) => ((Some (toDomain model), None), db)
  | (None, None) => ((None, None), db)
  end.

End adapters.

(** ** The test doubles of the use case's tests *)
Module mocks.
Import errors ports orders_domain application.

Record MockWorld := mkMockWorld {
  orders : gmap uint Order;      (* MockOrderRepository.orders *)
  nextID : uint;                 (* MockOrderRepository.nextID *)
  events : list Order;           (* MockEventPublisher.events *)
  users : gmap uint UserInfo;    (* MockUserClient.users *)
  clock : Time
}.

Definition uint_max : N := 2 ^ 64.

(** [MockOrderRepository.Create]. *)
Definition MockOrderRepository_Create (order : Order) (w : MockWorld)
  : (Order * option error) * MockWorld :=
  let order := {| orders_domain.ID := nextID w; UserID := UserID order;
                  Total := Total order; Status := Status order;
                  CreatedAt := CreatedAt order; UpdatedAt := UpdatedAt order |} in
  ((order, None),
   {| orders := <[orders_domain.ID order := order]> (orders w);
      nextID := ((nextID w + 1) mod uint_max)%N;
      events := events w; users := users w; clock := clock w |}).

(** [MockOrderRepository.GetByID]. *)
Definition MockOrderRepository_GetByID (id : uint) (w : MockWorld)
  : (option Order * option error) * MockWorld :=
  match orders w !! id with
  | None => ((None, NewOrderNotFound id), w)
  | Some order => ((Some order, None), w)
  end.

(** [MockEventPublisher.PublishOrderCreated]. *)
Definition MockEventPublisher_PublishOrderCreated (order : Order) (w : MockWorld)
  : option error * MockWorld :=
  (None,
   {| orders := orders w; nextID := nextID w;
      events := events w ++ [order]; users := users w; clock := clock w |}).

(** [MockUserClient.GetUser]. *)
Definition MockUserClient_GetUser (userID : uint) (w : MockWorld)
  : (option UserInfo * option error) * MockWorld :=
  match users w !! userID with
  | None => ((None, Some (AppErr (NewNotFound "user" (AnyUint userID)))), w)
  | Some user => ((Some user, None), w)
  end.

(** The clock moves on at every reading. *)
Definition tick (w : MockWorld) : Time * MockWorld :=
  (clock w,
   {| orders := orders w; nextID := nextID w; events := events w;
      users := users w; clock := (clock w + 1)%Z |}).

Definition mock_env : Env MockWorld :=
  {| env_GetUser := fun _ => MockUserClient_GetUser;
     env_Create := fun _ => MockOrderRepository_Create;
     env_GetByID := fun _ => MockOrderRepository_GetByID;
     env_PublishOrderCreated := fun _ => MockEventPublisher_PublishOrderCreated;
     env_Now := tick |}.

(** [NewMockOrderRepository], [&MockEventPublisher{}] and
    [NewMockUserClient] together. *)
Definition new_world : MockWorld :=
  {| orders := ∅; nextID := 1%N; events := [];
     users := {[ 1%N := mkUserInfo 1%N "John Doe" "john@example.com" ]};
     clock := 0%Z |}.

(** The use case the tests build: [NewOrderUseCase(repo, publisher,
    userClient, log)]. *)
Definition useCase : OrderUseCase := NewOrderUseCase 1%N (Some 2%N) (Some 3%N).

(** A user client whose remote side answers every lookup with the given
    gRPC status, reached through [GRPCUserClient]. *)
Definition failing_remote (c : codes.Code) (msg : string)
  : uint -> MockWorld -> (option UserInfo * option error) * MockWorld :=
  fun _ w => ((None, status_Error c msg), w).

Definition grpc_env (c : codes.Code) (msg : string) : Env MockWorld :=
  {| env_GetUser := fun _ => adapters.GRPCUserClient_GetUser (failing_remote c msg);
     env_Create := fun _ => MockOrderRepository_Create;
     env_GetByID := fun _ => MockOrderRepository_GetByID;
     env_PublishOrderCreated := fun _ => MockEventPublisher_PublishOrderCreated;
     env_Now := tick |}.

(** An event publisher that always fails. *)
Definition failing_publish_env (e : error) : Env MockWorld :=
  {| env_GetUser := fun _ => MockUserClient_GetUser;
     env_Create := fun _ => MockOrderRepository_Create;
     env_GetByID := fun _ => MockOrderRepository_GetByID;
     env_PublishOrderCreated := fun _ _ w => (Some e, w);
     env_Now := tick |}.

(** The totals of the tests: [99.99] (the nearest [float64]) and [-10]. *)
Definition f64_99_99 : float64 := S754_finite false 7036170730324623 (-46).
Definition f64_neg10 : float64 := S754_finite true 5629499534213120 (-49).

End mocks.

(** ** An environment around the Postgres repository *)
Module scenarios.
Import errors ports orders_domain adapters.

(** The repository of the running service for [GetByID]; [GetOrder] calls
    nothing else, so the other collaborators are left inert. *)
Definition lookup_env : Env DB :=
  {| env_GetUser := fun _ _ db => ((None, None), db);
     env_Create := fun _ order db => ((order, None), db);
     env_GetByID := fun _ => PostgresOrderRepository_GetByID;
     env_PublishOrderCreated := fun _ _ db => (None, db);
     env_Now := fun db => (0%Z, db) |}.

Definition empty_db : DB := {| orders_table := ∅; db_fault := None |}.

End scenarios.

(** ** Notions used to state the properties *)
Module props.
Import errors regexp ports orders_domain application.

(** The kind of an error: the code of the application error it is or
    wraps; [None] when it is not an application error. *)
Definition kind_of (err : option error) : option string :=
  option_map Code (As' err).

(** The six kinds of the taxonomy. *)
Definition taxonomy : list string :=
  [CodeValidation; CodeNotFound; CodeConflict; CodeInternal;
   CodeUnauthorized; CodeForbidden].

(** The RPC codes that [FromGRPCStatus] maps to a kind other than
    [Internal]. *)
Definition in_table (c : codes.Code) : bool :=
  match c with
  | codes.InvalidArgument | codes.NotFound | codes.AlreadyExists
  | codes.Unauthenticated | codes.PermissionDenied => true
  | _ => false
  end.

(** The first step of [CreateOrder] on its own: the error of the remote
    lookup (none when no client is configured), the world it leaves and
    the call it made. *)
Definition user_check {W} (env : Env W) (uc : OrderUseCase)
    (input : CreateOrderInput) (w : W) : option error * W * list Call :=
  match userClient uc with
  | Some c =>
      let '((_, err), w1) := env_GetUser env c (in_UserID input) w in
      (err, w1, [UserClient_GetUser c (in_UserID input)])
  | None => (None, w, [])
  end.

(** The text after the last ['.'] of a string (the whole string when it
    has none). *)
Fixpoint last_label (s : string) : string :=
  match s with
  | EmptyString => EmptyString
  | String c s' =>
      if contains "." s' then last_label s'
      else if Ascii.eqb c "." then s' else String c s'
  end.

(** A final domain label of two letters or more. *)
Definition has_final_label (e : string) : bool :=
  contains "." e && (2 <=? String.length (last_label e))%nat
  && all_in users_domain.is_letter (last_label e).

(** [t] lies in the interval [(0, 1000000]]. *)
Definition total_in_range (t : float64) : bool :=
  SFltb f64_0 t && SFleb t f64_1000000.

End props.

(** ** package errors, continued: the JSON response *)
Module errors_json.
Import errors.

Record ErrorBody := mkErrorBody {
  body_Code : string;
  body_Message : string;
  body_Details : option any
}.

Record ErrorResponse := mkErrorResponse {
  resp_Error : ErrorBody;
  resp_TraceID : string
}.

(** [ToJSON]: the status code and the [ErrorResponse] that is handed to
    [json.Marshal]. *)
Definition ToJSON (err : option error) (traceID : string) : Z * ErrorResponse :=
  let appErr :=
    match As' err with
    | Some appErr => appErr
    | None => {| Code := CodeInternal; Message := "An internal error occurred";
                 Details := None; Err := None |}
    end in
  let response :=
    {| resp_Error := {| body_Code := Code appErr;
                        body_Message := Message appErr;
                        body_Details := Details appErr |};
       resp_TraceID := traceID |} in
  (HTTPStatus (Some (AppErr appErr)), response).

End errors_json.

(** ** The users service: [domain.NewUser], its ports and its use case
    (internal/users) *)
Module users.
Import errors users_domain.

(** [NewUser]; the two readings of [time.Now()] are parameters.  The
    result [(nil, err)] is [inl err] and [(user, nil)] is [inr user]. *)
Definition NewUser (name email : string) (now1 now2 : Time) : error + User :=
  let user := {| ID := 0%N; Name := name; Email := email;
                 CreatedAt := now1; UpdatedAt := now2 |} in
  match Validate user with
  | Some err => inl err
  | None => inr user
  end.

(** The calls the user use case makes, each with its receiver. *)
Inductive Call :=
| UserRepository_Create (r : ports.handle) (user : User)
| UserRepository_GetByID (r : ports.handle) (id : uint)
| UserRepository_GetByEmail (r : ports.handle) (email : string)
| EventPublisher_PublishUserCreated (p : ports.handle) (user : User)
| Time_Now
| Log_Error (msg : string) (err : error) (user_id : uint)
| Log_Info (msg : string) (user_id : uint) (email : string).

Definition Resp (c : Call) : Type :=
  match c with
  | UserRepository_Create _ _ => (User * option error)%type
  | UserRepository_GetByID _ _ => (option User * option error)%type
  | UserRepository_GetByEmail _ _ => (option User * option error)%type
  | EventPublisher_PublishUserCreated _ _ => option error
  | Time_Now => Time
  | Log_Error _ _ _ => unit
  | Log_Info _ _ _ => unit
  end.

Inductive Prog (A : Type) : Type :=
| Ret (a : A)
| Do (c : Call) (k : Resp c -> Prog A).
Arguments Ret {A}.
Arguments Do {A}.

Record Env (W : Type) := mkEnv {
  env_Create : ports.handle -> User -> W -> (User * option error) * W;
  env_GetByID : ports.handle -> uint -> W -> (option User * option error) * W;
  env_GetByEmail : ports.handle -> string -> W -> (option User * option error) * W;
  env_PublishUserCreated : ports.handle -> User -> W -> option error * W;
  env_Now : W -> Time * W
}.
Arguments env_Create {W}.
Arguments env_GetByID {W}.
Arguments env_GetByEmail {W}.
Arguments env_PublishUserCreated {W}.
Arguments env_Now {W}.

Definition answer {W} (env : Env W) (c : Call) : W -> Resp c * W :=
  match c as c0 return W -> Resp c0 * W with
  | UserRepository_Create h user => env_Create env h user
  | UserRepository_GetByID h id => env_GetByID env h id
  | UserRepository_GetByEmail h email => env_GetByEmail env h email
  | EventPublisher_PublishUserCreated h user => env_PublishUserCreated env h user
  | Time_Now => env_Now env
  | Log_Error _ _ _ => fun w => (tt, w)
  | Log_Info _ _ _ => fun w => (tt, w)
  end.

Fixpoint run {W A} (env : Env W) (p : Prog A) (w : W) : A * W * list Call :=
  match p with
  | Ret a => (a, w, [])
  | Do c k =>
      let '(x, w1) := answer env c w in
      let '(a, w2, calls) := run env (k x) w1 in
      (a, w2, c :: calls)
  end.

Definition is_Create (c : Call) : bool :=
  match c with UserRepository_Create _ _ => true | _ => false end.
Definition is_Publish (c : Call) : bool :=
  match c with EventPublisher_PublishUserCreated _ _ => true | _ => false end.
Definition is_repo_or_publish (c : Call) : bool :=
  match c with
  | Time_Now | Log_Error _ _ _ | Log_Info _ _ _ => false
  | _ => true
  end.

Record UserUseCase := mkUserUseCase {
  repo : ports.handle;
  publisher : option ports.handle
}.

Definition NewUserUseCase (repo : ports.handle) (publisher : option ports.handle)
  : UserUseCase :=
  {| repo := repo; publisher := publisher |}.

Record CreateUserInput := mkCreateUserInput {
  in_Name : string;
  in_Email : string
}.

Record CreateUserOutput := mkCreateUserOutput { out_User : User }.

(** [UserUseCase.CreateUser]. *)
Definition CreateUser (uc : UserUseCase) (input : CreateUserInput)
  : Prog (option CreateUserOutput * option error) :=
  Do Time_Now (fun now1 =>
  Do Time_Now (fun now2 =>
  match NewUser (in_Name input) (in_Email input) now1 now2 with
  | inl err => Ret (None, Some err)
  | inr user =>
      Do (UserRepository_GetByEmail (repo uc) (Email user)) (fun '(existing, err) =>
      if match err with Some _ => negb (Is err CodeNotFound) | None => false end
      then Ret (None, Some (AppErr (NewInternal "failed to check email existence" err)))
      else
        match existing with
        | Some _ => Ret (None, Some (AppErr ErrEmailExists))
        | None =>
            Do (UserRepository_Create (repo uc) user) (fun '(user, err) =>
            match err with
            | Some err =>
                Ret (None, Some (AppErr (NewInternal "failed to create user" (Some err))))
            | None =>
                let done :=
                  Do (Log_Info "user created" (ID user) (Email user)) (fun _ =>
                  Ret (Some {| out_User := user |}, None)) in
                match publisher uc with
                | Some p =>
                    Do (EventPublisher_PublishUserCreated p user) (fun err =>
                    match err with
                    | Some err =>
                        Do (Log_Error "failed to publish user created event" err (ID user))
                           (fun _ => done)
                    | None => done
                    end)
                | None => done
                end
            end)
        end)
  end)).

Record GetUserInput := mkGetUserInput { in_ID : uint }.
Record GetUserOutput := mkGetUserOutput { got_User : User }.

(** [UserUseCase.GetUser]. *)
Definition GetUser (uc : UserUseCase) (input : GetUserInput)
  : Prog (option GetUserOutput * option error) :=
  Do (UserRepository_GetByID (repo uc) (in_ID input)) (fun '(user, err) =>
  match err with
  | Some e => Ret (None, Some e)
  | None => Ret (option_map mkGetUserOutput user, None)
  end).

End users.

(** ** The test doubles of the user use case's tests *)
Module users_mocks.
Import errors users_domain users.

(** [MockUserRepository] (with its two optional hooks) and
    [MockEventPublisher]. *)
Record MockWorld := mkMockWorld {
  mock_users : gmap uint User;
  byEmail : gmap string User;
  nextID : uint;
  createFn : option (User -> User * option error);
  getByIDFn : option (uint -> option User * option error);
  events : list User;
  clock : Time
}.

Definition with_clock (t : Time) (w : MockWorld) : MockWorld :=
  {| mock_users := mock_users w; byEmail := byEmail w; nextID := nextID w;
     createFn := createFn w; getByIDFn := getByIDFn w; events := events w;
     clock := t |}.

(** [MockUserRepository.Create]. *)
Definition MockUserRepository_Create (user : User) (w : MockWorld)
  : (User * option error) * MockWorld :=
  match createFn w with
  | Some f => (f user, w)
  | None =>
      let user := {| ID := nextID w; Name := Name user; Email := Email user;
                     CreatedAt := CreatedAt user; UpdatedAt := UpdatedAt user |} in
      ((user, None),
       {| mock_users := <[ID user := user]> (mock_users w);
          byEmail := <[Email user := user]> (byEmail w);
          nextID := ((nextID w + 1) mod mocks.uint_max)%N;
          createFn := createFn w; getByIDFn := getByIDFn w;
          events := events w; clock := clock w |})
  end.

(** [MockUserRepository.GetByID]. *)
Definition MockUserRepository_GetByID (id : uint) (w : MockWorld)
  : (option User * option error) * MockWorld :=
  match getByIDFn w with
  | Some f => (f id, w)
  | None =>
      match mock_users w !! id with
      | None => ((None, NewUserNotFound id), w)
      | Some user => ((Some user, None), w)
      end
  end.

(** [MockUserRepository.GetByEmail]. *)
Definition MockUserRepository_GetByEmail (email : string) (w : MockWorld)
  : (option User * option error) * MockWorld :=
  match byEmail w !! email with
  | None => ((None, Some (AppErr (NewNotFound "user" (AnyString email)))), w)
  | Some user => ((Some user, None), w)
  end.

(** [MockEventPublisher.PublishUserCreated]. *)
Definition MockEventPublisher_PublishUserCreated (user : User) (w : MockWorld)
  : option error * MockWorld :=
  (None,
   {| mock_users := mock_users w; byEmail := byEmail w; nextID := nextID w;
      createFn := createFn w; getByIDFn := getByIDFn w;
      events := (events w ++ [user])%list; clock := clock w |}).

Definition tick (w : MockWorld) : Time * MockWorld :=
  (clock w, with_clock (clock w + 1)%Z w).

Definition mock_env : Env MockWorld :=
  {| env_Create := fun _ => MockUserRepository_Create;
     env_GetByID := fun _ => MockUserRepository_GetByID;
     env_GetByEmail := fun _ => MockUserRepository_GetByEmail;
     env_PublishUserCreated := fun _ => MockEventPublisher_PublishUserCreated;
     env_Now := tick |}.

(** [NewMockUserRepository] and [&MockEventPublisher{}]. *)
Definition new_world : MockWorld :=
  {| mock_users := ∅; byEmail := ∅; nextID := 1%N;
     createFn := None; getByIDFn := None; events := []; clock := 0%Z |}.

Definition useCase : UserUseCase := NewUserUseCase 1%N (Some 2%N).

End users_mocks.

(** ** The adapters of the users service (internal/users/adapters,
    internal/users/infrastructure) *)
Module users_adapters.
Import errors users_domain users.

(** [UserModel] has the fields of [User]; [toDomain] copies them. *)
Definition UserModel := User.
Definition toDomain (model : UserModel) : User :=
  {| ID := ID model; Name := Name model; Email := Email model;
     CreatedAt := CreatedAt model; UpdatedAt := UpdatedAt model |}.

(** The [users] table behind [gorm.DB], its rows in the order of the
    primary key, and a technical failure of the connection when there is
    one. *)
Record DB := mkDB {
  users_table : list UserModel;
  db_fault : option error
}.

(** [db.First(&model, id)] and [db.Where("email = ?", email).First(&model)]:
    the first row that satisfies the condition, and [result.Error]. *)
Definition gorm_First (cond : UserModel -> bool) (db : DB)
  : option UserModel * option error :=
  match db_fault db with
  | Some e => (None, Some e)
  | None =>
      match List.find cond (users_table db) with
      | Some model => (Some model, None)
      | None => (None, Some adapters.ErrRecordNotFound)
      end
  end.



(** [GRPCServer.GetUser] of the users service: the reply carries the
    identifier, the name and the email of the user (and its creation time,
    which the orders service does not read).  A use case that returns
    neither a user nor an error makes the handler fail on a nil pointer;
    the reply is then absent here. *)
Definition GRPCServer_GetUser {W} (env : Env W) (uc : UserUseCase)
    (id : uint) (w : W) : (option ports.UserInfo * option error) * W :=
  let '((output, err), w1, _) := run env (GetUser uc {| in_ID := id |}) w in
  match err with
  | Some e => ((None, Some e), w1)
  | None =>
      (((fun o => ports.mkUserInfo (ID (got_User o)) (Name (got_User o))
                    (Email (got_User o))) <$> output, None), w1)
  end.

End users_adapters.

(** ** package logger (the trace identifier of a context) and package grpc
    (pkg/grpc, the interceptors) *)
Module grpcpkg.
Import errors.

(** Metadata on the wire: the values sent under each key, in order. *)
Definition MD := gmap string (list string).

(** A [context.Context], as far as this code looks into it: the value
    stored under the logger's private key, the metadata that came in with
    the call, and the key-value pairs appended for outgoing calls.
    Deadlines are not modelled; [context.WithTimeout] keeps the three. *)
Record Context := mkContext {
  ctx_traceID : option string;
  ctx_incoming : option MD;
  ctx_outgoing : list (string * string)
}.

Definition Background : Context :=
  {| ctx_traceID := None; ctx_incoming := None; ctx_outgoing := [] |}.

(** [logger.WithTraceIDContext]. *)
Definition WithTraceIDContext (ctx : Context) (traceID : string) : Context :=
  {| ctx_traceID := Some traceID; ctx_incoming := ctx_incoming ctx;
     ctx_outgoing := ctx_outgoing ctx |}.

(** [logger.GetTraceID]. *)
Definition GetTraceID (ctx : Context) : string :=
  match ctx_traceID ctx with
  | Some traceID => traceID
  | None => ""
  end.

Definition TraceIDMetadataKey := "x-trace-id".

(** [metadata.AppendToOutgoingContext(ctx, k, v)]. *)
Definition AppendToOutgoingContext (ctx : Context) (k v : string) : Context :=
  {| ctx_traceID := ctx_traceID ctx; ctx_incoming := ctx_incoming ctx;
     ctx_outgoing := (ctx_outgoing ctx ++ [(k, v)])%list |}.

(** The metadata a server receives for the pairs a client sent. *)
Fixpoint md_of_pairs (kvs : list (string * string)) : MD :=
  match kvs with
  | [] => ∅
  | (k, v) :: rest =>
      let md := md_of_pairs rest in
      <[k := v :: default [] (md !! k)]> md
  end.

(** The context a server starts a call with. *)
Definition incoming_context (md : MD) : Context :=
  {| ctx_traceID := None; ctx_incoming := Some md; ctx_outgoing := [] |}.

(** [extractTraceID]. *)
Definition extractTraceID (ctx : Context) : string :=
  match ctx_incoming ctx with
  | None => ""
  | Some md =>
      match md !! TraceIDMetadataKey with
      | Some (v :: _) => v
      | _ => ""
      end
  end.

(** A line written by an interceptor; the duration field is left out. *)
Record LogLine := mkLogLine {
  log_level : string;
  log_msg : string;
  log_method : string;
  log_trace_id : string;
  log_grpc_code : option string
}.

(** [UnaryServerInterceptor]: [uuid] is what [uuid.New().String()] gives
    when it is called; the result is the reply, the error and the line
    logged. *)
Definition UnaryServerInterceptor {Req Resp W : Type}
    (uuid : string) (ctx : Context) (req : Req) (method : string)
    (handler : Context -> Req -> W -> (option Resp * option error) * W) (w : W)
  : (option Resp * option error) * LogLine * W :=
  let traceID := extractTraceID ctx in
  let traceID := if String.eqb traceID "" then uuid else traceID in
  let ctx := WithTraceIDContext ctx traceID in
  let '((resp, err), w1) := handler ctx req w in
  match err with
  | Some _ =>
      let st := fst (status_FromError err) in
      ((None, GRPCStatus err),
       {| log_level := "error"; log_msg := "grpc request failed";
          log_method := method; log_trace_id := traceID;
          log_grpc_code := Some (codes.String (fst st)) |}, w1)
  | None =>
      ((resp, None),
       {| log_level := "info"; log_msg := "grpc request completed";
          log_method := method; log_trace_id := traceID;
          log_grpc_code := None |}, w1)
  end.

(** [UnaryClientInterceptor]: the invoker is called with the context that
    carries the trace identifier as outgoing metadata; its error is
    converted. *)
Definition UnaryClientInterceptor {W : Type}
    (ctx : Context) (invoker : Context -> W -> option error * W) (w : W)
  : option error * W :=
  let traceID := GetTraceID ctx in
  let ctx :=
    if negb (String.eqb traceID "")
    then AppendToOutgoingContext ctx TraceIDMetadataKey traceID
    else ctx in
  let '(err, w1) := invoker ctx w in
  match err with
  | Some _ => (Some (AppErr (FromGRPCStatus err)), w1)
  | None => (None, w1)
  end.

End grpcpkg.

(** ** package strconv (standard library), base 10 *)
Module strconv.

(** [strconv.IntSize] on the 64-bit platforms the services are built for. *)
Definition IntSize : N := 64.

(** [strconv.ParseUint(s, 10, bitSize)]: [None] stands for any error.  The
    text has to be one decimal digit or more, with no sign and no
    underscore, and the number has to fit in [bitSize] bits.  A [bitSize]
    of 0 means [IntSize] bits, one above 64 is an error; a negative one, an
    error in Go too, cannot be written here. *)
Definition ParseUint (s : string) (bitSize : N) : option N :=
  if String.eqb s "" then None
  else if (64 <? bitSize)%N then None
  else
    let bitSize := if (bitSize =? 0)%N then IntSize else bitSize in
    match NilEmpty.uint_of_string s with
    | Some d =>
        let n := N.of_uint d in
        if (n <? 2 ^ bitSize)%N then Some n else None
    | None => None
    end.

(** [strconv.FormatUint(n, 10)]. *)
Definition FormatUint (n : N) : string := NilEmpty.string_of_uint (N.to_uint n).

End strconv.

(** ** The HTTP side: package middleware (pkg/middleware), the handlers
    of the orders service (internal/orders/infrastructure) and of the
    gateway (internal/gateway/handlers) *)
Module http.
Import errors errors_json ports orders_domain application.

(** Running one computation and then another on its result. *)
Fixpoint bind {A B} (p : Prog A) (k : A -> Prog B) : Prog B :=
  match p with
  | Ret a => k a
  | Do c f => Do c (fun x => bind (f x) k)
  end.

(** [OrderResponse], of the orders service and of the gateway, and the
    reply message of the orders gRPC service, which has the same fields. *)
Record OrderResponse := mkOrderResponse {
  r_ID : uint;
  r_UserID : uint;
  r_Total : float64;
  r_Status : string;
  r_CreatedAt : string
}.

(** What a handler leaves in the [gin.Context]: the errors it attached
    with [c.Error] and the response it wrote with [c.JSON] (status, data,
    trace identifier); or a panic. *)
Inductive Outcome :=
| Panicked
| Done (errs : list error) (written : option (Z * OrderResponse * string)).

(** [CreateOrderRequest]. *)
Record CreateOrderRequest := mkCreateOrderRequest {
  req_UserID : uint;
  req_Total : float64
}.

(** The response the client gets: the status, the [X-Trace-ID] header and
    the JSON body, an error envelope or a data envelope. *)
Inductive Body :=
| ErrorJSON (e : ErrorResponse)
| DataJSON (data : OrderResponse) (trace_id : string).

Record Response := mkResponse {
  status : Z;
  header_TraceID : string;
  body : Body
}.

(** [middleware.TraceID]: the trace identifier of the request, from its
    [X-Trace-ID] header ([""] when absent) or freshly generated. *)
Definition TraceID (header uuid : string) : string :=
  if String.eqb header "" then uuid else header.

(** [middleware.ErrorHandler], after [c.Next()] has returned or
    panicked; [traceID] is [c.GetString(TraceIDKey)].  The header
    [X-Trace-ID] has been set by [TraceID] before.  When an error is
    attached, the last one is answered; no handler here both writes a
    response and attaches an error, and what was written is then not
    looked at. *)
Definition ErrorHandler (traceID : string) (o : Outcome) : option Response :=
  match o with
  | Panicked =>
      Some {| status := 500; header_TraceID := traceID;
              body := ErrorJSON
                        {| resp_Error := {| body_Code := CodeInternal;
                                            body_Message := "An internal error occurred";
                                            body_Details := None |};
                           resp_TraceID := traceID |} |}
  | Done errs written =>
      match List.last (map Some errs) None with
      | Some err =>
          let '(statusCode, jsonResponse) := ToJSON (Some err) traceID in
          Some {| status := statusCode; header_TraceID := traceID;
                  body := ErrorJSON jsonResponse |}
      | None =>
          match written with
          | Some (code, data, trace_id) =>
              Some {| status := code; header_TraceID := traceID;
                      body := DataJSON data trace_id |}
          | None => None
          end
      end
  end.

Section Handlers.

(** [Time.Format("2006-01-02T15:04:05Z07:00")]. *)
Variable format : Time -> string.

Definition response_of (order : Order) : OrderResponse :=
  {| r_ID := ID order; r_UserID := UserID order; r_Total := Total order;
     r_Status := OrderStatus_string (Status order);
     r_CreatedAt := format (CreatedAt order) |}.


(** [HTTPHandler.CreateOrder]: [bound] is what [c.ShouldBindJSON(&req)]
    gives, the text of its error or the request. *)
Definition HTTPHandler_CreateOrder (uc : OrderUseCase)
    (bound : string + CreateOrderRequest) (traceID : string) : Prog Outcome :=
  match bound with
  | inl msg =>
      Ret (Done [AppErr (NewValidation "invalid request body" (Some (AnyString msg)))]
             None)
  | inr req =>
      bind (CreateOrder uc {| in_UserID := req_UserID req; in_Total := req_Total req |})
        (fun '(output, err) =>
      match err with
      | Some e => Ret (Done [e] None)
      | None =>
          match output with
          | Some output =>
              Ret (Done [] (Some (201%Z, response_of (out_Order output), traceID)))
          | None => Ret Panicked
          end
      end)
  end.

(** [GRPCServer.GetOrder] and [GRPCServer.CreateOrder] of the orders
    service: the reply or the error of the use case. *)
Definition GRPCServer_GetOrder (uc : OrderUseCase) (id : uint)
  : Prog (option OrderResponse * option error) :=
  bind (GetOrder uc {| in_ID := id |}) (fun '(output, err) =>
  match err with
  | Some e => Ret (None, Some e)
  | None => Ret ((fun o => response_of (got_Order o)) <$> output, None)
  end).

Definition GRPCServer_CreateOrder (uc : OrderUseCase) (userId : uint) (total : float64)
  : Prog (option OrderResponse * option error) :=
  bind (CreateOrder uc {| in_UserID := userId; in_Total := total |})
    (fun '(output, err) =>
  match err with
  | Some e => Ret (None, Some e)
  | None => Ret ((fun o => response_of (out_Order o)) <$> output, None)
  end).

End Handlers.

(** The gateway's handlers.  [client] is the call on the orders service
    through the gateway's connection, which carries the client
    interceptor: it gives the reply and the error the interceptor
    returned.  A nil reply reads as zero values. *)
Definition zero_reply : OrderResponse :=
  {| r_ID := 0%N; r_UserID := 0%N; r_Total := S754_zero false;
     r_Status := ""; r_CreatedAt := "" |}.


(** [Handler.CreateOrder]. *)
Definition Handler_CreateOrder {W}
    (client : uint -> float64 -> W -> (option OrderResponse * option error) * W)
    (bound : string + CreateOrderRequest) (traceID : string) (w : W) : Outcome * W :=
  match bound with
  | inl msg =>
      (Done [AppErr (NewValidation "invalid request body" (Some (AnyString msg)))] None, w)
  | inr req =>
      let '((resp, err), w1) := client (req_UserID req) (req_Total req) w in
      match err with
      | Some _ => (Done [AppErr (FromGRPCStatus err)] None, w1)
      | None => (Done [] (Some (201%Z, default zero_reply resp, traceID)), w1)
      end
  end.

End http.

(** ** Further notions used to state properties *)
Module props2.
Import errors regexp ports orders_domain application.

(** Wrapping an error with each message of a list, the last one first. *)
Fixpoint wrap_all (ms : list string) (e : error) : error :=
  match ms with
  | [] => e
  | m :: rest => AppErr (Wrap (Some (wrap_all rest e)) m)
  end.

(** A sequence of [Confirm] and [Cancel] calls on an order, each with the
    time it reads. *)
Inductive transition :=
| DoConfirm (now : Time)
| DoCancel (now : Time).

Definition apply_transition (o : Order) (t : transition) : Order :=
  match t with
  | DoConfirm now => Confirm o now
  | DoCancel now => Cancel o now
  end.

Definition apply_transitions (ts : list transition) (o : Order) : Order :=
  fold_left apply_transition ts o.

(** How often a byte occurs in a string. *)
Fixpoint count_char (c : ascii) (s : string) : nat :=
  match s with
  | EmptyString => 0
  | String c' s' => (if Ascii.eqb c' c then 1 else 0) + count_char c s'
  end.

(** The bytes an accepted email address is made of. *)
Definition email_byte (c : ascii) : bool :=
  users_domain.local_class c || Ascii.eqb c "@".


(** The route [POST /orders] of the orders service, likewise. *)
Definition serve_CreateOrder {W} (format : Time -> string) (env : Env W)
    (uc : OrderUseCase) (header uuid : string)
    (bound : string + http.CreateOrderRequest) (w : W)
  : option http.Response * W * list Call :=
  let traceID := http.TraceID header uuid in
  let '(o, w1, calls) := run env (http.HTTPHandler_CreateOrder format uc bound traceID) w in
  (http.ErrorHandler traceID o, w1, calls).

(** The users service as the orders service reaches it: the use case
    behind [GRPCServer.GetUser] and the server interceptor.  The trace
    identifier and the log line play no part in the reply. *)
Definition users_service_GetUser {W} (env : users.Env W) (uc : users.UserUseCase)
    (userID : uint) (w : W) : (option UserInfo * option error) * W :=
  let '(r, _, w1) :=
    grpcpkg.UnaryServerInterceptor "" grpcpkg.Background userID
      "/users.v1.UserService/GetUser"
      (fun _ id => users_adapters.GRPCServer_GetUser env uc id) w in
  (r, w1).


End props2.

(** * Properties *)

Import errors props.

(** ** The error taxonomy *)

(** What [NewNotFound] prints for the three shapes of identifier. *)
Example NewNotFound_messages :
  Message (NewNotFound "order" (AnyUint 999%N)) = "order with id '999' not found" /\
  Message (NewNotFound "user" (AnyString "jane@example.com"))
  = "user with id 'jane@example.com' not found" /\
  Message (NewNotFound "order"
             (AnyMap {[ "user_id" := AnyUint 42%N; "a" := AnyString "x y";
                        "b" := AnyMap ∅ ]}))
  = "order with id 'map[a:x y b:map[] user_id:42]' not found".
Proof. vm_compute. repeat split. Qed.

Lemma kind_of_Some (err : option error) (k : string) :
  kind_of err = Some k -> exists appErr, As' err = Some appErr /\ Code appErr = k.
Proof.
  unfold kind_of. destruct (As' err) as [a|]; simpl; intros H; [|discriminate].
  exists a. split; congruence.
Qed.

(** C5. The HTTP status of an error is 400 for kind Validation, 404 for
    NotFound, 409 for Conflict, 401 for Unauthorized, 403 for Forbidden,
    and 500 for Internal, for an application error of any other code, and
    for an error that is not an application error. *)
Theorem HTTPStatus_by_kind (err : option error) :
  (kind_of err = Some CodeValidation -> HTTPStatus err = 400%Z) /\
  (kind_of err = Some CodeNotFound -> HTTPStatus err = 404%Z) /\
  (kind_of err = Some CodeConflict -> HTTPStatus err = 409%Z) /\
  (kind_of err = Some CodeUnauthorized -> HTTPStatus err = 401%Z) /\
  (kind_of err = Some CodeForbidden -> HTTPStatus err = 403%Z) /\
  (kind_of err = Some CodeInternal -> HTTPStatus err = 500%Z) /\
  (kind_of err = None -> HTTPStatus err = 500%Z) /\
  (forall k, kind_of err = Some k ->
     k <> CodeValidation -> k <> CodeNotFound -> k <> CodeConflict ->
     k <> CodeUnauthorized -> k <> CodeForbidden ->
     HTTPStatus err = 500%Z).
Proof.
  unfold HTTPStatus.
  repeat split.
  1-6: intros H; apply kind_of_Some in H as (a & -> & ->); reflexivity.
  - unfold kind_of. destruct (As' err); [discriminate | reflexivity].
  - intros k H nV nN nC nU nF.
    apply kind_of_Some in H as (a & -> & ->).
    repeat match goal with
    | |- context [String.eqb ?x ?y] =>
        destruct (String.eqb_spec x y); [congruence|]
    end.
    reflexivity.
Qed.

Lemma HTTPStatus_by_kind_witness :
  HTTPStatus (Some (AppErr orders_domain.ErrInvalidTotal)) = 400%Z /\
  HTTPStatus (Some (OpaqueErr "boom")) = 500%Z /\
  HTTPStatus (Some (WrapErr "ctx" (AppErr (NewNotFound "order" (AnyUint 7%N))))) = 404%Z.
Proof.
  split; [|split].
  - apply (proj1 (HTTPStatus_by_kind _)). reflexivity.
  - apply (HTTPStatus_by_kind (Some (OpaqueErr "boom"))). reflexivity.
  - apply (HTTPStatus_by_kind
             (Some (WrapErr "ctx" (AppErr (NewNotFound "order" (AnyUint 7%N)))))).
    reflexivity.
Defined.

Lemma FromGRPCStatus_status (c : codes.Code) (msg : string) :
  FromGRPCStatus (Some (StatusErr c msg)) =
  {| Code := match c with
             | codes.InvalidArgument => CodeValidation
             | codes.NotFound => CodeNotFound
             | codes.AlreadyExists => CodeConflict
             | codes.Unauthenticated => CodeUnauthorized
             | codes.PermissionDenied => CodeForbidden
             | _ => CodeInternal
             end;
     Message := msg; Details := None; Err := Some (StatusErr c msg) |}.
Proof. reflexivity. Qed.

(** The round trip on one application error. *)
Lemma FromGRPCStatus_GRPCStatus_AppError (err : option error) (appErr : AppError) :
  As' err = Some appErr ->
  In (Code appErr) taxonomy ->
  Code (FromGRPCStatus (GRPCStatus err)) = Code appErr /\
  Message (FromGRPCStatus (GRPCStatus err)) = Message appErr.
Proof.
  intros HAs Hin. unfold GRPCStatus. rewrite HAs.
  unfold taxonomy in Hin. simpl in Hin.
  destruct Hin as [H|[H|[H|[H|[H|[H|[]]]]]]]; rewrite <- H; simpl; split; reflexivity.
Qed.

(** C6, as the code has it. Translating an RPC-transport error back
    inverts the kind-to-RPC-status table: for an error that is or wraps an
    application error of one of the six kinds,
    [FromGRPCStatus (GRPCStatus e)] has the kind (and the message) of that
    application error.  A status error whose code is outside the table
    becomes kind Internal with the status message as its message, and an
    error that carries no status becomes kind Internal with the message
    [unknown error]; in both cases the original error is kept as the
    wrapped cause and the details are left empty. *)
Theorem FromGRPCStatus_inverts_GRPCStatus :
  (forall (err : option error) (appErr : AppError),
     As' err = Some appErr ->
     In (Code appErr) taxonomy ->
     Code (FromGRPCStatus (GRPCStatus err)) = Code appErr /\
     Message (FromGRPCStatus (GRPCStatus err)) = Message appErr) /\
  (forall (c : codes.Code) (msg : string),
     in_table c = false ->
     FromGRPCStatus (Some (StatusErr c msg)) =
     {| Code := CodeInternal; Message := msg; Details := None;
        Err := Some (StatusErr c msg) |}) /\
  (forall e : error,
     snd (status_FromError (Some e)) = false ->
     FromGRPCStatus (Some e) =
     {| Code := CodeInternal; Message := "unknown error"; Details := None;
        Err := Some e |}).
Proof.
  split; [|split].
  - exact FromGRPCStatus_GRPCStatus_AppError.
  - intros c msg Hc. rewrite FromGRPCStatus_status.
    destruct c; simpl in Hc; try discriminate; reflexivity.
  - intros e Hok. unfold FromGRPCStatus.
    destruct (status_FromError (Some e)) as [st ok]. simpl in Hok. subst ok.
    reflexivity.
Qed.

Lemma FromGRPCStatus_inverts_GRPCStatus_witness :
  Code (FromGRPCStatus (GRPCStatus (Some (AppErr (NewConflict "email already exists")))))
  = CodeConflict /\
  Code (FromGRPCStatus (Some (StatusErr codes.Unavailable "connection refused")))
  = CodeInternal /\
  Err (FromGRPCStatus (Some (OpaqueErr "EOF"))) = Some (OpaqueErr "EOF").
Proof.
  destruct FromGRPCStatus_inverts_GRPCStatus as (Hrt & Hst & Hun).
  split; [|split].
  - apply (Hrt (Some (AppErr (NewConflict "email already exists"))) _ eq_refl).
    simpl. auto.
  - rewrite (Hst codes.Unavailable "connection refused" eq_refl). reflexivity.
  - rewrite (Hun (OpaqueErr "EOF") eq_refl). reflexivity.
Defined.

(** C6, as stated, fails: for the status [Unavailable], which is outside
    the table, the translated error is of kind Internal but carries no
    details; the original text is its message and its cause. *)
Lemma FromGRPCStatus_details_counterexample :
  let e := StatusErr codes.Unavailable "connection refused" in
  in_table codes.Unavailable = false /\
  Code (FromGRPCStatus (Some e)) = CodeInternal /\
  Details (FromGRPCStatus (Some e)) = None /\
  ~ (exists d, Details (FromGRPCStatus (Some e)) = Some d) /\
  Message (FromGRPCStatus (Some e)) = "connection refused" /\
  Err (FromGRPCStatus (Some e)) = Some e.
Proof.
  simpl. repeat split; try reflexivity.
  intros [d Hd]. discriminate Hd.
Qed.

(** [errors.As] finds the same application error in [Wrap]'s result as
    [Wrap] copied the code from. *)
Lemma Wrap_As (err : option error) (appErr : AppError) (m : string) :
  As' err = Some appErr ->
  Wrap err m =
  {| Code := Code appErr; Message := m ++ ": " ++ Message appErr;
     Details := Details appErr; Err := err |}.
Proof. intros H. unfold Wrap. rewrite H. reflexivity. Qed.

(** C7. For every error that is (or wraps) an application error and every
    message, [Wrap] keeps the kind and the details, prefixes the message
    and records the wrapped error as the cause; [Is] answers on the result
    as on the original, for every code. *)
Theorem Wrap_preserves_classification
    (err : option error) (appErr : AppError) (m : string) :
  As' err = Some appErr ->
  Code (Wrap err m) = Code appErr /\
  Details (Wrap err m) = Details appErr /\
  Message (Wrap err m) = m ++ ": " ++ Message appErr /\
  Err (Wrap err m) = err /\
  (forall code, Is (Some (AppErr (Wrap err m))) code = Is err code) /\
  Is (Some (AppErr (Wrap err m))) (Code appErr) = true.
Proof.
  intros H. rewrite (Wrap_As _ _ _ H). simpl.
  repeat split.
  - intros code. unfold Is. simpl. rewrite H. reflexivity.
  - unfold Is. simpl. apply String.eqb_refl.
Qed.

Lemma Wrap_preserves_classification_witness :
  Code (Wrap (Some (AppErr (NewNotFound "user" (AnyUint 42%N)))) "failed to validate user")
  = CodeNotFound /\
  Message (Wrap (Some (AppErr (NewNotFound "user" (AnyUint 42%N)))) "failed to validate user")
  = "failed to validate user: user with id '42' not found".
Proof.
  destruct (Wrap_preserves_classification
              (Some (AppErr (NewNotFound "user" (AnyUint 42%N))))
              (NewNotFound "user" (AnyUint 42%N))
              "failed to validate user" eq_refl) as (Hc & _ & Hm & _).
  split; [exact Hc | exact Hm].
Defined.

(** ** The order entity *)

Import orders_domain.

(** Facts on the comparisons of [float64] against the two constants. *)
Lemma positive_not_le_0 (t : float64) : SFltb f64_0 t = true -> SFleb t f64_0 = false.
Proof.
  unfold SFltb, SFleb, f64_0.
  destruct t as [s | s | | s m e]; simpl; try discriminate;
    destruct s; simpl; intros H; try discriminate; reflexivity.
Qed.

Lemma le_1000000_not_gt (t : float64) :
  SFleb t f64_1000000 = true -> SFltb f64_1000000 t = false.
Proof.
  unfold SFltb, SFleb, f64_1000000.
  destruct t as [s | s | | s m e]; cbn [SFcompare]; try reflexivity.
  - destruct s; intros H; try discriminate; reflexivity.
  - destruct s; [reflexivity|].
    rewrite (Z.compare_antisym e (-33)).
    change (Pos.compare_cont Eq 8589934592000000 m)
      with (Pos.compare_cont (CompOpp Eq) 8589934592000000 m).
    rewrite <- (Pos.compare_cont_antisym m 8589934592000000 Eq).
    destruct (e ?= -33)%Z; cbn [CompOpp]; try discriminate; try reflexivity.
    destruct (Pos.compare_cont Eq m 8589934592000000); cbn [CompOpp];
      intros H; try discriminate; reflexivity.
Qed.

Lemma gt_1000000_not_le_0 (t : float64) :
  SFltb f64_1000000 t = true -> SFleb t f64_0 = false.
Proof.
  unfold SFltb, SFleb, f64_1000000, f64_0.
  destruct t as [s | s | | s m e]; cbn [SFcompare]; try discriminate;
    destruct s; intros H; try discriminate; reflexivity.
Qed.

Lemma total_in_range_spec (t : float64) :
  total_in_range t = true ->
  SFleb t f64_0 = false /\ SFltb f64_1000000 t = false.
Proof.
  unfold total_in_range. intros H. apply andb_prop in H as [H0 H1].
  split; [apply positive_not_le_0 | apply le_1000000_not_gt]; assumption.
Qed.

(** The three checks of [Order.Validate], in their order. *)
Lemma Validate_UserID_zero (o : Order) :
  UserID o = 0%N -> Validate o = Some (AppErr ErrUserIDRequired).
Proof. intros H. unfold Validate. rewrite H. reflexivity. Qed.

Lemma Validate_total_low (o : Order) :
  UserID o <> 0%N -> SFleb (Total o) f64_0 = true ->
  Validate o = Some (AppErr ErrInvalidTotal).
Proof.
  intros Hu Ht. unfold Validate.
  destruct (N.eqb_spec (UserID o) 0%N); [contradiction|].
  rewrite Ht. reflexivity.
Qed.

Lemma Validate_total_high (o : Order) :
  UserID o <> 0%N -> SFltb f64_1000000 (Total o) = true ->
  Validate o = Some (AppErr ErrTotalTooHigh).
Proof.
  intros Hu Ht. unfold Validate.
  destruct (N.eqb_spec (UserID o) 0%N); [contradiction|].
  rewrite (gt_1000000_not_le_0 _ Ht), Ht. reflexivity.
Qed.

Lemma Validate_ok (o : Order) :
  UserID o <> 0%N -> SFleb (Total o) f64_0 = false ->
  SFltb f64_1000000 (Total o) = false -> Validate o = None.
Proof.
  intros Hu H0 H1. unfold Validate.
  destruct (N.eqb_spec (UserID o) 0%N); [contradiction|].
  rewrite H0, H1. reflexivity.
Qed.

(** Whatever [Order.Validate] returns is a Validation error without
    details. *)
Lemma Validate_error_kind (o : Order) (e : error) :
  Validate o = Some e -> Is (Some e) CodeValidation = true.
Proof.
  unfold Validate.
  destruct (UserID o =? 0)%N; [intros [= <-]; reflexivity|].
  destruct (SFleb (Total o) f64_0); [intros [= <-]; reflexivity|].
  destruct (SFltb f64_1000000 (Total o)); [intros [= <-]; reflexivity|].
  discriminate.
Qed.

(** C3. [Order.Validate] fails exactly when the user identifier is zero,
    the total is <= 0 or the total is > 1,000,000; the checks run in that
    order and the first failing one decides the error, which is a
    Validation error with the message of that check; with a non-zero user
    identifier and a total in (0, 1000000] validation succeeds. *)
Theorem Order_Validate_spec (o : Order) :
  (UserID o = 0%N ->
   Validate o = Some (AppErr (NewValidation "user_id is required" None))) /\
  (UserID o <> 0%N -> SFleb (Total o) f64_0 = true ->
   Validate o = Some (AppErr (NewValidation "total must be greater than 0" None))) /\
  (UserID o <> 0%N -> SFltb f64_1000000 (Total o) = true ->
   Validate o = Some (AppErr (NewValidation "total cannot exceed 1,000,000" None))) /\
  (Validate o <> None <->
   UserID o = 0%N \/ SFleb (Total o) f64_0 = true \/
   SFltb f64_1000000 (Total o) = true) /\
  (forall e, Validate o = Some e -> Is (Some e) CodeValidation = true) /\
  (UserID o <> 0%N -> total_in_range (Total o) = true -> Validate o = None).
Proof.
  split; [apply Validate_UserID_zero|].
  split; [apply Validate_total_low|].
  split; [apply Validate_total_high|].
  split; [|split; [apply Validate_error_kind|]].
  - split.
    + intros Hv.
      destruct (N.eq_dec (UserID o) 0%N) as [Hu|Hu]; [left; exact Hu|].
      destruct (SFleb (Total o) f64_0) eqn:H0; [right; left; reflexivity|].
      destruct (SFltb f64_1000000 (Total o)) eqn:H1; [right; right; reflexivity|].
      exfalso. apply Hv. apply Validate_ok; assumption.
    + intros [Hu|[H0|H1]].
      * rewrite (Validate_UserID_zero _ Hu). discriminate.
      * destruct (N.eq_dec (UserID o) 0%N) as [Hu|Hu].
        -- rewrite (Validate_UserID_zero _ Hu). discriminate.
        -- rewrite (Validate_total_low _ Hu H0). discriminate.
      * destruct (N.eq_dec (UserID o) 0%N) as [Hu|Hu].
        -- rewrite (Validate_UserID_zero _ Hu). discriminate.
        -- rewrite (Validate_total_high _ Hu H1). discriminate.
  - intros Hu Hr. apply total_in_range_spec in Hr as [H0 H1].
    apply Validate_ok; assumption.
Qed.

Lemma Order_Validate_spec_witness :
  Validate (mkOrder 0%N 1%N mocks.f64_99_99 OrderStatusPending 0%Z 0%Z) = None /\
  Validate (mkOrder 0%N 1%N f64_1000000 OrderStatusPending 0%Z 0%Z) = None /\
  Validate (mkOrder 0%N 1%N mocks.f64_neg10 OrderStatusPending 0%Z 0%Z)
  = Some (AppErr (NewValidation "total must be greater than 0" None)).
Proof.
  split; [|split].
  - apply (Order_Validate_spec (mkOrder 0%N 1%N mocks.f64_99_99 OrderStatusPending 0%Z 0%Z));
      [discriminate | reflexivity].
  - apply (Order_Validate_spec (mkOrder 0%N 1%N f64_1000000 OrderStatusPending 0%Z 0%Z));
      [discriminate | reflexivity].
  - apply (Order_Validate_spec (mkOrder 0%N 1%N mocks.f64_neg10 OrderStatusPending 0%Z 0%Z));
      [discriminate | reflexivity].
Defined.

(** C10. From any status, [Confirm] sets the status to confirmed and
    [Cancel] sets it to cancelled; both set [UpdatedAt] to the time read
    and leave [ID], [UserID], [Total] and [CreatedAt] as they were. *)
Theorem Confirm_Cancel_frame (o : Order) (now : Time) :
  (Status (Confirm o now) = OrderStatusConfirmed /\
   UpdatedAt (Confirm o now) = now /\
   ID (Confirm o now) = ID o /\ UserID (Confirm o now) = UserID o /\
   Total (Confirm o now) = Total o /\ CreatedAt (Confirm o now) = CreatedAt o) /\
  (Status (Cancel o now) = OrderStatusCancelled /\
   UpdatedAt (Cancel o now) = now /\
   ID (Cancel o now) = ID o /\ UserID (Cancel o now) = UserID o /\
   Total (Cancel o now) = Total o /\ CreatedAt (Cancel o now) = CreatedAt o).
Proof. destruct o. repeat split. Qed.

(** ** Matching by derivatives against the language of an expression *)

Import regexp.

Lemma append_nil_l (s : string) : "" ++ s = s.
Proof. reflexivity. Qed.

Lemma append_cons (c : ascii) (s1 s2 : string) :
  String c s1 ++ s2 = String c (s1 ++ s2).
Proof. reflexivity. Qed.

Lemma append_eq_empty (s1 s2 : string) : s1 ++ s2 = "" -> s1 = "" /\ s2 = "".
Proof.
  destruct s1; [rewrite append_nil_l; auto | rewrite append_cons; discriminate].
Qed.

Lemma append_assoc (s1 s2 s3 : string) : (s1 ++ s2) ++ s3 = s1 ++ (s2 ++ s3).
Proof.
  induction s1 as [|c s1 IH]; [reflexivity|].
  rewrite !append_cons, IH. reflexivity.
Qed.

Lemma nullable_sound (r : Regexp) : nullable r = true -> Matches r "".
Proof.
  induction r; simpl; intros H; try discriminate.
  - constructor.
  - apply andb_prop in H as [H1 H2].
    change "" with ("" ++ ""). constructor; auto.
  - apply orb_prop in H as [H|H]; [apply MAltL | apply MAltR]; auto.
  - constructor.
Qed.

Lemma nullable_complete (r : Regexp) (s : string) :
  Matches r s -> s = "" -> nullable r = true.
Proof.
  induction 1; simpl; intros Hs; try reflexivity; try discriminate.
  - apply append_eq_empty in Hs as [-> ->]. rewrite IHMatches1, IHMatches2; auto.
  - rewrite IHMatches; auto.
  - rewrite IHMatches; auto. apply orb_true_r.
Qed.

Lemma deriv_sound (c : ascii) (r : Regexp) :
  forall s, Matches (deriv c r) s -> Matches r (String c s).
Proof.
  induction r; simpl; intros s H.
  - inversion H.
  - inversion H.
  - destruct (cls c) eqn:Hc; inversion H; subst. now constructor.
  - destruct (nullable r1) eqn:Hn.
    + inversion H; subst.
      * match goal with Hc : Matches (Concat _ _) _ |- _ => inversion Hc; subst end.
        change (String c (s1 ++ s2)) with (String c s1 ++ s2).
        constructor; auto.
      * change (String c s) with ("" ++ String c s).
        constructor; [apply nullable_sound; assumption | auto].
    + inversion H; subst.
      change (String c (s1 ++ s2)) with (String c s1 ++ s2).
      constructor; auto.
  - inversion H; subst; [apply MAltL | apply MAltR]; auto.
  - inversion H; subst.
    change (String c (s1 ++ s2)) with (String c s1 ++ s2).
    apply MStarS; auto.
Qed.

Lemma deriv_complete (c : ascii) (r : Regexp) (s0 : string) :
  Matches r s0 -> forall s, s0 = String c s -> Matches (deriv c r) s.
Proof.
  induction 1; simpl; intros tl Hs; try discriminate.
  - injection Hs as -> <-. rewrite H. constructor.
  - destruct s1 as [|c1 s1];
      [rewrite append_nil_l in Hs | rewrite append_cons in Hs].
    + subst s2. rewrite (nullable_complete _ _ H eq_refl).
      apply MAltR. auto.
    + injection Hs as -> <-.
      destruct (nullable r1).
      * apply MAltL. constructor; auto.
      * constructor; auto.
  - apply MAltL. auto.
  - apply MAltR. auto.
  - destruct s1 as [|c1 s1];
      [rewrite append_nil_l in Hs | rewrite append_cons in Hs].
    + auto.
    + injection Hs as -> <-. constructor; auto.
Qed.

(** [MatchString] decides the language of the expression. *)
Lemma MatchString_Matches (s : string) :
  forall r, MatchString r s = true <-> Matches r s.
Proof.
  induction s as [|c s IH]; simpl; intros r.
  - split; [apply nullable_sound | intros H; eapply nullable_complete; eauto].
  - rewrite IH. split; [apply deriv_sound | intros H; eapply deriv_complete; eauto].
Qed.

(** The strings of a starred class, of [cls+] and of [cls{2,}]. *)
Lemma Matches_Star_class (cls : ascii -> bool) (r : Regexp) (s : string) :
  Matches r s -> r = Star (CharClass cls) -> all_in cls s = true.
Proof.
  induction 1; intros Hr; try discriminate; [reflexivity|].
  injection Hr as ->.
  inversion H; subst. rewrite append_cons, append_nil_l. simpl.
  match goal with Hc : cls _ = true |- _ => rewrite Hc end. simpl. auto.
Qed.

Lemma Matches_Plus_class (cls : ascii -> bool) (s : string) :
  Matches (Plus (CharClass cls)) s -> s <> "" /\ all_in cls s = true.
Proof.
  unfold Plus. intros H. inversion H; subst.
  match goal with Hc : Matches (CharClass _) _ |- _ => inversion Hc; subst end.
  rewrite append_cons, append_nil_l. simpl. split; [discriminate|].
  match goal with Hc : cls _ = true |- _ => rewrite Hc end. simpl.
  eapply Matches_Star_class; eauto.
Qed.

Lemma Matches_Repeat2_class (cls : ascii -> bool) (s : string) :
  Matches (Repeat2 (CharClass cls)) s ->
  (2 <= String.length s)%nat /\ all_in cls s = true.
Proof.
  unfold Repeat2. intros H. inversion H; subst.
  match goal with Hc : Matches (Concat _ _) _ |- _ => inversion Hc; subst end.
  repeat match goal with Hc : Matches (CharClass _) _ |- _ => inversion Hc; subst; clear Hc end.
  rewrite !append_cons, !append_nil_l. simpl. split; [lia|].
  repeat match goal with Hc : cls _ = true |- _ => rewrite Hc; clear Hc end. simpl.
  eapply Matches_Star_class; eauto.
Qed.


Lemma all_in_Star (cls : ascii -> bool) (s : string) :
  all_in cls s = true -> Matches (Star (CharClass cls)) s.
Proof.
  induction s as [|c s IH]; simpl; intros H; [constructor|].
  apply andb_prop in H as [Hc Hs].
  change (String c s) with (String c "" ++ s).
  apply MStarS; [constructor; assumption | auto].
Qed.

Lemma all_in_Plus (cls : ascii -> bool) (s : string) :
  s <> "" -> all_in cls s = true -> Matches (Plus (CharClass cls)) s.
Proof.
  destruct s as [|c s]; [contradiction|]. simpl. intros _ H.
  apply andb_prop in H as [Hc Hs].
  change (String c s) with (String c "" ++ s).
  constructor; [constructor; assumption | apply all_in_Star; assumption].
Qed.

Lemma all_in_Repeat2 (cls : ascii -> bool) (s : string) :
  (2 <= String.length s)%nat -> all_in cls s = true ->
  Matches (Repeat2 (CharClass cls)) s.
Proof.
  destruct s as [|a [|b s]]; simpl; try lia. intros _ H.
  apply andb_prop in H as [Ha H]. apply andb_prop in H as [Hb Hs].
  change (String a (String b s)) with (String a "" ++ (String b "" ++ s)).
  constructor; [constructor; assumption|].
  constructor; [constructor; assumption | apply all_in_Star; assumption].
Qed.

Lemma Matches_literal (ch : ascii) (s : string) :
  Matches (CharClass (users_domain.literal (String ch ""))) s <-> s = String ch "".
Proof.
  split.
  - intros H. inversion H; subst. simpl in *.
    match goal with Hc : Ascii.eqb _ _ = true |- _ => apply Ascii.eqb_eq in Hc; now subst end.
  - intros ->. constructor. simpl. apply Ascii.eqb_refl.
Qed.

(** The language of [EmailRegex], spelled out: a non-empty local part, an
    ['@'], a non-empty domain part, a ['.'] and two letters or more. *)
Lemma EmailRegex_shape (e : string) :
  Matches users_domain.EmailRegex e <->
  exists l d t,
    e = l ++ "@" ++ d ++ "." ++ t /\
    l <> "" /\ all_in users_domain.local_class l = true /\
    d <> "" /\ all_in users_domain.domain_class d = true /\
    (2 <= String.length t)%nat /\ all_in users_domain.is_letter t = true.
Proof.
  unfold users_domain.EmailRegex. split.
  - intros H.
    inversion H as [| |r1 r2 l s2 Hl H2| | | |]; subst.
    inversion H2 as [| |r1 r2 a s3 Ha H3| | | |]; subst.
    inversion H3 as [| |r1 r2 d s4 Hd H4| | | |]; subst.
    inversion H4 as [| |r1 r2 b t Hb Ht| | | |]; subst.
    apply Matches_literal in Ha, Hb. subst a b.
    apply Matches_Plus_class in Hl as [Hl1 Hl2].
    apply Matches_Plus_class in Hd as [Hd1 Hd2].
    apply Matches_Repeat2_class in Ht as [Ht1 Ht2].
    exists l, d, t. repeat split; assumption.
  - intros (l & d & t & -> & Hl1 & Hl2 & Hd1 & Hd2 & Ht1 & Ht2).
    constructor; [apply all_in_Plus; assumption|].
    constructor; [apply Matches_literal; reflexivity|].
    constructor; [apply all_in_Plus; assumption|].
    constructor; [apply Matches_literal; reflexivity|].
    apply all_in_Repeat2; assumption.
Qed.

Lemma contains_app (c : ascii) (s1 s2 : string) :
  contains c (s1 ++ s2) = contains c s1 || contains c s2.
Proof.
  induction s1 as [|a s1 IH]; [reflexivity|].
  rewrite append_cons. simpl. rewrite IH. apply orb_assoc.
Qed.

Lemma letters_no_dot (t : string) :
  all_in users_domain.is_letter t = true -> contains "." t = false.
Proof.
  induction t as [|c t IH]; simpl; intros H; [reflexivity|].
  apply andb_prop in H as [Hc Ht]. rewrite (IH Ht), orb_false_r.
  destruct (Ascii.eqb_spec c "."); [|reflexivity].
  subst c. discriminate Hc.
Qed.

Lemma last_label_dot (p t : string) :
  contains "." t = false -> last_label (p ++ String "." t) = t.
Proof.
  intros Ht. induction p as [|c p IH].
  - rewrite append_nil_l. simpl. rewrite Ht. reflexivity.
  - rewrite append_cons. simpl.
    rewrite contains_app. simpl. rewrite orb_true_r. exact IH.
Qed.

(** What a matching address must contain. *)
Lemma EmailRegex_needs (e : string) :
  MatchString users_domain.EmailRegex e = true ->
  contains "@" e = true /\ has_final_label e = true.
Proof.
  intros H. apply MatchString_Matches, EmailRegex_shape in H.
  destruct H as (l & d & t & -> & _ & _ & _ & _ & Ht1 & Ht2).
  split.
  - rewrite contains_app. change ("@" ++ d ++ "." ++ t) with (String "@" (d ++ "." ++ t)).
    simpl. apply orb_true_r.
  - unfold has_final_label.
    assert (Hl : last_label (l ++ "@" ++ d ++ "." ++ t) = t).
    { rewrite <- (append_assoc l "@" (d ++ "." ++ t)).
      rewrite <- (append_assoc (l ++ "@") d ("." ++ t)).
      apply (last_label_dot ((l ++ "@") ++ d) t), letters_no_dot, Ht2. }
    apply Nat.leb_le in Ht1. rewrite Hl, Ht2, Ht1.
    rewrite !contains_app.
    change (contains "." ("." ++ t)) with true.
    rewrite !orb_true_r. reflexivity.
Qed.

(** ** The user entity *)

Lemma EmailRegex_rejects (e : string) :
  contains "@" e = false \/ has_final_label e = false ->
  MatchString users_domain.EmailRegex e = false.
Proof.
  intros H. destruct (MatchString users_domain.EmailRegex e) eqn:Hm; [|reflexivity].
  apply EmailRegex_needs in Hm as [Ha Hl].
  destruct H as [H|H]; congruence.
Qed.

Lemma User_Validate_error_kind (u : users_domain.User) (e : error) :
  users_domain.Validate u = Some e -> Is (Some e) CodeValidation = true.
Proof.
  unfold users_domain.Validate.
  repeat match goal with
  | |- context [if ?b then _ else _] => destruct b; [intros [= <-]; reflexivity|]
  end.
  discriminate.
Qed.

Lemma User_Validate_None (u : users_domain.User) :
  users_domain.Validate u = None <->
  (2 <= String.length (users_domain.Name u) <= 100)%nat /\
  MatchString users_domain.EmailRegex (users_domain.Email u) = true.
Proof.
  unfold users_domain.Validate.
  destruct (String.eqb_spec (users_domain.Name u) "") as [Hn|Hn].
  { split; [discriminate|]. rewrite Hn. simpl. lia. }
  destruct (Nat.ltb_spec (String.length (users_domain.Name u)) 2);
    [split; [discriminate | lia]|].
  destruct (Nat.ltb_spec 100 (String.length (users_domain.Name u)));
    [split; [discriminate | lia]|].
  simpl.
  destruct (String.eqb_spec (users_domain.Email u) "") as [He|He].
  { split; [discriminate|]. rewrite He. intros [_ Hm]. discriminate Hm. }
  destruct (MatchString users_domain.EmailRegex (users_domain.Email u)); simpl.
  - split; [intros _; split; [lia | reflexivity] | reflexivity].
  - split; [discriminate | intros [_ Hm]; discriminate Hm].
Qed.

(** C4. [User.Validate] checks, in this order, that the name is not
    empty, that its length is within [2,100], that the email is not empty
    and that the email matches the pattern; the first failing check decides
    the error, and every error is a Validation error.  It fails exactly
    when one of the four checks fails, and it fails for every email with no
    ['@'] or with no final label of two letters or more. *)
Theorem User_Validate_spec (u : users_domain.User) :
  let name := users_domain.Name u in
  let email := users_domain.Email u in
  (name = "" ->
   users_domain.Validate u = Some (AppErr users_domain.ErrNameRequired)) /\
  (name <> "" -> (String.length name < 2 \/ 100 < String.length name)%nat ->
   users_domain.Validate u = Some (AppErr users_domain.ErrNameLength)) /\
  ((2 <= String.length name <= 100)%nat -> email = "" ->
   users_domain.Validate u = Some (AppErr users_domain.ErrEmailRequired)) /\
  ((2 <= String.length name <= 100)%nat -> email <> "" ->
   MatchString users_domain.EmailRegex email = false ->
   users_domain.Validate u = Some (AppErr users_domain.ErrEmailInvalid)) /\
  (users_domain.Validate u <> None <->
   name = "" \/ (String.length name < 2)%nat \/ (100 < String.length name)%nat \/
   email = "" \/ MatchString users_domain.EmailRegex email = false) /\
  (forall e, users_domain.Validate u = Some e -> Is (Some e) CodeValidation = true) /\
  (contains "@" email = false \/ has_final_label email = false ->
   MatchString users_domain.EmailRegex email = false /\
   exists e, users_domain.Validate u = Some e /\ Is (Some e) CodeValidation = true).
Proof.
  intros name email. subst name email.
  split; [|split; [|split; [|split; [|split; [|split]]]]].
  - intros Hn. unfold users_domain.Validate. rewrite Hn. reflexivity.
  - intros Hn Hl. unfold users_domain.Validate.
    destruct (String.eqb_spec (users_domain.Name u) ""); [contradiction|].
    destruct (Nat.ltb_spec (String.length (users_domain.Name u)) 2); [reflexivity|].
    destruct (Nat.ltb_spec 100 (String.length (users_domain.Name u))); [reflexivity|].
    lia.
  - intros Hl He. unfold users_domain.Validate.
    destruct (String.eqb_spec (users_domain.Name u) "") as [Hn|Hn];
      [rewrite Hn in Hl; simpl in Hl; lia|].
    destruct (Nat.ltb_spec (String.length (users_domain.Name u)) 2); [lia|].
    destruct (Nat.ltb_spec 100 (String.length (users_domain.Name u))); [lia|].
    rewrite He. reflexivity.
  - intros Hl He Hm. unfold users_domain.Validate.
    destruct (String.eqb_spec (users_domain.Name u) "") as [Hn|Hn];
      [rewrite Hn in Hl; simpl in Hl; lia|].
    destruct (Nat.ltb_spec (String.length (users_domain.Name u)) 2); [lia|].
    destruct (Nat.ltb_spec 100 (String.length (users_domain.Name u))); [lia|].
    destruct (String.eqb_spec (users_domain.Email u) ""); [contradiction|].
    rewrite Hm. reflexivity.
  - rewrite User_Validate_None. split.
    + intros Hv.
      destruct (MatchString users_domain.EmailRegex (users_domain.Email u));
        [|auto 6].
      destruct (Nat.ltb_spec (String.length (users_domain.Name u)) 2); [auto|].
      destruct (Nat.ltb_spec 100 (String.length (users_domain.Name u))); [auto|].
      exfalso. apply Hv. split; [lia | reflexivity].
    + intros [Hn|[Hl|[Hl|[He|Hm]]]] [Hlen Hmatch]; try lia.
      * rewrite Hn in Hlen. simpl in Hlen. lia.
      * rewrite He in Hmatch. discriminate Hmatch.
      * congruence.
  - apply User_Validate_error_kind.
  - intros H. pose proof (EmailRegex_rejects _ H) as Hm. split; [exact Hm|].
    destruct (users_domain.Validate u) as [e|] eqn:Hv.
    + exists e. split; [reflexivity | eapply User_Validate_error_kind; eauto].
    + apply User_Validate_None in Hv as [_ Hv]. congruence.
Qed.

Lemma User_Validate_spec_witness :
  users_domain.Validate (users_domain.mkUser 0%N "John Doe" "john.example.com" 0%Z 0%Z)
  = Some (AppErr users_domain.ErrEmailInvalid) /\
  users_domain.Validate (users_domain.mkUser 0%N "J" "john@example.com" 0%Z 0%Z)
  = Some (AppErr users_domain.ErrNameLength) /\
  MatchString users_domain.EmailRegex "john@example.c" = false.
Proof.
  split; [|split].
  - apply (User_Validate_spec (users_domain.mkUser 0%N "John Doe" "john.example.com" 0%Z 0%Z));
      [simpl; lia | discriminate | reflexivity].
  - apply (User_Validate_spec (users_domain.mkUser 0%N "J" "john@example.com" 0%Z 0%Z));
      [discriminate | simpl; lia].
  - apply (User_Validate_spec (users_domain.mkUser 0%N "J" "john@example.c" 0%Z 0%Z)).
    right. reflexivity.
Defined.

(** ** The order use case *)

Import ports application orders_domain.

Section Runs.
Context {W : Type} (env : Env W).

Lemma run_Do {A} (c : Call) (k : Resp c -> Prog A) (w : W) :
  run env (Do c k) w =
  let '(x, w1) := answer env c w in
  let '(a, w2, calls) := run env (k x) w1 in
  (a, w2, c :: calls).
Proof. reflexivity. Qed.

(** [CreateOrder] is its user check followed, when that passes, by the
    local part. *)
Lemma run_CreateOrder (uc : OrderUseCase) (input : CreateOrderInput) (w : W) :
  run env (CreateOrder uc input) w =
  let '(err, w0, pre) := user_check env uc input w in
  match err with
  | Some e =>
      ((None,
        if Is (Some e) CodeNotFound
        then NewUserNotFoundError (in_UserID input)
        else Some (AppErr (Wrap (Some e) "failed to validate user"))),
       w0, pre)
  | None =>
      let '(r, w1, calls) := run env (CreateOrder_local uc input) w0 in
      (r, w1, (pre ++ calls)%list)
  end.
Proof.
  unfold CreateOrder, user_check.
  generalize (CreateOrder_local uc input). intros local.
  destruct (userClient uc) as [c|].
  - rewrite run_Do. simpl.
    destruct (env_GetUser env c (in_UserID input) w) as [[resp [e|]] w0].
    + destruct (Is (Some e) CodeNotFound); reflexivity.
    + destruct (run env local w0) as [[r w1] calls]. reflexivity.
  - destruct (run env local w) as [[r w1] calls]. reflexivity.
Qed.

(** The local part when validation rejects the order. *)
Lemma run_CreateOrder_local_invalid
    (uc : OrderUseCase) (input : CreateOrderInput) (w : W) (e : error) :
  (forall now1 now2,
     NewOrder (in_UserID input) (in_Total input) now1 now2 = inl e) ->
  run env (CreateOrder_local uc input) w =
  ((None, Some e), snd (env_Now env (snd (env_Now env w))), [Time_Now; Time_Now]).
Proof.
  intros Hnew. unfold CreateOrder_local.
  cbn [run answer]. destruct (env_Now env w) as [now1 w1].
  cbn [snd]. destruct (env_Now env w1) as [now2 w2].
  rewrite Hnew. reflexivity.
Qed.

(** The local part once the repository has stored the order. *)
Lemma run_CreateOrder_local_created
    (uc : OrderUseCase) (input : CreateOrderInput) (w w1 w2 w3 : W)
    (now1 now2 : Time) (order order' : Order) :
  env_Now env w = (now1, w1) ->
  env_Now env w1 = (now2, w2) ->
  NewOrder (in_UserID input) (in_Total input) now1 now2 = inr order ->
  env_Create env (repo uc) order w2 = ((order', None), w3) ->
  let info := Log_Info "order created" (ID order') (UserID order') (Total order') in
  run env (CreateOrder_local uc input) w =
  ((Some {| out_Order := order' |}, None),
   match publisher uc with
   | Some p => snd (env_PublishOrderCreated env p order' w3)
   | None => w3
   end,
   ([Time_Now; Time_Now; OrderRepository_Create (repo uc) order] ++
    match publisher uc with
    | Some p =>
        EventPublisher_PublishOrderCreated p order' ::
        match fst (env_PublishOrderCreated env p order' w3) with
        | Some e =>
            [Log_Error "failed to publish order created event" e (ID order'); info]
        | None => [info]
        end
    | None => [info]
    end)%list).
Proof.
  intros H1 H2 Hnew Hcreate info. unfold CreateOrder_local.
  cbn [run answer]. rewrite H1, H2, Hnew.
  cbn [run answer]. rewrite Hcreate.
  destruct (publisher uc) as [p|]; [|reflexivity].
  cbn [run answer].
  destruct (env_PublishOrderCreated env p order' w3) as [[e|] w4]; reflexivity.
Qed.

End Runs.

(** C1, as the code has it. With a lookup client configured, when
    [GetUser] fails the only call made is that lookup: no order is
    constructed, validated or stored.  If the failure is of kind NotFound
    the result is a Validation error with the detail map
    [{user_id: <the input id>}]; otherwise the failure is wrapped with the
    message prefix [failed to validate user] and keeps the kind of the
    application error it is or wraps, and is of kind Internal when it is
    not an application error. *)
Theorem CreateOrder_lookup_failure {W} (env : Env W)
    (uc : OrderUseCase) (input : CreateOrderInput) (w w1 : W)
    (c : handle) (resp : option UserInfo) (e : error) :
  userClient uc = Some c ->
  env_GetUser env c (in_UserID input) w = ((resp, Some e), w1) ->
  let r := run env (CreateOrder uc input) w in
  snd r = [UserClient_GetUser c (in_UserID input)] /\
  snd (fst r) = w1 /\
  fst (fst (fst r)) = None /\
  (Is (Some e) CodeNotFound = true ->
   snd (fst (fst r)) =
   Some (AppErr {| Code := CodeValidation; Message := "user not found";
                   Details := Some (AnyMap {[ "user_id" := AnyUint (in_UserID input) ]});
                   Err := None |})) /\
  (Is (Some e) CodeNotFound = false ->
   exists wrapped,
     snd (fst (fst r)) = Some (AppErr wrapped) /\
     Code wrapped = match As e with Some a => Code a | None => CodeInternal end /\
     Message wrapped =
       "failed to validate user" ++
       match As e with Some a => ": " ++ Message a | None => "" end /\
     Details wrapped = match As e with Some a => Details a | None => None end /\
     Err wrapped = Some e).
Proof.
  intros Hc Hget r. subst r.
  rewrite run_CreateOrder. unfold user_check. rewrite Hc, Hget. simpl.
  repeat split.
  - intros Hnf. rewrite Hnf. reflexivity.
  - intros Hnf. rewrite Hnf.
    exists (Wrap (Some e) "failed to validate user").
    split; [reflexivity|].
    unfold Wrap. simpl. destruct (As e) as [a|]; simpl.
    + repeat split; reflexivity.
    + repeat split; reflexivity.
Qed.

Lemma CreateOrder_lookup_failure_witness :
  snd (fst (fst (run mocks.mock_env
                   (CreateOrder mocks.useCase (mkCreateOrderInput 999%N mocks.f64_99_99))
                   mocks.new_world)))
  = Some (AppErr {| Code := CodeValidation; Message := "user not found";
                    Details := Some (AnyMap {[ "user_id" := AnyUint 999%N ]});
                    Err := None |}).
Proof.
  apply (CreateOrder_lookup_failure mocks.mock_env mocks.useCase
           (mkCreateOrderInput 999%N mocks.f64_99_99) mocks.new_world mocks.new_world
           3%N None (AppErr (NewNotFound "user" (AnyUint 999%N)))
           eq_refl eq_refl).
  reflexivity.
Defined.

(** C1, as stated, fails: when the users service answers the lookup with
    the status [PermissionDenied], the client hands the use case an
    application error of kind Forbidden, which is not NotFound, and
    [CreateOrder] returns it wrapped with its kind unchanged: Forbidden,
    not Internal. *)
Lemma CreateOrder_lookup_failure_counterexample :
  let env := mocks.grpc_env codes.PermissionDenied "access denied" in
  let input := mkCreateOrderInput 1%N mocks.f64_99_99 in
  let lookup := fst (env_GetUser env 3%N 1%N mocks.new_world) in
  let r := run env (CreateOrder mocks.useCase input) mocks.new_world in
  Is (snd lookup) CodeNotFound = false /\
  Is (snd (fst (fst r))) CodeInternal = false /\
  Is (snd (fst (fst r))) CodeForbidden = true /\
  kind_of (snd (fst (fst r))) <> Some CodeInternal.
Proof.
  vm_compute. repeat split; try reflexivity. discriminate.
Qed.

Lemma NewOrder_invalid_total (userID : uint) (total : float64) :
  SFleb total f64_0 = true \/ SFltb f64_1000000 total = true ->
  exists e, Is (Some e) CodeValidation = true /\
            forall now1 now2, NewOrder userID total now1 now2 = inl e.
Proof.
  intros Ht. unfold NewOrder, Validate. simpl.
  destruct (userID =? 0)%N; [eexists; split; [|reflexivity]; reflexivity|].
  destruct Ht as [Ht|Ht].
  - rewrite Ht. eexists; split; [|reflexivity]; reflexivity.
  - rewrite (gt_1000000_not_le_0 _ Ht), Ht.
    eexists; split; [|reflexivity]; reflexivity.
Qed.

(** C2, as the code has it. For an input whose total fails validation
    ([<= 0] or [> 1,000,000]), [CreateOrder] returns no order and an
    error, and never calls the repository's [Create] nor the publisher.
    The remote lookup is not skipped: with a client configured, [GetUser]
    is the first call, made before the order is validated.  When the lookup
    passes, or no client is configured, the error is the Validation error
    of [Order.Validate] and the only further calls are the two readings of
    the clock. *)
Theorem CreateOrder_invalid_total {W} (env : Env W)
    (uc : OrderUseCase) (input : CreateOrderInput) (w : W) :
  SFleb (in_Total input) f64_0 = true \/
  SFltb f64_1000000 (in_Total input) = true ->
  let r := run env (CreateOrder uc input) w in
  let chk := user_check env uc input w in
  fst (fst (fst r)) = None /\
  (exists e, snd (fst (fst r)) = Some e) /\
  forallb (fun c => negb (is_Create c) && negb (is_Publish c)) (snd r) = true /\
  (forall c, userClient uc = Some c ->
     hd_error (snd r) = Some (UserClient_GetUser c (in_UserID input))) /\
  (fst (fst chk) = None ->
     Is (snd (fst (fst r))) CodeValidation = true /\
     snd (fst (fst r)) =
       Validate (mkOrder 0%N (in_UserID input) (in_Total input) OrderStatusPending 0%Z 0%Z) /\
     snd r = (snd chk ++ [Time_Now; Time_Now])%list).
Proof.
  intros Ht r chk. subst r chk.
  destruct (NewOrder_invalid_total (in_UserID input) _ Ht) as (e & Hkind & Hnew).
  rewrite run_CreateOrder.
  assert (Hpre : forallb (fun c => negb (is_Create c) && negb (is_Publish c))
                   (snd (user_check env uc input w)) = true).
  { unfold user_check. destruct (userClient uc) as [c|]; [|reflexivity].
    destruct (env_GetUser env c (in_UserID input) w) as [[resp err] w0].
    reflexivity. }
  assert (Hhd : forall c, userClient uc = Some c ->
                forall rest, hd_error (snd (user_check env uc input w) ++ rest)%list
                = Some (UserClient_GetUser c (in_UserID input))).
  { intros c Hc rest. unfold user_check. rewrite Hc.
    destruct (env_GetUser env c (in_UserID input) w) as [[resp err] w0].
    reflexivity. }
  destruct (user_check env uc input w) as [[err w0] pre] eqn:Hchk.
  simpl in Hpre, Hhd.
  destruct err as [e0|].
  - simpl. repeat split.
    + destruct (Is (Some e0) CodeNotFound); eexists; reflexivity.
    + exact Hpre.
    + intros c Hc. specialize (Hhd c Hc []). rewrite app_nil_r in Hhd. exact Hhd.
    + discriminate.
    + discriminate.
    + discriminate.
  - rewrite (run_CreateOrder_local_invalid env uc input w0 e Hnew). simpl.
    repeat split.
    + eexists; reflexivity.
    + rewrite forallb_app, Hpre. reflexivity.
    + intros c Hc. apply Hhd. exact Hc.
    + exact Hkind.
    + specialize (Hnew 0%Z 0%Z). unfold NewOrder in Hnew.
      destruct (Validate _) as [e1|]; [|discriminate].
      injection Hnew as ->. reflexivity.
Qed.

Lemma CreateOrder_invalid_total_witness :
  fst (fst (run mocks.mock_env
              (CreateOrder mocks.useCase (mkCreateOrderInput 1%N mocks.f64_neg10))
              mocks.new_world))
  = (None, Some (AppErr ErrInvalidTotal)) /\
  forallb (fun c => negb (is_Create c) && negb (is_Publish c))
    (snd (run mocks.mock_env
            (CreateOrder mocks.useCase (mkCreateOrderInput 1%N mocks.f64_neg10))
            mocks.new_world)) = true.
Proof.
  pose proof (CreateOrder_invalid_total mocks.mock_env mocks.useCase
                (mkCreateOrderInput 1%N mocks.f64_neg10) mocks.new_world
                (or_introl eq_refl)) as H.
  cbv zeta in H. destruct H as (Hout & _ & Hcalls & _ & Hv).
  specialize (Hv eq_refl). destruct Hv as (_ & Herr & _).
  split; [|exact Hcalls].
  destruct (run mocks.mock_env _ mocks.new_world) as [[[out err] w1] calls].
  simpl in *. rewrite Hout, Herr. reflexivity.
Defined.

(** C2, as stated, fails: in the setting of the use case's tests, for the
    input [{user_id: 1, total: -10}] the remote lookup is called, and it is
    called first; the order is only validated afterwards. *)
Lemma CreateOrder_invalid_total_counterexample :
  let r := run mocks.mock_env
             (CreateOrder mocks.useCase (mkCreateOrderInput 1%N mocks.f64_neg10))
             mocks.new_world in
  snd r = [UserClient_GetUser 3%N 1%N; Time_Now; Time_Now] /\
  existsb is_GetUser (snd r) = true /\
  ~ (forallb (fun c => negb (is_GetUser c)) (snd r) = true).
Proof.
  vm_compute. repeat split. discriminate.
Qed.

(** C8. Once the repository's [Create] has succeeded, [CreateOrder]
    returns the stored order with no error whatever the publisher answers;
    a failed publish is followed by an error log line only, and no call to
    the repository or to the user client comes after [Create]. *)
Theorem CreateOrder_publish_best_effort {W} (env : Env W)
    (uc : OrderUseCase) (input : CreateOrderInput) (w w0 w1 w2 w3 : W)
    (pre : list Call) (now1 now2 : Time) (order order' : Order) :
  user_check env uc input w = (None, w0, pre) ->
  env_Now env w0 = (now1, w1) ->
  env_Now env w1 = (now2, w2) ->
  NewOrder (in_UserID input) (in_Total input) now1 now2 = inr order ->
  env_Create env (repo uc) order w2 = ((order', None), w3) ->
  let r := run env (CreateOrder uc input) w in
  let info := Log_Info "order created" (ID order') (UserID order') (Total order') in
  fst (fst r) = (Some {| out_Order := order' |}, None) /\
  (exists rest,
     snd r = (pre ++ [Time_Now; Time_Now; OrderRepository_Create (repo uc) order]
                  ++ rest)%list /\
     forallb (fun c => negb (is_Create c) && negb (is_GetUser c)) rest = true) /\
  (forall p e w4,
     publisher uc = Some p ->
     env_PublishOrderCreated env p order' w3 = (Some e, w4) ->
     snd (fst r) = w4 /\
     snd r = (pre ++ [Time_Now; Time_Now; OrderRepository_Create (repo uc) order;
                      EventPublisher_PublishOrderCreated p order';
                      Log_Error "failed to publish order created event" e (ID order');
                      info])%list).
Proof.
  intros Hchk H1 H2 Hnew Hcreate r info. subst r.
  rewrite run_CreateOrder, Hchk.
  rewrite (run_CreateOrder_local_created env uc input w0 w1 w2 w3 now1 now2
             order order' H1 H2 Hnew Hcreate).
  cbn [fst snd]. split; [reflexivity|]. split.
  - eexists. split; [reflexivity|].
    destruct (publisher uc) as [p|]; [|reflexivity].
    destruct (fst (env_PublishOrderCreated env p order' w3)); reflexivity.
  - intros p e w4 Hp Hpub. rewrite Hp, Hpub. split; reflexivity.
Qed.

Lemma CreateOrder_publish_best_effort_witness :
  fst (fst (run (mocks.failing_publish_env (OpaqueErr "broker unreachable"))
              (CreateOrder mocks.useCase (mkCreateOrderInput 1%N mocks.f64_99_99))
              mocks.new_world))
  = (Some {| out_Order := mkOrder 1%N 1%N mocks.f64_99_99 OrderStatusPending 0%Z 1%Z |}, None).
Proof.
  eapply (CreateOrder_publish_best_effort
            (mocks.failing_publish_env (OpaqueErr "broker unreachable"))
            mocks.useCase (mkCreateOrderInput 1%N mocks.f64_99_99)
            mocks.new_world mocks.new_world);
    reflexivity.
Defined.

(** [GetOrder] hands back what [GetByID] answered. *)
Lemma run_GetOrder {W} (env : Env W) (uc : OrderUseCase) (input : GetOrderInput) (w : W) :
  run env (GetOrder uc input) w =
  (match snd (fst (env_GetByID env (repo uc) (in_ID input) w)) with
   | Some e => (None, Some e)
   | None =>
       (option_map mkGetOrderOutput
          (fst (fst (env_GetByID env (repo uc) (in_ID input) w))), None)
   end,
   snd (env_GetByID env (repo uc) (in_ID input) w),
   [OrderRepository_GetByID (repo uc) (in_ID input)]).
Proof.
  unfold GetOrder. cbn [run answer].
  destruct (env_GetByID env (repo uc) (in_ID input) w) as [[order [e|]] w1];
    reflexivity.
Qed.

(** C9. [GetOrder] is a passthrough to the repository's [GetByID]: it
    makes that one call and nothing else, returns the repository's error
    as it is when there is one, and otherwise returns the order the
    repository answered, unchanged, with no error.  With the Postgres
    repository and with the repository of the tests, a stored order is
    returned as it is stored, and an identifier with no stored order gives
    the NotFound error whose message is [order with id '<id>' not found],
    the identifier printed in decimal. *)
Theorem GetOrder_passthrough :
  (forall W (env : Env W) (uc : OrderUseCase) (input : GetOrderInput) (w : W)
          (order : option Order) (e : error) (w1 : W),
     env_GetByID env (repo uc) (in_ID input) w = ((order, Some e), w1) ->
     run env (GetOrder uc input) w =
     ((None, Some e), w1, [OrderRepository_GetByID (repo uc) (in_ID input)])) /\
  (forall W (env : Env W) (uc : OrderUseCase) (input : GetOrderInput) (w : W)
          (order : option Order) (w1 : W),
     env_GetByID env (repo uc) (in_ID input) w = ((order, None), w1) ->
     run env (GetOrder uc input) w =
     ((option_map mkGetOrderOutput order, None), w1,
      [OrderRepository_GetByID (repo uc) (in_ID input)])) /\
  (forall W (env : Env W) (uc : OrderUseCase) (input : GetOrderInput) (w : W)
          (order : Order) (w1 : W),
     env_GetByID env (repo uc) (in_ID input) w = ((Some order, None), w1) ->
     run env (GetOrder uc input) w =
     ((Some {| got_Order := order |}, None), w1,
      [OrderRepository_GetByID (repo uc) (in_ID input)])) /\
  (forall (env : Env adapters.DB) (uc : OrderUseCase) (id : uint) (db : adapters.DB),
     env_GetByID env (repo uc) = adapters.PostgresOrderRepository_GetByID ->
     adapters.db_fault db = None ->
     adapters.orders_table db !! id = None ->
     fst (fst (run env (GetOrder uc (mkGetOrderInput id)) db)) =
     (None,
      Some (AppErr {| Code := CodeNotFound;
                      Message := "order with id '" ++
                                 NilEmpty.string_of_uint (N.to_uint id) ++
                                 "' not found";
                      Details := None; Err := None |}))) /\
  (forall (uc : OrderUseCase) (id : uint) (w : mocks.MockWorld),
     mocks.orders w !! id = None ->
     fst (fst (run mocks.mock_env (GetOrder uc (mkGetOrderInput id)) w)) =
     (None,
      Some (AppErr {| Code := CodeNotFound;
                      Message := "order with id '" ++
                                 NilEmpty.string_of_uint (N.to_uint id) ++
                                 "' not found";
                      Details := None; Err := None |}))) /\
  (forall (env : Env adapters.DB) (uc : OrderUseCase) (id : uint) (db : adapters.DB)
          (model : adapters.OrderModel),
     env_GetByID env (repo uc) = adapters.PostgresOrderRepository_GetByID ->
     adapters.db_fault db = None ->
     adapters.orders_table db !! id = Some model ->
     run env (GetOrder uc (mkGetOrderInput id)) db =
     ((Some {| got_Order := adapters.toDomain model |}, None), db,
      [OrderRepository_GetByID (repo uc) id])) /\
  (forall (uc : OrderUseCase) (id : uint) (w : mocks.MockWorld) (order : Order),
     mocks.orders w !! id = Some order ->
     run mocks.mock_env (GetOrder uc (mkGetOrderInput id)) w =
     ((Some {| got_Order := order |}, None), w,
      [OrderRepository_GetByID (repo uc) id])).
Proof.
  split; [|split; [|split; [|split; [|split; [|split]]]]].
  - intros W env uc input w order e w1 Hget.
    rewrite run_GetOrder, Hget. reflexivity.
  - intros W env uc input w order w1 Hget.
    rewrite run_GetOrder, Hget. reflexivity.
  - intros W env uc input w order w1 Hget.
    rewrite run_GetOrder, Hget. reflexivity.
  - intros env uc id db Henv Hfault Hrow.
    rewrite run_GetOrder. cbn [in_ID fst snd]. rewrite Henv.
    unfold adapters.PostgresOrderRepository_GetByID, adapters.gorm_First.
    rewrite Hfault, Hrow. reflexivity.
  - intros uc id w Hrow.
    rewrite run_GetOrder. cbn [in_ID fst snd mocks.mock_env env_GetByID].
    unfold mocks.MockOrderRepository_GetByID. rewrite Hrow. reflexivity.
  - intros env uc id db model Henv Hfault Hrow.
    rewrite run_GetOrder. cbn [in_ID fst snd]. rewrite Henv.
    unfold adapters.PostgresOrderRepository_GetByID, adapters.gorm_First.
    unfold adapters.OrderModel in *.
    rewrite Hfault, Hrow. reflexivity.
  - intros uc id w order Hrow.
    rewrite run_GetOrder. cbn [in_ID fst snd mocks.mock_env env_GetByID].
    unfold mocks.MockOrderRepository_GetByID. rewrite Hrow. reflexivity.
Qed.

Lemma GetOrder_passthrough_witness :
  fst (fst (run mocks.mock_env (GetOrder mocks.useCase (mkGetOrderInput 999%N))
              mocks.new_world))
  = (None, Some (AppErr {| Code := CodeNotFound;
                           Message := "order with id '999' not found";
                           Details := None; Err := None |})) /\
  fst (fst (run scenarios.lookup_env (GetOrder mocks.useCase (mkGetOrderInput 999%N))
              scenarios.empty_db))
  = (None, Some (AppErr {| Code := CodeNotFound;
                           Message := "order with id '999' not found";
                           Details := None; Err := None |})) /\
  fst (fst (run scenarios.lookup_env (GetOrder mocks.useCase (mkGetOrderInput 7%N))
              {| adapters.orders_table :=
                   {[ 7%N := mkOrder 7%N 1%N mocks.f64_99_99 OrderStatusConfirmed 3%Z 5%Z ]};
                 adapters.db_fault := None |}))
  = (Some {| got_Order :=
               mkOrder 7%N 1%N mocks.f64_99_99 OrderStatusConfirmed 3%Z 5%Z |}, None) /\
  fst (fst (run scenarios.lookup_env (GetOrder mocks.useCase (mkGetOrderInput 7%N))
              {| adapters.orders_table := ∅;
                 adapters.db_fault := Some (OpaqueErr "connection refused") |}))
  = (None, Some (AppErr {| Code := CodeInternal;
                           Message := "failed to get order";
                           Details := None;
                           Err := Some (OpaqueErr "connection refused") |})).
Proof.
  destruct GetOrder_passthrough as (Herr & _ & Hok & Hpg & Hmock & _ & _).
  split; [|split; [|split]].
  - apply (Hmock mocks.useCase 999%N mocks.new_world). reflexivity.
  - apply (Hpg scenarios.lookup_env mocks.useCase 999%N scenarios.empty_db);
      reflexivity.
  - erewrite (Hok adapters.DB scenarios.lookup_env mocks.useCase (mkGetOrderInput 7%N));
      reflexivity.
  - erewrite (Herr adapters.DB scenarios.lookup_env mocks.useCase (mkGetOrderInput 7%N));
      reflexivity.
Defined.

(** ** The scenarios of the use case's tests *)

(** [TestCreateOrder_Success]: the order comes back pending with the
    identifier 1, and one event was published. *)
Example TestCreateOrder_Success :
  let r := run mocks.mock_env
             (CreateOrder mocks.useCase (mkCreateOrderInput 1%N mocks.f64_99_99))
             mocks.new_world in
  fst (fst r)
  = (Some {| out_Order := mkOrder 1%N 1%N mocks.f64_99_99 OrderStatusPending 0%Z 1%Z |}, None) /\
  List.length (mocks.events (snd (fst r))) = 1%nat.
Proof. vm_compute. split; reflexivity. Qed.

(** [TestCreateOrder_UserNotFound], through the gRPC client: the users
    service answers [NotFound], the use case answers with a Validation
    error. *)
Example CreateOrder_remote_NotFound :
  let r := run (mocks.grpc_env codes.NotFound "user with id '999' not found")
             (CreateOrder mocks.useCase (mkCreateOrderInput 999%N mocks.f64_99_99))
             mocks.new_world in
  Is (snd (fst (fst r))) CodeValidation = true /\
  snd r = [UserClient_GetUser 3%N 999%N].
Proof. vm_compute. split; reflexivity. Qed.

(** A total that is not a number passes both comparisons of
    [Order.Validate]. *)
Example Validate_NaN :
  Validate (mkOrder 0%N 1%N S754_nan OrderStatusPending 0%Z 0%Z) = None.
Proof. reflexivity. Qed.

(** The pattern on a few addresses. *)
Example EmailRegex_samples :
  MatchString users_domain.EmailRegex "john@example.com" = true /\
  MatchString users_domain.EmailRegex "a.b+c@mail.example.org" = true /\
  MatchString users_domain.EmailRegex "john@example.c" = false /\
  MatchString users_domain.EmailRegex "john@.com" = false /\
  MatchString users_domain.EmailRegex "@example.com" = false /\
  MatchString users_domain.EmailRegex "john@example.c0m" = false.
Proof. vm_compute. repeat split. Qed.

(** * Further properties *)

Import errors_json props2.

(** ** The error taxonomy across HTTP and gRPC *)

Lemma HTTPStatus_As (err : option error) (a : AppError) :
  As' err = Some a -> HTTPStatus err = HTTPStatus (Some (AppErr a)).
Proof. intros H. unfold HTTPStatus. rewrite H. reflexivity. Qed.

Lemma HTTPStatus_not_AppError (err : option error) :
  As' err = None -> HTTPStatus err = 500%Z.
Proof. intros H. unfold HTTPStatus. rewrite H. reflexivity. Qed.

(** X1. The status code of [ToJSON] is the HTTP status of the error, and
    the trace identifier is echoed.  The body shows the code, message and
    details of the application error found; the wrapped cause never
    reaches it, and an error that is not an application error gives the
    same generic body whatever its text. *)
Theorem ToJSON_spec (err : option error) (traceID : string) :
  fst (ToJSON err traceID) = HTTPStatus err /\
  resp_TraceID (snd (ToJSON err traceID)) = traceID /\
  (forall a, As' err = Some a ->
     resp_Error (snd (ToJSON err traceID)) =
     {| body_Code := Code a; body_Message := Message a; body_Details := Details a |} /\
     forall cause,
       ToJSON (Some (AppErr {| Code := Code a; Message := Message a;
                               Details := Details a; Err := cause |})) traceID
       = ToJSON err traceID) /\
  (As' err = None ->
     ToJSON err traceID =
     (500%Z, {| resp_Error := {| body_Code := CodeInternal;
                                 body_Message := "An internal error occurred";
                                 body_Details := None |};
                resp_TraceID := traceID |})).
Proof.
  unfold ToJSON. split; [|split; [|split]].
  - destruct (As' err) as [a|] eqn:Ha.
    + symmetry. apply HTTPStatus_As. exact Ha.
    + rewrite (HTTPStatus_not_AppError _ Ha). reflexivity.
  - reflexivity.
  - intros a Ha. rewrite Ha. split; [reflexivity|].
    intros cause. reflexivity.
  - intros Ha. rewrite Ha. reflexivity.
Qed.

Lemma ToJSON_spec_witness :
  ToJSON (Some (AppErr (NewInternal "failed to create order" (Some (OpaqueErr "pq: timeout")))))
    "t-1"
  = (500%Z, {| resp_Error := {| body_Code := CodeInternal;
                                body_Message := "failed to create order";
                                body_Details := None |};
               resp_TraceID := "t-1" |}) /\
  ToJSON (Some (OpaqueErr "pq: password authentication failed")) "t-2"
  = (500%Z, {| resp_Error := {| body_Code := CodeInternal;
                                body_Message := "An internal error occurred";
                                body_Details := None |};
               resp_TraceID := "t-2" |}).
Proof.
  split.
  - destruct (ToJSON_spec
                (Some (AppErr (NewInternal "failed to create order"
                                 (Some (OpaqueErr "pq: timeout"))))) "t-1")
      as (_ & _ & H & _).
    destruct (H _ eq_refl) as [_ Hc]. rewrite <- (Hc None). reflexivity.
  - apply (ToJSON_spec (Some (OpaqueErr "pq: password authentication failed")) "t-2").
    reflexivity.
Defined.

(** [GRPCStatus] never gives [nil] nor the code [OK]. *)
Lemma GRPCStatus_Some (err : option error) :
  exists c msg, GRPCStatus err = Some (StatusErr c msg) /\ c <> codes.OK.
Proof.
  unfold GRPCStatus. destruct (As' err) as [a|].
  - repeat match goal with
    | |- context [String.eqb ?x ?y] => destruct (String.eqb x y)
    end;
    eexists; eexists; (split; [reflexivity | discriminate]).
  - eexists; eexists; (split; [reflexivity | discriminate]).
Qed.

(** X2. [GRPCStatus] always gives a status error, never [nil], with one of
    the six codes of the table; the status message is the message of the
    application error found, and [internal error] with code [Internal]
    for an error that is not an application error. *)
Theorem GRPCStatus_closed (err : option error) :
  exists c msg,
    GRPCStatus err = Some (StatusErr c msg) /\
    In c [codes.InvalidArgument; codes.NotFound; codes.AlreadyExists;
          codes.Unauthenticated; codes.PermissionDenied; codes.Internal] /\
    (forall a, As' err = Some a -> msg = Message a) /\
    (As' err = None -> c = codes.Internal /\ msg = "internal error").
Proof.
  unfold GRPCStatus. destruct (As' err) as [a|].
  - repeat match goal with
    | |- context [String.eqb ?x ?y] => destruct (String.eqb x y)
    end;
    eexists; eexists; (split; [reflexivity|]);
    (split; [simpl; tauto|]);
    (split; [intros a0 [= <-]; reflexivity | discriminate]).
  - exists codes.Internal, "internal error".
    split; [reflexivity|]. split; [simpl; tauto|].
    split; [discriminate | auto].
Qed.

Lemma HTTPStatus_Code (x y : AppError) :
  Code x = Code y -> HTTPStatus (Some (AppErr x)) = HTTPStatus (Some (AppErr y)).
Proof. intros H. unfold HTTPStatus. simpl. rewrite H. reflexivity. Qed.

(** The kind that comes back from a status with the code [GRPCStatus]
    chose. *)
Lemma HTTPStatus_hop (err : option error) :
  HTTPStatus (Some (AppErr (FromGRPCStatus (GRPCStatus err)))) = HTTPStatus err.
Proof.
  unfold GRPCStatus, HTTPStatus at 2.
  destruct (As' err) as [a|]; [|reflexivity].
  repeat match goal with
  | |- context [String.eqb ?x ?y] => destruct (String.eqb x y); [reflexivity|]
  end.
  reflexivity.
Qed.

(** [FromGRPCStatus] on its own result keeps the kind. *)
Lemma FromGRPCStatus_twice_status (c : codes.Code) (msg : string) :
  c <> codes.OK ->
  let once := FromGRPCStatus (Some (StatusErr c msg)) in
  let twice := FromGRPCStatus (Some (AppErr once)) in
  Code twice = Code once /\
  Message twice = Code once ++ ": " ++ msg ++ ": " ++ Error (StatusErr c msg) /\
  Details twice = None.
Proof.
  intros Hc. destruct c; try contradiction; repeat split.
Qed.

(** X3. The HTTP status of an error is the same after it has crossed a
    gRPC hop, that is after [GRPCStatus] on the server and
    [FromGRPCStatus] in the client interceptor, and the same again after
    the gateway has applied [FromGRPCStatus] to the converted error. *)
Theorem HTTPStatus_across_gRPC (err : option error) :
  let once := FromGRPCStatus (GRPCStatus err) in
  let twice := FromGRPCStatus (Some (AppErr once)) in
  HTTPStatus (Some (AppErr once)) = HTTPStatus err /\
  HTTPStatus (Some (AppErr twice)) = HTTPStatus err.
Proof.
  intros once twice. subst once twice.
  split; [apply HTTPStatus_hop|].
  rewrite <- (HTTPStatus_hop err).
  destruct (GRPCStatus_Some err) as (c & msg & -> & Hc).
  destruct (FromGRPCStatus_twice_status c msg Hc) as (Hcode & _).
  apply HTTPStatus_Code. exact Hcode.
Qed.

(** X4. Whatever comes in, [FromGRPCStatus] gives an error of one of the
    six kinds, without details, whose cause is the error it was given. *)
Theorem FromGRPCStatus_closed (err : option error) :
  In (Code (FromGRPCStatus err)) taxonomy /\
  Details (FromGRPCStatus err) = None /\
  Err (FromGRPCStatus err) = err.
Proof.
  unfold FromGRPCStatus.
  destruct (status_FromError err) as [[c msg] ok].
  destruct ok; simpl.
  - repeat split. destruct c; simpl; tauto.
  - repeat split. tauto.
Qed.

Lemma kind_of_wrap_all (ms : list string) (e : error) :
  kind_of (Some (wrap_all ms e)) =
  match ms, kind_of (Some e) with
  | [], k => k
  | _ :: _, Some k => Some k
  | _ :: _, None => Some CodeInternal
  end.
Proof.
  induction ms as [|m ms IH]; simpl.
  - destruct (kind_of (Some e)); reflexivity.
  - unfold kind_of in *. simpl in *. unfold Wrap. simpl.
    destruct (As (wrap_all ms e)) as [a|] eqn:Ha; simpl in *.
    + destruct ms; simpl in *.
      * rewrite Ha. reflexivity.
      * destruct (As e); simpl in *; congruence.
    + destruct ms; simpl in *; [rewrite Ha; reflexivity | discriminate].
Qed.

(** X5. However many times an error is wrapped with [Wrap], its HTTP
    status stays what it was; when it is (or wraps) an application error
    its kind stays too and [Is] answers as before, and otherwise the
    wrapped error is of kind Internal. *)
Theorem Wrap_iterated (ms : list string) (e : error) :
  HTTPStatus (Some (wrap_all ms e)) = HTTPStatus (Some e) /\
  (forall k, kind_of (Some e) = Some k ->
     kind_of (Some (wrap_all ms e)) = Some k /\
     forall code, Is (Some (wrap_all ms e)) code = Is (Some e) code) /\
  (kind_of (Some e) = None -> ms <> [] ->
     kind_of (Some (wrap_all ms e)) = Some CodeInternal).
Proof.
  pose proof (kind_of_wrap_all ms e) as Hk.
  assert (Hstatus : forall x y, kind_of x = kind_of y -> HTTPStatus x = HTTPStatus y).
  { intros x y. unfold kind_of, HTTPStatus.
    destruct (As' x), (As' y); simpl; intros [=]; try reflexivity.
    rewrite H0. reflexivity. }
  assert (His : forall x y, kind_of x = kind_of y -> forall c, Is x c = Is y c).
  { intros x y. unfold kind_of, Is.
    destruct (As' x), (As' y); simpl; intros [=] c; try reflexivity.
    rewrite H0. reflexivity. }
  split; [|split].
  - destruct ms as [|m ms]; [reflexivity|].
    destruct (kind_of (Some e)) as [k|] eqn:He.
    + apply Hstatus. rewrite Hk, He. reflexivity.
    + unfold HTTPStatus at 2. unfold kind_of in He.
      destruct (As' (Some e)); [discriminate|].
      unfold kind_of in Hk.
      unfold HTTPStatus. destruct (As' (Some (wrap_all (m :: ms) e))) as [a|];
        simpl in Hk; [|discriminate].
      injection Hk as ->. reflexivity.
  - intros k He. rewrite He in Hk.
    assert (Hk' : kind_of (Some (wrap_all ms e)) = Some k)
      by (destruct ms; exact Hk).
    split; [exact Hk'|]. apply His. congruence.
  - intros He Hms. rewrite He in Hk. destruct ms; [contradiction | exact Hk].
Qed.

Lemma Wrap_iterated_witness :
  kind_of (Some (wrap_all ["handler"; "use case"]
                   (AppErr (NewNotFound "order" (AnyUint 7%N)))))
  = Some CodeNotFound /\
  kind_of (Some (wrap_all ["handler"] (OpaqueErr "EOF"))) = Some CodeInternal.
Proof.
  split.
  - apply (Wrap_iterated ["handler"; "use case"]
             (AppErr (NewNotFound "order" (AnyUint 7%N))) ). reflexivity.
  - apply (Wrap_iterated ["handler"] (OpaqueErr "EOF")); [reflexivity | discriminate].
Defined.

Lemma GRPCStatus_closed_witness :
  GRPCStatus (Some (OpaqueErr "dial tcp: connection refused"))
  = Some (StatusErr codes.Internal "internal error").
Proof.
  destruct (GRPCStatus_closed (Some (OpaqueErr "dial tcp: connection refused")))
    as (c & msg & -> & _ & _ & H).
  destruct (H eq_refl) as [-> ->]. reflexivity.
Defined.

(** ** The entities *)

Lemma NewOrder_valid (userID : uint) (total : float64) (now1 now2 : Time) :
  userID <> 0%N -> SFleb total f64_0 = false -> SFltb f64_1000000 total = false ->
  NewOrder userID total now1 now2
  = inr (mkOrder 0%N userID total OrderStatusPending now1 now2).
Proof.
  intros Hu H0 H1. unfold NewOrder.
  rewrite (Validate_ok (mkOrder 0%N userID total OrderStatusPending now1 now2) Hu H0 H1).
  reflexivity.
Qed.

(** X6. [NewOrder] succeeds exactly when [Order.Validate] has nothing to
    object to: a non-zero user identifier and a total that is neither
    [<= 0] nor [> 1,000,000].  The order it returns is pending, has no
    identifier yet (zero), carries the two clock readings, and passes
    [Validate]; a failure is the error of [Validate]. *)
Theorem NewOrder_spec (userID : uint) (total : float64) (now1 now2 : Time) :
  (forall order, NewOrder userID total now1 now2 = inr order ->
     order = mkOrder 0%N userID total OrderStatusPending now1 now2 /\
     Validate order = None) /\
  (forall e, NewOrder userID total now1 now2 = inl e ->
     Is (Some e) CodeValidation = true /\
     (userID = 0%N \/ SFleb total f64_0 = true \/ SFltb f64_1000000 total = true)) /\
  (userID <> 0%N -> SFleb total f64_0 = false -> SFltb f64_1000000 total = false ->
   NewOrder userID total now1 now2
   = inr (mkOrder 0%N userID total OrderStatusPending now1 now2)).
Proof.
  unfold NewOrder.
  set (order := {| ID := 0%N; UserID := userID; Total := total;
                   Status := OrderStatusPending;
                   CreatedAt := now1; UpdatedAt := now2 |}).
  split; [|split].
  - intros o. destruct (Validate order) eqn:Hv; [discriminate|].
    intros [= <-]. split; [reflexivity | exact Hv].
  - intros e. destruct (Validate order) as [e0|] eqn:Hv; [|discriminate].
    intros [= <-]. split; [eapply Validate_error_kind; exact Hv|].
    destruct (N.eq_dec userID 0%N) as [Hu|Hu]; [left; exact Hu|].
    destruct (SFleb total f64_0) eqn:H0; [right; left; reflexivity|].
    destruct (SFltb f64_1000000 total) eqn:H1; [right; right; reflexivity|].
    rewrite (Validate_ok order Hu H0 H1) in Hv. discriminate Hv.
  - intros Hu H0 H1. rewrite (Validate_ok order Hu H0 H1). reflexivity.
Qed.

Lemma NewOrder_spec_witness :
  NewOrder 1%N mocks.f64_99_99 5%Z 6%Z
  = inr (mkOrder 0%N 1%N mocks.f64_99_99 OrderStatusPending 5%Z 6%Z).
Proof.
  apply (NewOrder_spec 1%N mocks.f64_99_99 5%Z 6%Z); [discriminate | reflexivity..].
Defined.

Lemma apply_transitions_frame (ts : list transition) :
  forall o,
    ID (apply_transitions ts o) = ID o /\
    UserID (apply_transitions ts o) = UserID o /\
    Total (apply_transitions ts o) = Total o /\
    CreatedAt (apply_transitions ts o) = CreatedAt o.
Proof.
  unfold apply_transitions.
  induction ts as [|t ts IH]; intros o; simpl; [repeat split|].
  destruct (IH (apply_transition o t)) as (H1 & H2 & H3 & H4).
  rewrite H1, H2, H3, H4. destruct t; repeat split.
Qed.

(** X7. Any sequence of [Confirm] and [Cancel] calls leaves the
    identifier, the user, the total and the creation time of an order as
    they were, so the order passes [Validate] afterwards exactly when it
    did before; the status and the update time are those of the last call
    of the sequence. *)
Theorem transitions_keep_validity (ts : list transition) (o : Order) :
  Validate (apply_transitions ts o) = Validate o /\
  ID (apply_transitions ts o) = ID o /\
  UserID (apply_transitions ts o) = UserID o /\
  Total (apply_transitions ts o) = Total o /\
  CreatedAt (apply_transitions ts o) = CreatedAt o /\
  (forall ts' now,
     Status (apply_transitions (ts' ++ [DoConfirm now]) o) = OrderStatusConfirmed /\
     UpdatedAt (apply_transitions (ts' ++ [DoConfirm now]) o) = now /\
     Status (apply_transitions (ts' ++ [DoCancel now]) o) = OrderStatusCancelled /\
     UpdatedAt (apply_transitions (ts' ++ [DoCancel now]) o) = now).
Proof.
  destruct (apply_transitions_frame ts o) as (H1 & H2 & H3 & H4).
  split; [|repeat split; try assumption].
  - unfold Validate. rewrite H2, H3. reflexivity.
  - unfold apply_transitions. rewrite fold_left_app. reflexivity.
  - unfold apply_transitions. rewrite fold_left_app. reflexivity.
  - unfold apply_transitions. rewrite fold_left_app. reflexivity.
  - unfold apply_transitions. rewrite fold_left_app. reflexivity.
Qed.

(** X8. [NewUser] succeeds exactly when the name is 2 to 100 bytes long
    and the email is a non-empty local part of letters, digits and
    [._%+-], an ['@'], a non-empty domain part of letters, digits and
    [.-], a ['.'] and two letters or more.  The user it returns has no
    identifier yet and carries the name and the email exactly as given. *)
Theorem NewUser_accepts_iff (name email : string) (now1 now2 : Time) :
  ((exists user, users.NewUser name email now1 now2 = inr user) <->
   (2 <= String.length name <= 100)%nat /\
   exists l d t,
     email = l ++ "@" ++ d ++ "." ++ t /\
     l <> "" /\ all_in users_domain.local_class l = true /\
     d <> "" /\ all_in users_domain.domain_class d = true /\
     (2 <= String.length t)%nat /\ all_in users_domain.is_letter t = true) /\
  (forall user, users.NewUser name email now1 now2 = inr user ->
     user = users_domain.mkUser 0%N name email now1 now2) /\
  (forall e, users.NewUser name email now1 now2 = inl e ->
     Is (Some e) CodeValidation = true).
Proof.
  unfold users.NewUser.
  set (user := {| users_domain.ID := 0%N; users_domain.Name := name;
                  users_domain.Email := email;
                  users_domain.CreatedAt := now1; users_domain.UpdatedAt := now2 |}).
  pose proof (User_Validate_None user) as Hnone. simpl in Hnone.
  rewrite MatchString_Matches, EmailRegex_shape in Hnone.
  split; [|split].
  - rewrite <- Hnone. split.
    + intros [u Hu]. destruct (users_domain.Validate user); [discriminate | reflexivity].
    + intros ->. eexists; reflexivity.
  - intros u. destruct (users_domain.Validate user); [discriminate|].
    intros [= <-]. reflexivity.
  - intros e. destruct (users_domain.Validate user) as [e0|] eqn:Hv; [|discriminate].
    intros [= <-]. eapply User_Validate_error_kind; eauto.
Qed.

Lemma all_in_impl (p q : ascii -> bool) (s : string) :
  (forall c, p c = true -> q c = true) -> all_in p s = true -> all_in q s = true.
Proof.
  intros Hpq. induction s as [|c s IH]; simpl; [reflexivity|].
  intros H. apply andb_prop in H as [Hc Hs]. rewrite (Hpq _ Hc), (IH Hs). reflexivity.
Qed.

Lemma all_in_app (p : ascii -> bool) (s1 s2 : string) :
  all_in p (s1 ++ s2) = all_in p s1 && all_in p s2.
Proof.
  induction s1 as [|c s1 IH]; [reflexivity|].
  rewrite append_cons. simpl. rewrite IH. apply andb_assoc.
Qed.

Lemma count_char_app (c : ascii) (s1 s2 : string) :
  count_char c (s1 ++ s2) = (count_char c s1 + count_char c s2)%nat.
Proof.
  induction s1 as [|a s1 IH]; [reflexivity|].
  rewrite append_cons. simpl. rewrite IH. lia.
Qed.

Lemma count_char_absent (p : ascii -> bool) (c : ascii) (s : string) :
  p c = false -> all_in p s = true -> count_char c s = 0%nat.
Proof.
  intros Hc. induction s as [|a s IH]; simpl; [reflexivity|].
  intros H. apply andb_prop in H as [Ha Hs]. rewrite (IH Hs).
  destruct (Ascii.eqb_spec a c); [congruence | reflexivity].
Qed.

Lemma length_append (s1 s2 : string) :
  String.length (s1 ++ s2) = (String.length s1 + String.length s2)%nat.
Proof.
  induction s1 as [|a s1 IH]; [reflexivity|].
  rewrite append_cons. simpl. rewrite IH. reflexivity.
Qed.

Lemma domain_in_local (c : ascii) :
  users_domain.domain_class c = true -> users_domain.local_class c = true.
Proof.
  destruct c as [[] [] [] [] [] [] [] []]; vm_compute; intros H;
    first [reflexivity | exact H].
Qed.

Lemma letter_in_local (c : ascii) :
  users_domain.is_letter c = true -> users_domain.local_class c = true.
Proof. unfold users_domain.local_class. intros ->. reflexivity. Qed.

(** X9. An email address that [User.Validate] accepts has exactly one
    ['@'], is at least six bytes long, and is made only of ASCII letters,
    digits and the bytes [._%+-@]: no blank, no control byte, no byte
    above 127. *)
Theorem accepted_email_shape (u : users_domain.User) :
  users_domain.Validate u = None ->
  let email := users_domain.Email u in
  count_char "@" email = 1%nat /\
  (6 <= String.length email)%nat /\
  all_in email_byte email = true /\
  all_in (fun c => (N_of_ascii c <? 128)%N) email = true.
Proof.
  intros Hv email. subst email.
  apply User_Validate_None in Hv as [_ Hm].
  apply MatchString_Matches, EmailRegex_shape in Hm.
  destruct Hm as (l & d & t & -> & Hl1 & Hl2 & Hd1 & Hd2 & Ht1 & Ht2).
  assert (Hbytes : all_in email_byte (l ++ "@" ++ d ++ "." ++ t) = true).
  { rewrite !all_in_app.
    rewrite (all_in_impl users_domain.local_class email_byte l),
            (all_in_impl users_domain.domain_class email_byte d),
            (all_in_impl users_domain.is_letter email_byte t); auto.
    - intros c Hc. unfold email_byte. rewrite (letter_in_local _ Hc). reflexivity.
    - intros c Hc. unfold email_byte. rewrite (domain_in_local _ Hc). reflexivity.
    - intros c Hc. unfold email_byte. rewrite Hc. reflexivity. }
  split; [|split; [|split]].
  - rewrite !count_char_app.
    rewrite (count_char_absent users_domain.local_class "@" l eq_refl Hl2).
    rewrite (count_char_absent users_domain.domain_class "@" d eq_refl Hd2).
    rewrite (count_char_absent users_domain.is_letter "@" t eq_refl Ht2).
    reflexivity.
  - rewrite !length_append.
    destruct l; [contradiction|]. destruct d; [contradiction|]. simpl. lia.
  - exact Hbytes.
  - revert Hbytes. apply all_in_impl.
    intros c. unfold email_byte, users_domain.local_class, users_domain.is_letter,
      users_domain.is_digit, users_domain.in_range.
    destruct c as [b0 b1 b2 b3 b4 b5 b6 b7].
    destruct b7; [|intros _; destruct b0, b1, b2, b3, b4, b5, b6; reflexivity].
    destruct b0, b1, b2, b3, b4, b5, b6; intros H; vm_compute in H; discriminate H.
Qed.

Lemma accepted_email_shape_witness :
  count_char "@" "john@example.com" = 1%nat.
Proof.
  apply (accepted_email_shape
           (users_domain.mkUser 0%N "John Doe" "john@example.com" 0%Z 0%Z)).
  reflexivity.
Defined.

(** ** The order use case, in every environment *)

(** The local part when the repository refuses the order. *)
Lemma run_CreateOrder_local_refused {W} (env : Env W)
    (uc : OrderUseCase) (input : CreateOrderInput) (w w1 w2 w3 : W)
    (now1 now2 : Time) (order order' : Order) (e : error) :
  env_Now env w = (now1, w1) ->
  env_Now env w1 = (now2, w2) ->
  NewOrder (in_UserID input) (in_Total input) now1 now2 = inr order ->
  env_Create env (repo uc) order w2 = ((order', Some e), w3) ->
  run env (CreateOrder_local uc input) w =
  ((None, Some (AppErr (NewInternal "failed to create order" (Some e)))), w3,
   [Time_Now; Time_Now; OrderRepository_Create (repo uc) order]).
Proof.
  intros H1 H2 Hnew Hcreate. unfold CreateOrder_local.
  cbn [run answer]. rewrite H1, H2, Hnew.
  cbn [run answer]. rewrite Hcreate. reflexivity.
Qed.

(** X10. When the repository's [Create] fails, [CreateOrder] returns no
    order and an Internal error with the message [failed to create order]
    whose cause is the repository's error; nothing is published and no
    line is logged after the failed [Create]. *)
Theorem CreateOrder_storage_failure {W} (env : Env W)
    (uc : OrderUseCase) (input : CreateOrderInput) (w w0 w1 w2 w3 : W)
    (pre : list Call) (now1 now2 : Time) (order order' : Order) (e : error) :
  user_check env uc input w = (None, w0, pre) ->
  env_Now env w0 = (now1, w1) ->
  env_Now env w1 = (now2, w2) ->
  NewOrder (in_UserID input) (in_Total input) now1 now2 = inr order ->
  env_Create env (repo uc) order w2 = ((order', Some e), w3) ->
  run env (CreateOrder uc input) w =
  ((None, Some (AppErr {| Code := CodeInternal; Message := "failed to create order";
                          Details := None; Err := Some e |})),
   w3,
   (pre ++ [Time_Now; Time_Now; OrderRepository_Create (repo uc) order])%list).
Proof.
  intros Hchk H1 H2 Hnew Hcreate.
  rewrite run_CreateOrder, Hchk.
  rewrite (run_CreateOrder_local_refused env uc input w0 w1 w2 w3 now1 now2
             order order' e H1 H2 Hnew Hcreate).
  reflexivity.
Qed.

Lemma CreateOrder_storage_failure_witness :
  let env := mkEnv mocks.MockWorld
               (fun _ => mocks.MockUserClient_GetUser)
               (fun _ order w => ((order, Some (OpaqueErr "pq: deadlock detected")), w))
               (fun _ => mocks.MockOrderRepository_GetByID)
               (fun _ => mocks.MockEventPublisher_PublishOrderCreated)
               mocks.tick in
  fst (fst (run env (CreateOrder mocks.useCase (mkCreateOrderInput 1%N mocks.f64_99_99))
              mocks.new_world))
  = (None, Some (AppErr (NewInternal "failed to create order"
                           (Some (OpaqueErr "pq: deadlock detected"))))).
Proof.
  intros env.
  erewrite (CreateOrder_storage_failure env mocks.useCase
              (mkCreateOrderInput 1%N mocks.f64_99_99) mocks.new_world);
    reflexivity.
Defined.

(** Every error of [NewOrder] is an application error. *)
Lemma NewOrder_error_AppErr (userID : uint) (total : float64) (now1 now2 : Time)
    (e : error) :
  NewOrder userID total now1 now2 = inl e -> exists a, e = AppErr a.
Proof.
  unfold NewOrder, Validate. simpl.
  repeat match goal with
  | |- context [if ?b then _ else _] =>
      destruct b; [intros [= <-]; eexists; reflexivity|]
  end.
  discriminate.
Qed.

(** The case analysis of a run of [CreateOrder], down to its leaves. *)
Ltac CreateOrder_cases env uc input w :=
  rewrite run_CreateOrder; unfold user_check;
  let local w0 :=
    unfold CreateOrder_local; cbn [run answer];
    let now1 := fresh "now1" in let w1 := fresh "w1" in
    let now2 := fresh "now2" in let w2 := fresh "w2" in
    destruct (env_Now env w0) as [now1 w1];
    destruct (env_Now env w1) as [now2 w2];
    let Hnew := fresh "Hnew" in
    destruct (NewOrder (in_UserID input) (in_Total input) now1 now2)
      as [?e|?order] eqn:Hnew;
    [ apply NewOrder_error_AppErr in Hnew as [? ->]
    | cbn [run answer];
      match goal with
      | |- context [env_Create env ?r ?o ?x] =>
          destruct (env_Create env r o x) as [[?order' [?e|]] ?w3]
      end;
      [ | destruct (publisher uc) as [?p|] eqn:?Hpub;
          [ cbn [run answer];
            match goal with
            | |- context [env_PublishOrderCreated env ?p ?o ?x] =>
                destruct (env_PublishOrderCreated env p o x) as [[?e|] ?w4]
            end
          | ] ] ] in
  destruct (userClient uc) as [?c|] eqn:?Hclient;
  [ match goal with
    | |- context [env_GetUser env ?c ?i w] =>
        let w0 := fresh "w0" in
        destruct (env_GetUser env c i w) as [[?resp [?e|]] w0];
        [ destruct (Is (Some e) CodeNotFound) | local w0 ]
    end
  | local w ].

(** In every environment [CreateOrder] returns either an order and no
    error, or no order and an application error. *)
Lemma CreateOrder_result_shape {W} (env : Env W)
    (uc : OrderUseCase) (input : CreateOrderInput) (w : W) :
  let r := fst (fst (run env (CreateOrder uc input) w)) in
  (exists out, r = (Some out, None)) \/
  (exists a, r = (None, Some (AppErr a))).
Proof.
  intros r. subst r.
  CreateOrder_cases env uc input w; cbn;
    first [ left; eexists; reflexivity | right; eexists; reflexivity ].
Qed.

(** X11. In every environment [CreateOrder] returns either an order and
    no error, or no order and an application error.  It calls the user
    client at most once, and not at all when none is configured; it calls
    the repository's [Create] at most once and the publisher at most once,
    and not at all when none is configured.  If an event was published the
    order was created and is returned; and whenever an order is returned
    [Create] was called exactly once. *)
Theorem CreateOrder_call_discipline {W} (env : Env W)
    (uc : OrderUseCase) (input : CreateOrderInput) (w : W) :
  let r := run env (CreateOrder uc input) w in
  let calls := snd r in
  ((exists out, fst (fst r) = (Some out, None)) \/
   (exists a, fst (fst r) = (None, Some (AppErr a)))) /\
  (length (List.filter is_GetUser calls) <= 1)%nat /\
  (userClient uc = None -> List.filter is_GetUser calls = []) /\
  (length (List.filter is_Create calls) <= 1)%nat /\
  (length (List.filter is_Publish calls) <= 1)%nat /\
  (publisher uc = None -> List.filter is_Publish calls = []) /\
  (List.filter is_Publish calls <> [] -> exists out, fst (fst r) = (Some out, None)) /\
  (forall out, fst (fst (fst r)) = Some out ->
     length (List.filter is_Create calls) = 1%nat).
Proof.
  intros r calls. subst calls r.
  split; [apply CreateOrder_result_shape|].
  CreateOrder_cases env uc input w; cbn;
    repeat split; try lia; try discriminate; try congruence;
    try (intros; eexists; reflexivity).
Qed.

Lemma CreateOrder_call_discipline_witness :
  List.filter is_GetUser
    (snd (run mocks.mock_env
            (CreateOrder (NewOrderUseCase 1%N (Some 2%N) None)
               (mkCreateOrderInput 999%N mocks.f64_99_99))
            mocks.new_world)) = [].
Proof.
  apply (CreateOrder_call_discipline mocks.mock_env
           (NewOrderUseCase 1%N (Some 2%N) None)
           (mkCreateOrderInput 999%N mocks.f64_99_99) mocks.new_world).
  reflexivity.
Defined.

(** ** The use case over the repository of its tests *)

(** What a successful [CreateOrder] does to the world of the test
    doubles. *)
Lemma mock_CreateOrder_run (uc : OrderUseCase) (input : CreateOrderInput)
    (w : mocks.MockWorld) (u : UserInfo) :
  mocks.users w !! in_UserID input = Some u ->
  in_UserID input <> 0%N ->
  total_in_range (in_Total input) = true ->
  let order := mkOrder (mocks.nextID w) (in_UserID input) (in_Total input)
                 OrderStatusPending (mocks.clock w) (mocks.clock w + 1)%Z in
  fst (run mocks.mock_env (CreateOrder uc input) w) =
  ((Some {| out_Order := order |}, None),
   {| mocks.orders := <[mocks.nextID w := order]> (mocks.orders w);
      mocks.nextID := ((mocks.nextID w + 1) mod mocks.uint_max)%N;
      mocks.events := match publisher uc with
                      | Some _ => (mocks.events w ++ [order])%list
                      | None => mocks.events w
                      end;
      mocks.users := mocks.users w;
      mocks.clock := (mocks.clock w + 1 + 1)%Z |}).
Proof.
  intros Hu Hid Hrange order.
  apply total_in_range_spec in Hrange as [H0 H1].
  rewrite run_CreateOrder. unfold user_check.
  assert (Hlocal :
    fst (run mocks.mock_env (CreateOrder_local uc input) w) =
    ((Some {| out_Order := order |}, None),
     {| mocks.orders := <[mocks.nextID w := order]> (mocks.orders w);
        mocks.nextID := ((mocks.nextID w + 1) mod mocks.uint_max)%N;
        mocks.events := match publisher uc with
                        | Some _ => (mocks.events w ++ [order])%list
                        | None => mocks.events w
                        end;
        mocks.users := mocks.users w;
        mocks.clock := (mocks.clock w + 1 + 1)%Z |})).
  { erewrite (run_CreateOrder_local_created mocks.mock_env uc input w);
      [ | reflexivity | reflexivity
        | apply NewOrder_valid; assumption
        | reflexivity ].
    destruct (publisher uc); reflexivity. }
  destruct (userClient uc) as [c|].
  - cbn [env_GetUser mocks.mock_env]. unfold mocks.MockUserClient_GetUser.
    rewrite Hu.
    destruct (run mocks.mock_env (CreateOrder_local uc input) w) as [[r w1] calls].
    simpl in *. exact Hlocal.
  - destruct (run mocks.mock_env (CreateOrder_local uc input) w) as [[r w1] calls].
    simpl in *. exact Hlocal.
Qed.

(** X12. With the repository of the tests, an order that [CreateOrder]
    returns can be read back: [GetOrder] with its identifier returns the
    same order, field for field.  The order is pending, has the user and
    total of the input and the identifier the repository had next. *)
Theorem mock_CreateOrder_then_GetOrder (uc : OrderUseCase)
    (input : CreateOrderInput) (w : mocks.MockWorld) (u : UserInfo) :
  mocks.users w !! in_UserID input = Some u ->
  in_UserID input <> 0%N ->
  total_in_range (in_Total input) = true ->
  let created := run mocks.mock_env (CreateOrder uc input) w in
  exists order,
    fst (fst created) = (Some {| out_Order := order |}, None) /\
    ID order = mocks.nextID w /\
    UserID order = in_UserID input /\
    Total order = in_Total input /\
    Status order = OrderStatusPending /\
    fst (fst (run mocks.mock_env (GetOrder uc {| in_ID := ID order |})
                (snd (fst created))))
    = (Some {| got_Order := order |}, None).
Proof.
  intros Hu Hid Hrange created. subst created.
  pose proof (mock_CreateOrder_run uc input w u Hu Hid Hrange) as Hrun.
  cbv zeta in Hrun.
  destruct (run mocks.mock_env (CreateOrder uc input) w) as [[r w1] calls].
  simpl in Hrun. injection Hrun as -> ->.
  eexists. split; [reflexivity|]. repeat split.
  rewrite run_GetOrder. cbn [in_ID fst snd mocks.mock_env env_GetByID].
  unfold mocks.MockOrderRepository_GetByID. cbn [mocks.orders ID].
  rewrite lookup_insert_eq. reflexivity.
Qed.

Lemma mock_CreateOrder_then_GetOrder_witness :
  exists order,
    fst (fst (run mocks.mock_env
                (CreateOrder mocks.useCase (mkCreateOrderInput 1%N mocks.f64_99_99))
                mocks.new_world))
    = (Some {| out_Order := order |}, None) /\
    ID order = 1%N.
Proof.
  destruct (mock_CreateOrder_then_GetOrder mocks.useCase
              (mkCreateOrderInput 1%N mocks.f64_99_99) mocks.new_world
              (mkUserInfo 1%N "John Doe" "john@example.com"))
    as (order & H1 & H2 & _); [reflexivity | discriminate | reflexivity |].
  exists order. split; assumption.
Defined.

Lemma succ_mod_neq (n : N) :
  (n < mocks.uint_max)%N -> ((n + 1) mod mocks.uint_max)%N <> n.
Proof.
  unfold mocks.uint_max. intros Hn Heq.
  destruct (N.eq_dec (n + 1) (2 ^ 64))%N as [Hmax|Hmax].
  - rewrite Hmax, N.Div0.mod_same in Heq. subst n. discriminate Hmax.
  - rewrite N.mod_small in Heq by lia. lia.
Qed.

(** X13. With the repository of the tests, two orders created one after
    the other get different identifiers, and after the second creation
    both can still be read back unchanged. *)
Theorem mock_CreateOrder_twice (uc : OrderUseCase)
    (input1 input2 : CreateOrderInput) (w : mocks.MockWorld) (u1 u2 : UserInfo) :
  (mocks.nextID w < mocks.uint_max)%N ->
  mocks.users w !! in_UserID input1 = Some u1 ->
  mocks.users w !! in_UserID input2 = Some u2 ->
  in_UserID input1 <> 0%N -> in_UserID input2 <> 0%N ->
  total_in_range (in_Total input1) = true ->
  total_in_range (in_Total input2) = true ->
  let first := run mocks.mock_env (CreateOrder uc input1) w in
  let second := run mocks.mock_env (CreateOrder uc input2) (snd (fst first)) in
  let after := snd (fst second) in
  exists o1 o2,
    fst (fst first) = (Some {| out_Order := o1 |}, None) /\
    fst (fst second) = (Some {| out_Order := o2 |}, None) /\
    ID o1 <> ID o2 /\
    fst (fst (run mocks.mock_env (GetOrder uc {| in_ID := ID o1 |}) after))
    = (Some {| got_Order := o1 |}, None) /\
    fst (fst (run mocks.mock_env (GetOrder uc {| in_ID := ID o2 |}) after))
    = (Some {| got_Order := o2 |}, None).
Proof.
  intros Hn Hu1 Hu2 Hid1 Hid2 Hr1 Hr2 first second after.
  subst after second first.
  pose proof (mock_CreateOrder_run uc input1 w u1 Hu1 Hid1 Hr1) as Hrun1.
  cbv zeta in Hrun1.
  destruct (run mocks.mock_env (CreateOrder uc input1) w) as [[r1 w1] calls1].
  simpl in Hrun1. injection Hrun1 as -> ->. cbn [fst snd].
  match goal with
  | |- context [run mocks.mock_env (CreateOrder uc input2) ?w1] =>
      pose proof (mock_CreateOrder_run uc input2 w1 u2 Hu2 Hid2 Hr2) as Hrun2;
      cbv zeta in Hrun2;
      destruct (run mocks.mock_env (CreateOrder uc input2) w1) as [[r2 w2] calls2]
  end.
  simpl in Hrun2. injection Hrun2 as -> ->. cbn [fst snd].
  pose proof (succ_mod_neq _ Hn) as Hneq.
  eexists. eexists. split; [reflexivity|]. split; [reflexivity|].
  cbn [ID]. split; [congruence|].
  rewrite !run_GetOrder. cbn [in_ID fst snd mocks.mock_env env_GetByID].
  unfold mocks.MockOrderRepository_GetByID. cbn [mocks.orders].
  rewrite lookup_insert_ne by exact Hneq.
  rewrite !lookup_insert_eq. split; reflexivity.
Qed.

Lemma mock_CreateOrder_twice_witness :
  let first := run mocks.mock_env
                 (CreateOrder mocks.useCase (mkCreateOrderInput 1%N mocks.f64_99_99))
                 mocks.new_world in
  let second := run mocks.mock_env
                  (CreateOrder mocks.useCase (mkCreateOrderInput 1%N f64_1000000))
                  (snd (fst first)) in
  exists o1 o2,
    fst (fst first) = (Some {| out_Order := o1 |}, None) /\
    fst (fst second) = (Some {| out_Order := o2 |}, None) /\
    ID o1 <> ID o2.
Proof.
  destruct (mock_CreateOrder_twice mocks.useCase
              (mkCreateOrderInput 1%N mocks.f64_99_99)
              (mkCreateOrderInput 1%N f64_1000000) mocks.new_world
              (mkUserInfo 1%N "John Doe" "john@example.com")
              (mkUserInfo 1%N "John Doe" "john@example.com"))
    as (o1 & o2 & H1 & H2 & H3 & _);
    [reflexivity | reflexivity | reflexivity | discriminate | discriminate
    | reflexivity | reflexivity |].
  exists o1, o2. repeat split; assumption.
Defined.

(** ** The user use case *)

Lemma NewUser_times (name email : string) (now1 now2 now1' now2' : Time) :
  match users.NewUser name email now1 now2 with
  | inl e => users.NewUser name email now1' now2' = inl e
  | inr _ =>
      users.NewUser name email now1' now2'
      = inr (users_domain.mkUser 0%N name email now1' now2')
  end.
Proof.
  unfold users.NewUser, users_domain.Validate. simpl.
  repeat match goal with
  | |- context [if ?b then _ else _] => destruct b; [reflexivity|]
  end.
  reflexivity.
Qed.

(** X14. [CreateUser] validates before it touches anything: for a name
    or an email that [User.Validate] rejects it returns that Validation
    error after reading the clock twice, without any call to the
    repository or to the publisher. *)
Theorem CreateUser_invalid_input {W} (env : users.Env W)
    (uc : users.UserUseCase) (input : users.CreateUserInput) (w : W) (e : error) :
  users_domain.Validate
    (users_domain.mkUser 0%N (users.in_Name input) (users.in_Email input) 0%Z 0%Z)
  = Some e ->
  let r := users.run env (users.CreateUser uc input) w in
  fst (fst r) = (None, Some e) /\
  Is (Some e) CodeValidation = true /\
  snd r = [users.Time_Now; users.Time_Now].
Proof.
  intros Hv r. subst r.
  assert (Hnew : forall now1 now2,
            users.NewUser (users.in_Name input) (users.in_Email input) now1 now2 = inl e).
  { intros now1 now2.
    pose proof (NewUser_times (users.in_Name input) (users.in_Email input)
                  0%Z 0%Z now1 now2) as H.
    unfold users.NewUser in H at 1. rewrite Hv in H. exact H. }
  unfold users.CreateUser. cbn [users.run users.answer].
  destruct (users.env_Now env w) as [now1 w1].
  destruct (users.env_Now env w1) as [now2 w2].
  rewrite Hnew. cbn.
  split; [reflexivity|]. split; [|reflexivity].
  eapply User_Validate_error_kind; eauto.
Qed.

Lemma CreateUser_invalid_input_witness :
  fst (fst (users.run users_mocks.mock_env
              (users.CreateUser users_mocks.useCase
                 (users.mkCreateUserInput "John Doe" "invalid-email"))
              users_mocks.new_world))
  = (None, Some (AppErr users_domain.ErrEmailInvalid)).
Proof.
  apply (CreateUser_invalid_input users_mocks.mock_env users_mocks.useCase
           (users.mkCreateUserInput "John Doe" "invalid-email")
           users_mocks.new_world (AppErr users_domain.ErrEmailInvalid) eq_refl).
Defined.

Lemma NewUser_result (name email : string) (now1 now2 : Time) (user : users_domain.User) :
  users.NewUser name email now1 now2 = inr user ->
  user = users_domain.mkUser 0%N name email now1 now2.
Proof.
  unfold users.NewUser. destruct (users_domain.Validate _); [discriminate|].
  intros [= <-]. reflexivity.
Qed.

(** The run of [CreateUser] up to the answer of [GetByEmail]. *)
Ltac CreateUser_lookup env uc input w Hnew Hnow1 Hnow2 Hget :=
  unfold users.CreateUser; cbn [users.run users.answer];
  rewrite Hnow1, Hnow2, Hnew; cbn [users.run users.answer];
  rewrite Hget.

(** X15. Once the input is valid, the answer of [GetByEmail] decides: an
    error other than NotFound makes [CreateUser] fail as Internal with the
    message [failed to check email existence] and that error as the
    cause; otherwise a user found under the email makes it fail with the
    Conflict error [email already exists].  In both cases [Create] is not
    called and nothing is published. *)
Theorem CreateUser_email_check {W} (env : users.Env W)
    (uc : users.UserUseCase) (input : users.CreateUserInput) (w w1 w2 w3 : W)
    (now1 now2 : Time) (user : users_domain.User)
    (existing : option users_domain.User) (err : option error) :
  users.env_Now env w = (now1, w1) ->
  users.env_Now env w1 = (now2, w2) ->
  users.NewUser (users.in_Name input) (users.in_Email input) now1 now2 = inr user ->
  users.env_GetByEmail env (users.repo uc) (users_domain.Email user) w2
  = ((existing, err), w3) ->
  let r := users.run env (users.CreateUser uc input) w in
  let lookup := users.UserRepository_GetByEmail (users.repo uc) (users.in_Email input) in
  (err <> None -> Is err CodeNotFound = false ->
   r = ((None, Some (AppErr {| Code := CodeInternal;
                               Message := "failed to check email existence";
                               Details := None; Err := err |})),
        w3, [users.Time_Now; users.Time_Now; lookup])) /\
  ((err = None \/ Is err CodeNotFound = true) -> existing <> None ->
   r = ((None, Some (AppErr {| Code := CodeConflict;
                               Message := "email already exists";
                               Details := None; Err := None |})),
        w3, [users.Time_Now; users.Time_Now; lookup])).
Proof.
  intros Hnow1 Hnow2 Hnew Hget r lookup. subst r lookup.
  assert (Hemail : users_domain.Email user = users.in_Email input).
  { apply NewUser_result in Hnew. subst user. reflexivity. }
  CreateUser_lookup env uc input w Hnew Hnow1 Hnow2 Hget.
  rewrite Hemail. split.
  - intros Herr Hnf. destruct err as [e|]; [|contradiction].
    rewrite Hnf. reflexivity.
  - intros Herr Hex. destruct existing as [u|]; [|contradiction].
    destruct err as [e|].
    + destruct Herr as [Herr|Herr]; [discriminate|]. rewrite Herr. reflexivity.
    + reflexivity.
Qed.

Lemma CreateUser_email_check_witness :
  let w := users_mocks.mkMockWorld ∅
             {[ "john@example.com" :=
                  users_domain.mkUser 1%N "John Doe" "john@example.com" 0%Z 0%Z ]}
             2%N None None [] 0%Z in
  fst (fst (users.run users_mocks.mock_env
              (users.CreateUser users_mocks.useCase
                 (users.mkCreateUserInput "Jane Doe" "john@example.com")) w))
  = (None, Some (AppErr users_domain.ErrEmailExists)).
Proof.
  intros w.
  destruct (CreateUser_email_check users_mocks.mock_env users_mocks.useCase
              (users.mkCreateUserInput "Jane Doe" "john@example.com")
              w (users_mocks.with_clock 1%Z w) (users_mocks.with_clock 2%Z w)
              (users_mocks.with_clock 2%Z w) 0%Z 1%Z
              (users_domain.mkUser 0%N "Jane Doe" "john@example.com" 0%Z 1%Z)
              (Some (users_domain.mkUser 1%N "John Doe" "john@example.com" 0%Z 0%Z))
              None eq_refl eq_refl eq_refl eq_refl) as [_ H].
  rewrite H; [reflexivity | left; reflexivity | discriminate].
Defined.

(** X16. When the email is free (no user found, with no error or a
    NotFound error), the repository's [Create] decides: if it fails,
    [CreateUser] fails as Internal with the message [failed to create
    user] and nothing is published; if it succeeds, the stored user is
    returned with no error whatever the publisher answers. *)
Theorem CreateUser_create_and_publish {W} (env : users.Env W)
    (uc : users.UserUseCase) (input : users.CreateUserInput) (w w1 w2 w3 w4 : W)
    (now1 now2 : Time) (user user' : users_domain.User)
    (err cerr : option error) :
  users.env_Now env w = (now1, w1) ->
  users.env_Now env w1 = (now2, w2) ->
  users.NewUser (users.in_Name input) (users.in_Email input) now1 now2 = inr user ->
  users.env_GetByEmail env (users.repo uc) (users_domain.Email user) w2
  = ((None, err), w3) ->
  (err = None \/ Is err CodeNotFound = true) ->
  users.env_Create env (users.repo uc) user w3 = ((user', cerr), w4) ->
  let r := users.run env (users.CreateUser uc input) w in
  (forall e, cerr = Some e ->
   r = ((None, Some (AppErr {| Code := CodeInternal;
                               Message := "failed to create user";
                               Details := None; Err := Some e |})),
        w4,
        [users.Time_Now; users.Time_Now;
         users.UserRepository_GetByEmail (users.repo uc) (users_domain.Email user);
         users.UserRepository_Create (users.repo uc) user])) /\
  (cerr = None ->
   fst (fst r) = (Some {| users.out_User := user' |}, None) /\
   List.filter users.is_Create (snd r)
   = [users.UserRepository_Create (users.repo uc) user] /\
   length (List.filter users.is_Publish (snd r))
   = match users.publisher uc with Some _ => 1%nat | None => 0%nat end).
Proof.
  intros Hnow1 Hnow2 Hnew Hget Herr Hcreate r. subst r.
  CreateUser_lookup env uc input w Hnew Hnow1 Hnow2 Hget.
  assert (Hskip : match err with
                  | Some _ => negb (Is err CodeNotFound)
                  | None => false
                  end = false).
  { destruct err as [e|]; [|reflexivity].
    destruct Herr as [Herr|Herr]; [discriminate | rewrite Herr; reflexivity]. }
  rewrite Hskip. cbn [users.run users.answer]. rewrite Hcreate.
  split.
  - intros e ->. reflexivity.
  - intros ->.
    destruct (users.publisher uc) as [p|]; [|repeat split].
    cbn [users.run users.answer].
    destruct (users.env_PublishUserCreated env p user' w4) as [[e|] w5];
      repeat split.
Qed.

Lemma CreateUser_create_and_publish_witness :
  fst (fst (users.run users_mocks.mock_env
              (users.CreateUser users_mocks.useCase
                 (users.mkCreateUserInput "John Doe" "john@example.com"))
              users_mocks.new_world))
  = (Some {| users.out_User :=
               users_domain.mkUser 1%N "John Doe" "john@example.com" 0%Z 1%Z |}, None).
Proof.
  eapply (CreateUser_create_and_publish users_mocks.mock_env users_mocks.useCase
            (users.mkCreateUserInput "John Doe" "john@example.com")
            users_mocks.new_world);
    try reflexivity.
  right. reflexivity.
Defined.

Lemma NewUser_valid (name email : string) (now1 now2 : Time) :
  users_domain.Validate (users_domain.mkUser 0%N name email 0%Z 0%Z) = None ->
  users.NewUser name email now1 now2
  = inr (users_domain.mkUser 0%N name email now1 now2).
Proof.
  intros Hv.
  pose proof (NewUser_times name email 0%Z 0%Z now1 now2) as H.
  unfold users.NewUser in H at 1. rewrite Hv in H. exact H.
Qed.

(** What [CreateUser] does to the world of the test doubles when the
    email is free. *)
Lemma mock_CreateUser_run (uc : users.UserUseCase) (w : users_mocks.MockWorld)
    (name email : string) :
  users_mocks.createFn w = None ->
  users_mocks.byEmail w !! email = None ->
  users_domain.Validate (users_domain.mkUser 0%N name email 0%Z 0%Z) = None ->
  let user := users_domain.mkUser (users_mocks.nextID w) name email
                (users_mocks.clock w) (users_mocks.clock w + 1)%Z in
  fst (users.run users_mocks.mock_env
         (users.CreateUser uc (users.mkCreateUserInput name email)) w) =
  ((Some {| users.out_User := user |}, None),
   {| users_mocks.mock_users := <[users_mocks.nextID w := user]> (users_mocks.mock_users w);
      users_mocks.byEmail := <[email := user]> (users_mocks.byEmail w);
      users_mocks.nextID := ((users_mocks.nextID w + 1) mod mocks.uint_max)%N;
      users_mocks.createFn := None;
      users_mocks.getByIDFn := users_mocks.getByIDFn w;
      users_mocks.events := match users.publisher uc with
                            | Some _ => (users_mocks.events w ++ [user])%list
                            | None => users_mocks.events w
                            end;
      users_mocks.clock := (users_mocks.clock w + 1 + 1)%Z |}).
Proof.
  intros Hfn Hfree Hv user.
  unfold users.CreateUser.
  cbn [users.run users.answer users_mocks.mock_env users.env_Now users_mocks.tick
       users.in_Name users.in_Email].
  rewrite (NewUser_valid name email _ _ Hv).
  cbn [users.run users.answer users_mocks.mock_env users.env_GetByEmail
       users.env_Create users.repo users_domain.Email].
  unfold users_mocks.MockUserRepository_GetByEmail.
  cbn [users_mocks.byEmail users_mocks.with_clock]. rewrite Hfree.
  cbn [Is As' As Code NewNotFound]. rewrite String.eqb_refl. cbn [negb].
  cbn [users.run users.answer users_mocks.mock_env users.env_Create].
  unfold users_mocks.MockUserRepository_Create.
  cbn [users_mocks.createFn users_mocks.with_clock]. rewrite Hfn.
  destruct (users.publisher uc) as [p|]; reflexivity.
Qed.

(** X17. With the repository of the tests, once a user has been created
    under an email, a second [CreateUser] with the same email fails with
    the Conflict error [email already exists], whatever the name, and
    stores nothing more. *)
Theorem mock_CreateUser_duplicate (uc : users.UserUseCase)
    (w : users_mocks.MockWorld) (name1 name2 email : string) :
  users_mocks.createFn w = None ->
  users_mocks.byEmail w !! email = None ->
  users_domain.Validate (users_domain.mkUser 0%N name1 email 0%Z 0%Z) = None ->
  (2 <= String.length name2 <= 100)%nat ->
  let first := users.run users_mocks.mock_env
                 (users.CreateUser uc (users.mkCreateUserInput name1 email)) w in
  let second := users.run users_mocks.mock_env
                  (users.CreateUser uc (users.mkCreateUserInput name2 email))
                  (snd (fst first)) in
  (exists user,
     fst (fst first) = (Some {| users.out_User := user |}, None) /\
     users_domain.ID user = users_mocks.nextID w /\
     users_domain.Name user = name1 /\ users_domain.Email user = email) /\
  fst (fst second) = (None, Some (AppErr users_domain.ErrEmailExists)) /\
  List.filter users.is_Create (snd second) = [] /\
  users_mocks.mock_users (snd (fst second)) = users_mocks.mock_users (snd (fst first)) /\
  users_mocks.byEmail (snd (fst second)) = users_mocks.byEmail (snd (fst first)).
Proof.
  intros Hfn Hfree Hv1 Hlen first second. subst second first.
  pose proof (mock_CreateUser_run uc w name1 email Hfn Hfree Hv1) as Hrun.
  cbv zeta in Hrun.
  destruct (users.run users_mocks.mock_env _ w) as [[r1 w1] calls1].
  simpl in Hrun. injection Hrun as -> ->. cbn [fst snd].
  split; [eexists; repeat split|].
  assert (Hv2 : users_domain.Validate (users_domain.mkUser 0%N name2 email 0%Z 0%Z) = None).
  { apply User_Validate_None. apply User_Validate_None in Hv1 as [_ Hm].
    split; assumption. }
  match goal with
  | |- context [users.run users_mocks.mock_env ?p ?w1] =>
      set (w' := w1)
  end.
  unfold users.CreateUser.
  cbn [users.run users.answer users_mocks.mock_env users.env_Now users_mocks.tick
       users.in_Name users.in_Email].
  rewrite (NewUser_valid name2 email _ _ Hv2).
  cbn [users.run users.answer users_mocks.mock_env users.env_GetByEmail
       users.repo users_domain.Email].
  unfold users_mocks.MockUserRepository_GetByEmail.
  subst w'. cbn [users_mocks.byEmail users_mocks.with_clock].
  rewrite lookup_insert_eq. cbn. repeat split.
Qed.

Lemma mock_CreateUser_duplicate_witness :
  let first := users.run users_mocks.mock_env
                 (users.CreateUser users_mocks.useCase
                    (users.mkCreateUserInput "John Doe" "john@example.com"))
                 users_mocks.new_world in
  fst (fst (users.run users_mocks.mock_env
              (users.CreateUser users_mocks.useCase
                 (users.mkCreateUserInput "Jane Doe" "john@example.com"))
              (snd (fst first))))
  = (None, Some (AppErr users_domain.ErrEmailExists)).
Proof.
  apply (mock_CreateUser_duplicate users_mocks.useCase users_mocks.new_world
           "John Doe" "Jane Doe" "john@example.com");
    [reflexivity | reflexivity | reflexivity | simpl; lia].
Defined.

(** ** The Postgres repositories *)

Lemma orders_toDomain_id (m : adapters.OrderModel) : adapters.toDomain m = m.
Proof. destruct m. reflexivity. Qed.


(** X18. [PostgresOrderRepository.GetByID] never changes the table.  It
    returns the stored row when there is one; a failure of the database
    other than record-not-found comes back as an Internal error with the
    message [failed to get order] and the failure as its cause, so that
    [GetOrder] answers 500 for it and not 404. *)
Theorem PostgresOrderRepository_GetByID_spec (id : uint) (db : adapters.DB) :
  snd (adapters.PostgresOrderRepository_GetByID id db) = db /\
  (forall model,
     adapters.db_fault db = None ->
     adapters.orders_table db !! id = Some model ->
     fst (adapters.PostgresOrderRepository_GetByID id db) = (Some model, None)) /\
  (forall e,
     adapters.db_fault db = Some e ->
     adapters.is_ErrRecordNotFound e = false ->
     fst (adapters.PostgresOrderRepository_GetByID id db) =
     (None, Some (AppErr {| Code := CodeInternal; Message := "failed to get order";
                            Details := None; Err := Some e |})) /\
     forall uc : OrderUseCase,
       HTTPStatus (snd (fst (fst (run scenarios.lookup_env
                                    (GetOrder uc {| in_ID := id |}) db)))) = 500%Z).
Proof.
  unfold adapters.PostgresOrderRepository_GetByID, adapters.gorm_First.
  split; [|split].
  - destruct (adapters.db_fault db) as [e|].
    + destruct (adapters.is_ErrRecordNotFound e); reflexivity.
    + destruct (_ !! _); reflexivity.
  - intros model Hf Hrow. unfold adapters.OrderModel in *.
    rewrite Hf, Hrow, orders_toDomain_id. reflexivity.
  - intros e Hf Hnf. rewrite Hf, Hnf. split; [reflexivity|].
    intros uc. rewrite run_GetOrder.
    cbn [in_ID fst snd scenarios.lookup_env env_GetByID].
    unfold adapters.PostgresOrderRepository_GetByID, adapters.gorm_First.
    rewrite Hf, Hnf. reflexivity.
Qed.

Lemma PostgresOrderRepository_GetByID_spec_witness :
  fst (adapters.PostgresOrderRepository_GetByID 3%N
         (adapters.mkDB ∅ (Some (OpaqueErr "pq: connection reset"))))
  = (None, Some (AppErr (NewInternal "failed to get order"
                           (Some (OpaqueErr "pq: connection reset"))))).
Proof.
  apply (PostgresOrderRepository_GetByID_spec 3%N
           (adapters.mkDB ∅ (Some (OpaqueErr "pq: connection reset")))
           ); reflexivity.
Defined.



(** ** Across the services *)

(** What the client interceptor makes of an error the server interceptor
    sent. *)
Lemma client_view_of_server_error (e : error) :
  let seen := FromGRPCStatus (GRPCStatus (Some e)) in
  adapters.UnaryClientInterceptor (GRPCStatus (Some e)) = Some (AppErr seen) /\
  Message seen = match As e with Some a => Message a | None => "internal error" end /\
  HTTPStatus (Some (AppErr seen)) = HTTPStatus (Some e) /\
  (Is (Some (AppErr seen)) CodeNotFound = true <-> kind_of (Some e) = Some CodeNotFound).
Proof.
  intros seen. subst seen.
  split; [|split; [|split]].
  - destruct (GRPCStatus_Some (Some e)) as (c & msg & Hs & _). rewrite Hs. reflexivity.
  - unfold GRPCStatus. simpl. destruct (As e) as [a|]; [|reflexivity].
    repeat match goal with
    | |- context [String.eqb ?x ?y] => destruct (String.eqb x y); [reflexivity|]
    end.
    reflexivity.
  - apply HTTPStatus_hop.
  - unfold GRPCStatus, kind_of. simpl. destruct (As e) as [a|]; simpl.
    + destruct (String.eqb_spec (Code a) CodeValidation) as [Hv|Hv].
      { rewrite Hv. split; [discriminate | intros [=]]. }
      destruct (String.eqb_spec (Code a) CodeNotFound) as [Hn|Hn].
      { rewrite Hn. split; reflexivity. }
      split; [|congruence].
      repeat match goal with
      | |- context [String.eqb ?x ?y] => destruct (String.eqb x y); [discriminate|]
      end.
      discriminate.
    + split; discriminate.
Qed.

(** X20. When the orders service asks the users service for a user and
    the users use case fails with an error [e], [CreateOrder] makes only
    that call and fails: with the Validation error [user not found]
    carrying the user identifier (HTTP 400) if [e] is of kind NotFound,
    and otherwise with an error whose HTTP status is that of [e] and whose
    message is [failed to validate user: ] followed by the message of [e]
    (or [internal error] when [e] is not an application error). *)
Theorem CreateOrder_users_service_failure {W} (env : Env W) (uenv : users.Env W)
    (uc : OrderUseCase) (uuc : users.UserUseCase)
    (input : CreateOrderInput) (w : W) (c : handle) (e : error) :
  userClient uc = Some c ->
  env_GetUser env c = adapters.GRPCUserClient_GetUser (users_service_GetUser uenv uuc) ->
  snd (fst (fst (users.run uenv (users.GetUser uuc {| users.in_ID := in_UserID input |}) w)))
  = Some e ->
  let r := run env (CreateOrder uc input) w in
  snd r = [UserClient_GetUser c (in_UserID input)] /\
  fst (fst (fst r)) = None /\
  (kind_of (Some e) = Some CodeNotFound ->
   snd (fst (fst r)) = NewUserNotFoundError (in_UserID input) /\
   HTTPStatus (snd (fst (fst r))) = 400%Z) /\
  (kind_of (Some e) <> Some CodeNotFound ->
   HTTPStatus (snd (fst (fst r))) = HTTPStatus (Some e) /\
   exists a,
     snd (fst (fst r)) = Some (AppErr a) /\
     Message a = "failed to validate user: " ++
                 match As e with Some x => Message x | None => "internal error" end).
Proof.
  intros Hc Henv Hfail r. subst r.
  rewrite run_CreateOrder. unfold user_check. rewrite Hc, Henv.
  unfold adapters.GRPCUserClient_GetUser, users_service_GetUser,
    grpcpkg.UnaryServerInterceptor, users_adapters.GRPCServer_GetUser.
  destruct (users.run uenv _ w) as [[[out err] w1] ucalls].
  simpl in Hfail. subst err.
  destruct (client_view_of_server_error e) as (Hview & Hmsg & Hstatus & Hnf).
  cbv zeta in Hview, Hmsg, Hstatus, Hnf.
  cbn [fst snd]. rewrite Hview.
  split; [|split; [|split]].
  - destruct (Is _ CodeNotFound); reflexivity.
  - destruct (Is _ CodeNotFound); reflexivity.
  - intros Hk. apply Hnf in Hk. rewrite Hk. split; reflexivity.
  - intros Hk.
    destruct (Is (Some (AppErr (FromGRPCStatus (GRPCStatus (Some e))))) CodeNotFound)
      eqn:His; [exfalso; apply Hk, Hnf; reflexivity|].
    cbn [fst snd]. split.
    + rewrite <- Hstatus.
      apply HTTPStatus_Code.
      rewrite (Wrap_As (Some (AppErr (FromGRPCStatus (GRPCStatus (Some e)))))
                 (FromGRPCStatus (GRPCStatus (Some e))) _ eq_refl).
      reflexivity.
    + eexists. split; [reflexivity|].
      rewrite (Wrap_As (Some (AppErr (FromGRPCStatus (GRPCStatus (Some e)))))
                 (FromGRPCStatus (GRPCStatus (Some e))) _ eq_refl).
      cbn [Message]. rewrite Hmsg. reflexivity.
Qed.

Lemma CreateOrder_users_service_failure_witness :
  let env := mkEnv users_mocks.MockWorld
               (fun _ => adapters.GRPCUserClient_GetUser
                           (users_service_GetUser users_mocks.mock_env
                              users_mocks.useCase))
               (fun _ order w => ((order, None), w))
               (fun _ _ w => ((None, None), w))
               (fun _ _ w => (None, w))
               users_mocks.tick in
  snd (fst (fst (run env (CreateOrder mocks.useCase
                            (mkCreateOrderInput 999%N mocks.f64_99_99))
                   users_mocks.new_world)))
  = NewUserNotFoundError 999%N.
Proof.
  intros env.
  apply (CreateOrder_users_service_failure env users_mocks.mock_env
           mocks.useCase users_mocks.useCase
           (mkCreateOrderInput 999%N mocks.f64_99_99) users_mocks.new_world 3%N
           (AppErr (NewNotFound "user" (AnyUint 999%N))) eq_refl eq_refl eq_refl).
  reflexivity.
Defined.

Lemma md_of_pairs_absent (k : string) (kvs : list (string * string)) :
  (forall v, ~ In (k, v) kvs) -> grpcpkg.md_of_pairs kvs !! k = None.
Proof.
  induction kvs as [|[k' v'] kvs IH]; intros Hno; simpl; unfold grpcpkg.MD in *.
  - apply lookup_empty.
  - rewrite lookup_insert_ne.
    + apply IH. intros v Hin. apply (Hno v). right. exact Hin.
    + intros ->. apply (Hno v'). left. reflexivity.
Qed.

Lemma md_of_pairs_last (k v : string) (kvs : list (string * string)) :
  (forall v', ~ In (k, v') kvs) ->
  grpcpkg.md_of_pairs (kvs ++ [(k, v)]) !! k = Some [v].
Proof.
  induction kvs as [|[k' v'] kvs IH]; intros Hno; simpl; unfold grpcpkg.MD in *.
  - rewrite lookup_insert_eq. rewrite lookup_empty. reflexivity.
  - rewrite lookup_insert_ne.
    + apply IH. intros v0 Hin. apply (Hno v0). right. exact Hin.
    + intros ->. apply (Hno v'). left. reflexivity.
Qed.

(** X21. The trace identifier crosses a gRPC call.  The client
    interceptor sends the identifier of its context as the metadata
    [x-trace-id]; when the context carried no such metadata before, the
    server interceptor hands its handler a context with the same
    identifier, and logs under it.  A client context without an
    identifier sends nothing, and the handler runs under the identifier
    the server generates. *)
Theorem trace_id_crosses_the_call {Req W : Type}
    (cctx : grpcpkg.Context) (uuid method : string) (req : Req) (w : W) :
  (forall v, ~ In (grpcpkg.TraceIDMetadataKey, v) (grpcpkg.ctx_outgoing cctx)) ->
  let sent := snd (grpcpkg.UnaryClientInterceptor cctx (fun ctx _ => (None, ctx)) cctx) in
  let served :=
    grpcpkg.UnaryServerInterceptor uuid
      (grpcpkg.incoming_context (grpcpkg.md_of_pairs (grpcpkg.ctx_outgoing sent)))
      req method
      (fun ctx _ w => ((Some (grpcpkg.GetTraceID ctx), None), w)) w in
  let expected :=
    if String.eqb (grpcpkg.GetTraceID cctx) "" then uuid else grpcpkg.GetTraceID cctx in
  fst (fst (fst served)) = Some expected /\
  grpcpkg.log_trace_id (snd (fst served)) = expected /\
  grpcpkg.GetTraceID sent = grpcpkg.GetTraceID cctx.
Proof.
  intros Hno sent served expected. subst served sent expected.
  unfold grpcpkg.UnaryClientInterceptor, grpcpkg.UnaryServerInterceptor,
    grpcpkg.extractTraceID.
  destruct (String.eqb_spec (grpcpkg.GetTraceID cctx) "") as [He|He];
    cbn [negb snd fst grpcpkg.incoming_context grpcpkg.ctx_incoming
         grpcpkg.AppendToOutgoingContext grpcpkg.ctx_outgoing].
  - rewrite (md_of_pairs_absent _ _ Hno). simpl. repeat split. 
  - rewrite (md_of_pairs_last _ (grpcpkg.GetTraceID cctx) _ Hno).
    destruct (String.eqb_spec (grpcpkg.GetTraceID cctx) ""); [contradiction|].
    repeat split.
Qed.

Lemma trace_id_crosses_the_call_witness :
  let cctx := grpcpkg.WithTraceIDContext grpcpkg.Background "4f1c-trace" in
  let sent := snd (grpcpkg.UnaryClientInterceptor cctx (fun ctx _ => (None, ctx)) cctx) in
  fst (fst (fst (grpcpkg.UnaryServerInterceptor "fresh-uuid"
                   (grpcpkg.incoming_context
                      (grpcpkg.md_of_pairs (grpcpkg.ctx_outgoing sent)))
                   tt "/orders.v1.OrderService/GetOrder"
                   (fun ctx _ w => ((Some (grpcpkg.GetTraceID ctx), None), w)) tt)))
  = Some "4f1c-trace".
Proof.
  intros cctx sent.
  apply (trace_id_crosses_the_call cctx "fresh-uuid"
           "/orders.v1.OrderService/GetOrder" tt tt).
  intros v [].
Defined.

(** ** Identifiers in URLs *)

Lemma string_of_uint_nonempty (d : Decimal.uint) :
  d <> Decimal.Nil -> NilEmpty.string_of_uint d <> "".
Proof. destruct d; simpl; intros H; try discriminate. contradiction. Qed.

Lemma N_to_uint_nonnil (n : N) : N.to_uint n <> Decimal.Nil.
Proof.
  destruct n as [|p]; [discriminate|]. apply DecimalPos.Unsigned.to_uint_nonnil.
Qed.

Lemma uint_of_string_digits (s : string) (d : Decimal.uint) :
  NilEmpty.uint_of_string s = Some d -> all_in users_domain.is_digit s = true.
Proof.
  revert d. induction s as [|c s IH]; intros d; simpl; [reflexivity|].
  destruct (NilEmpty.uint_of_string s) as [d'|]; [|discriminate].
  rewrite (IH d' eq_refl), andb_true_r.
  destruct c as [[] [] [] [] [] [] [] []]; simpl; intros H;
    first [reflexivity | discriminate H].
Qed.

(** [ParseUint] reads back what [FormatUint] prints, as long as the
    number fits in the bits asked for, and rejects it otherwise; 0 asks
    for [IntSize] bits, and more than 64 bits cannot be asked for. *)
Lemma ParseUint_FormatUint (bitSize n : N) :
  strconv.ParseUint (strconv.FormatUint n) bitSize =
  if (64 <? bitSize)%N then None
  else if (n <? 2 ^ (if (bitSize =? 0)%N then strconv.IntSize else bitSize))%N
       then Some n else None.
Proof.
  unfold strconv.ParseUint, strconv.FormatUint.
  destruct (String.eqb_spec (NilEmpty.string_of_uint (N.to_uint n)) "") as [He|He].
  - exfalso. exact (string_of_uint_nonempty _ (N_to_uint_nonnil n) He).
  - rewrite NilEmpty.usu, DecimalN.Unsigned.of_to. reflexivity.
Qed.

(** What [ParseUint] accepts is not empty, is made of decimal digits only,
    and its value fits in the bits asked for, 64 at most. *)
Lemma ParseUint_accepts (s : string) (bitSize n : N) :
  strconv.ParseUint s bitSize = Some n ->
  s <> "" /\ all_in users_domain.is_digit s = true /\
  (bitSize <= 64)%N /\
  (n < 2 ^ (if (bitSize =? 0)%N then strconv.IntSize else bitSize))%N.
Proof.
  unfold strconv.ParseUint.
  destruct (String.eqb_spec s "") as [He|He]; [discriminate|].
  destruct (N.ltb_spec 64 bitSize) as [Hb|Hb]; [discriminate|].
  destruct (NilEmpty.uint_of_string s) as [d|] eqn:Hd; [|discriminate].
  cbv zeta.
  destruct (N.ltb_spec (N.of_uint d)
              (2 ^ (if (bitSize =? 0)%N then strconv.IntSize else bitSize)));
    [|discriminate].
  intros [= <-]. split; [exact He|]. split; [|split; assumption].
  eapply uint_of_string_digits; eauto.
Qed.

(** ** The HTTP routes *)

Lemma run_bind {W A B} (env : Env W) (p : Prog A) (k : A -> Prog B) :
  forall w,
    run env (http.bind p k) w =
    let '(a, w1, calls1) := run env p w in
    let '(b, w2, calls2) := run env (k a) w1 in
    (b, w2, (calls1 ++ calls2)%list).
Proof.
  induction p as [a|c f IH]; intros w; simpl.
  - destruct (run env (k a) w) as [[b w2] calls2]. reflexivity.
  - destruct (answer env c w) as [x w1]. rewrite IH.
    destruct (run env (f x) w1) as [[a w2] calls1].
    destruct (run env (k a) w2) as [[b w3] calls2]. reflexivity.
Qed.

(** What [ErrorHandler] writes for a handler that attached one error. *)
Lemma ErrorHandler_error (t : string) (e : error) :
  http.ErrorHandler t (http.Done [e] None) =
  Some {| http.status := HTTPStatus (Some e); http.header_TraceID := t;
          http.body := http.ErrorJSON (snd (ToJSON (Some e) t)) |}.
Proof.
  unfold http.ErrorHandler, ToJSON. simpl.
  destruct (As e) as [a|] eqn:Ha.
  - rewrite (HTTPStatus_As (Some e) a Ha). reflexivity.
  - rewrite (HTTPStatus_not_AppError (Some e) Ha). reflexivity.
Qed.



(** X24. The route [POST /orders] of the orders service.  A body that
    does not bind is answered with 400 and the Validation error [invalid
    request body], the binder's text as details, and nothing is called.
    Otherwise the use case runs on the user and total of the body: its
    error is answered with the HTTP status and the body of that error, its
    order with 201; the handler never panics. *)
Theorem serve_CreateOrder_spec {W} (format : Time -> string) (env : Env W)
    (uc : OrderUseCase) (header uuid : string) (w : W) :
  let t := http.TraceID header uuid in
  (forall msg,
     serve_CreateOrder format env uc header uuid (inl msg) w =
     (Some {| http.status := 400; http.header_TraceID := t;
              http.body := http.ErrorJSON
                {| resp_Error := {| body_Code := CodeValidation;
                                    body_Message := "invalid request body";
                                    body_Details := Some (AnyString msg) |};
                   resp_TraceID := t |} |}, w, [])) /\
  (forall req,
     let created := run env (CreateOrder uc {| in_UserID := http.req_UserID req;
                                               in_Total := http.req_Total req |}) w in
     let r := serve_CreateOrder format env uc header uuid (inr req) w in
     snd r = snd created /\
     snd (fst r) = snd (fst created) /\
     (forall e, snd (fst (fst created)) = Some e ->
        fst (fst r) =
        Some {| http.status := HTTPStatus (Some e); http.header_TraceID := t;
                http.body := http.ErrorJSON (snd (ToJSON (Some e) t)) |}) /\
     (forall out, fst (fst created) = (Some out, None) ->
        fst (fst r) =
        Some {| http.status := 201; http.header_TraceID := t;
                http.body := http.DataJSON
                               (http.response_of format (out_Order out)) t |})).
Proof.
  intros t. split.
  - intros msg. reflexivity.
  - intros req created r. subst r created.
    unfold serve_CreateOrder, http.HTTPHandler_CreateOrder. fold t.
    rewrite run_bind.
    pose proof (CreateOrder_result_shape env uc
                  {| in_UserID := http.req_UserID req; in_Total := http.req_Total req |} w)
      as Hshape. cbv zeta in Hshape.
    destruct (run env (CreateOrder uc _) w) as [[[out err] w1] calls].
    cbn [fst snd] in *.
    destruct Hshape as [[o [= -> ->]] | [a [= -> ->]]]; cbn -[http.ErrorHandler].
    + rewrite app_nil_r. repeat split; try discriminate.
      intros o' [= <-]. reflexivity.
    + rewrite app_nil_r, ErrorHandler_error. repeat split; try discriminate.
      intros e [= <-]. reflexivity.
Qed.

Lemma serve_CreateOrder_spec_witness :
  fst (fst (serve_CreateOrder (fun _ => "2024-01-01T00:00:00Z") mocks.mock_env
              mocks.useCase "abc" "generated"
              (inr (http.mkCreateOrderRequest 999%N mocks.f64_99_99)) mocks.new_world))
  = Some {| http.status := 400; http.header_TraceID := "abc";
            http.body := http.ErrorJSON
              {| resp_Error :=
                   {| body_Code := CodeValidation; body_Message := "user not found";
                      body_Details := Some (AnyMap {[ "user_id" := AnyUint 999%N ]}) |};
                 resp_TraceID := "abc" |} |}.
Proof.
  destruct (serve_CreateOrder_spec (fun _ => "2024-01-01T00:00:00Z") mocks.mock_env
              mocks.useCase "abc" "generated" mocks.new_world) as [_ H].
  destruct (H (http.mkCreateOrderRequest 999%N mocks.f64_99_99)) as (_ & _ & He & _).
  rewrite (He (AppErr (NewValidation "user not found"
                         (Some (AnyMap {[ "user_id" := AnyUint 999%N ]}))))).
  - reflexivity.
  - reflexivity.
Defined.



(** ** The user use case and the server interceptor, in every environment *)



(** X27. The server interceptor lets a reply through unchanged and never
    lets an error through as it is: what the caller gets is the status
    error [GRPCStatus] makes of it, and the reply is dropped.  The code it
    logs is the one [status.FromError] reads from the handler's error, so
    for an application error that wraps no status the line says
    [Unknown] whatever code is sent. *)
Theorem UnaryServerInterceptor_spec {Req Resp W : Type}
    (uuid method : string) (ctx : grpcpkg.Context) (req : Req)
    (handler : grpcpkg.Context -> Req -> W -> (option Resp * option error) * W)
    (w : W) :
  let traceID := if String.eqb (grpcpkg.extractTraceID ctx) "" then uuid
                 else grpcpkg.extractTraceID ctx in
  let handled := handler (grpcpkg.WithTraceIDContext ctx traceID) req w in
  let served := grpcpkg.UnaryServerInterceptor uuid ctx req method handler w in
  snd served = snd handled /\
  (snd (fst handled) = None ->
   fst (fst served) = (fst (fst handled), None) /\
   grpcpkg.log_level (snd (fst served)) = "info") /\
  (forall e, snd (fst handled) = Some e ->
   fst (fst served) = (None, GRPCStatus (Some e)) /\
   (exists c msg, GRPCStatus (Some e) = Some (StatusErr c msg)) /\
   grpcpkg.log_level (snd (fst served)) = "error" /\
   (wrapped_status e = None ->
    grpcpkg.log_grpc_code (snd (fst served)) = Some "Unknown")).
Proof.
  intros traceID handled served. subst served handled.
  unfold grpcpkg.UnaryServerInterceptor. fold traceID.
  destruct (handler (grpcpkg.WithTraceIDContext ctx traceID) req w)
    as [[resp [e|]] w1]; cbn [fst snd].
  - split; [reflexivity|]. split; [discriminate|].
    intros e0 [= <-]. split; [reflexivity|]. split; [|split; [reflexivity|]].
    + destruct (GRPCStatus_Some (Some e)) as (c & msg & H & _). eauto.
    + intros Hw. cbn [grpcpkg.log_grpc_code]. unfold status_FromError.
      destruct e; simpl in *; try rewrite Hw; try discriminate; reflexivity.
  - split; [reflexivity|]. split; [|discriminate].
    intros _. split; reflexivity.
Qed.

Lemma UnaryServerInterceptor_spec_witness :
  let served :=
    grpcpkg.UnaryServerInterceptor "fresh-uuid" grpcpkg.Background 7%N
      "/orders.v1.OrderService/GetOrder"
      (fun _ id (w : unit) => ((@None unit, NewOrderNotFound id), w)) tt in
  fst (fst served)
  = (None, Some (StatusErr codes.NotFound "order with id '7' not found")) /\
  grpcpkg.log_grpc_code (snd (fst served)) = Some "Unknown".
Proof.
  intros served. subst served.
  destruct (UnaryServerInterceptor_spec "fresh-uuid" "/orders.v1.OrderService/GetOrder"
              grpcpkg.Background 7%N
              (fun _ id (w : unit) => ((@None unit, NewOrderNotFound id), w)) tt)
    as (_ & _ & H).
  destruct (H (AppErr (NewNotFound "order" (AnyUint 7%N))) eq_refl)
    as (H1 & _ & _ & H2).
  split; [rewrite H1; reflexivity | apply H2; reflexivity].
Defined.

Lemma NewUser_accepts_iff_witness :
  exists user, users.NewUser "John Doe" "john@example.com" 0%Z 1%Z = inr user.
Proof.
  apply (NewUser_accepts_iff "John Doe" "john@example.com" 0%Z 1%Z).
  split; [simpl; lia|].
  exists "john", "example", "com".
  repeat split; try reflexivity; try discriminate; simpl; lia.
Defined.

